(** * git_analytics.py: a shallow embedding of [GitAnalytics] and its properties

    The Python class [GitAnalytics] drives the external [git], [gh] and [glab]
    tools, the file system and one HTTP endpoint, and parses their
    line-oriented text output.  The external collaborators are gathered in a
    record [World]; every method becomes a computation in a small
    state-and-exception monad whose state holds [self.repo_path], the lines
    printed so far and the trace of external calls. *)

From Stdlib Require Import String Ascii List ZArith Lia Bool Arith.
From Stdlib Require Import Sorting.Permutation Sorting.Sorted.
From stdpp Require Import gmap strings list fin_maps fin_sets.
From Equations Require Import Equations.

Open Scope string_scope.
Open Scope nat_scope.

(** String concatenation where [++] is read as list concatenation. *)
Infix "+++" := String.append (right associativity, at level 60) : string_scope.

(** ** Python [str] primitives

    A [str] is modelled as [String.string]; every character stands for one
    code point below 256. *)

Module PyStr.

(** [str.isspace] on one character, restricted to code points below 256:
    TAB, LF, VT, FF, CR, FS, GS, RS, US, SPACE, NEL and NBSP. *)
Definition is_space (c : ascii) : bool :=
  let n := nat_of_ascii c in
  ((9 <=? n) && (n <=? 13)) || ((28 <=? n) && (n <=? 32))
  || (n =? 133) || (n =? 160).

(** Dropping the leading characters that satisfy [p]. *)
Fixpoint lstrip_by (p : ascii -> bool) (s : string) : string :=
  match s with
  | String c s' => if p c then lstrip_by p s' else s
  | EmptyString => EmptyString
  end.

(** Dropping the trailing characters that satisfy [p]: a character is kept
    when it does not satisfy [p] or when something survives to its right. *)
Fixpoint rstrip_by (p : ascii -> bool) (s : string) : string :=
  match s with
  | EmptyString => EmptyString
  | String c s' =>
      match rstrip_by p s' with
      | EmptyString => if p c then EmptyString else String c EmptyString
      | r => String c r
      end
  end.

Definition lstrip : string -> string := lstrip_by is_space.
Definition rstrip : string -> string := rstrip_by is_space.

(** [s.strip()] *)
Definition strip (s : string) : string := lstrip (rstrip s).

Fixpoint forallb (p : ascii -> bool) (s : string) : bool :=
  match s with
  | EmptyString => true
  | String c s' => p c && forallb p s'
  end.

Fixpoint existsb (p : ascii -> bool) (s : string) : bool :=
  match s with
  | EmptyString => false
  | String c s' => p c || existsb p s'
  end.

(** [s.split(sep)] for a one-character separator: never returns the empty
    list, [''.split(sep) == ['']]. *)
Fixpoint split (sep : ascii) (s : string) : list string :=
  match s with
  | EmptyString => [EmptyString]
  | String c s' =>
      if Ascii.eqb c sep then EmptyString :: split sep s'
      else match split sep s' with
           | h :: t => String c h :: t
           | [] => [String c EmptyString]
           end
  end.

(** [sep.join(l)] *)
Fixpoint join (sep : string) (l : list string) : string :=
  match l with
  | [] => EmptyString
  | [x] => x
  | x :: xs => x ++ sep ++ join sep xs
  end.

(** [bool(s)]: a string is truthy when it is not empty. *)
Definition truthy (s : string) : bool :=
  match s with EmptyString => false | _ => true end.

(** [s.startswith(p)] *)
Fixpoint startswith (p s : string) : bool :=
  match p, s with
  | EmptyString, _ => true
  | String a p', String b s' => Ascii.eqb a b && startswith p' s'
  | String _ _, EmptyString => false
  end.

(** [p in s] *)
Fixpoint contains (p s : string) : bool :=
  startswith p s ||
  match s with
  | EmptyString => false
  | String _ s' => contains p s'
  end.

Fixpoint drop (n : nat) (s : string) : string :=
  match n, s with
  | S n', String _ s' => drop n' s'
  | _, _ => s
  end.

(** [s.split(sep)[-1]] for a non-empty separator: what follows the last
    occurrence of [sep], the whole of [s] when there is none.  [skip] counts
    the characters of an occurrence already matched that may not start a new
    one (Python's split does not look at overlapping occurrences). *)
Fixpoint last_piece_from (sep : string) (skip : nat) (cur s : string) : string :=
  match s with
  | EmptyString => cur
  | String _ s' =>
      match skip with
      | S k => last_piece_from sep k cur s'
      | O =>
          if startswith sep s
          then last_piece_from sep (String.length sep - 1) (drop (String.length sep) s) s'
          else last_piece_from sep 0 cur s'
      end
  end.

Definition split_last (sep s : string) : string := last_piece_from sep 0 s s.

(** [s.replace(old, '')] for a non-empty [old]: the non-overlapping
    occurrences, found left to right, are deleted. *)
Fixpoint remove_from (old : string) (skip : nat) (s : string) : string :=
  match s with
  | EmptyString => EmptyString
  | String c s' =>
      match skip with
      | S k => remove_from old k s'
      | O =>
          if startswith old s
          then remove_from old (String.length old - 1) s'
          else String c (remove_from old 0 s')
      end
  end.

Definition remove_all (old s : string) : string := remove_from old 0 s.

(** [c * n] *)
Fixpoint repeat_char (c : ascii) (n : nat) : string :=
  match n with
  | O => EmptyString
  | S n' => String c (repeat_char c n')
  end.

Definition is_digit (c : ascii) : bool :=
  let n := nat_of_ascii c in (48 <=? n) && (n <=? 57).

Definition digit_val (c : ascii) : Z := (Z.of_nat (nat_of_ascii c) - 48)%Z.

(** The digits of an integer literal as [int()] reads them: at least one
    digit, single underscores allowed between digits only.  [prev] tells
    whether the previous character was a digit. *)
Fixpoint int_digits (acc : Z) (prev : bool) (s : string) : option Z :=
  match s with
  | EmptyString => if prev then Some acc else None
  | String c s' =>
      if is_digit c then int_digits (acc * 10 + digit_val c)%Z true s'
      else if Ascii.eqb c "_" then
             if prev then
               match s' with
               | String d _ => if is_digit d then int_digits acc false s' else None
               | EmptyString => None
               end
             else None
      else None
  end.

(** The white space [int()] skips around a literal.  It is not that of
    [str.strip]: the literal is first brought to ASCII, where NEL and NBSP
    become spaces and every character below 127 stays itself, and then
    read with C's [isspace], so TAB, LF, VT, FF, CR, SPACE, NEL and NBSP
    are skipped while FS, GS, RS and US are not. *)
Definition is_int_space (c : ascii) : bool :=
  let n := nat_of_ascii c in
  ((9 <=? n) && (n <=? 13)) || (n =? 32) || (n =? 133) || (n =? 160).

(** [sys.get_int_max_str_digits()], at its default. *)
Definition max_str_digits : N := 4300.

(** The digit characters of a literal; underscores do not count. *)
Fixpoint count_digits (s : string) : N :=
  match s with
  | EmptyString => 0%N
  | String c s' => if is_digit c then N.succ (count_digits s') else count_digits s'
  end.

(** An unsigned literal: a well-formed one of more than [max_str_digits]
    digits is refused as well. *)
Definition int_literal (r : string) : option Z :=
  if (max_str_digits <? count_digits r)%N then None else int_digits 0 false r.

(** [int(s)] in base 10: surrounding white space is dropped, one sign is
    allowed; [None] stands for [ValueError]. *)
Definition int (s : string) : option Z :=
  match lstrip_by is_int_space (rstrip_by is_int_space s) with
  | String "-" r => option_map Z.opp (int_literal r)
  | String "+" r => int_literal r
  | r => int_literal r
  end.

Fixpoint digits_of_pos (fuel : nat) (n : Z) (acc : string) : string :=
  match fuel with
  | O => acc
  | S f =>
      let acc' := String (ascii_of_nat (Z.to_nat (n mod 10)%Z + 48)) acc in
      if (n <? 10)%Z then acc' else digits_of_pos f (n / 10)%Z acc'
  end.

(** [str(n)] for an [int] (of at most [max_str_digits] digits, beyond which
    Python refuses the conversion) *)
Definition of_Z (n : Z) : string :=
  if (n <? 0)%Z then String "-" (digits_of_pos (S (Z.to_nat (Z.log2 (- n)))) (- n)%Z EmptyString)
  else digits_of_pos (S (Z.to_nat (Z.log2 n))) n EmptyString.

Definition of_nat (n : nat) : string := of_Z (Z.of_nat n).

End PyStr.

Example strip_ex : PyStr.strip "  a b
" = "a b".
Proof. reflexivity. Qed.

Example split_ex : PyStr.split "-" "2023-01-05" = ["2023"; "01"; "05"].
Proof. reflexivity. Qed.

Example split_empty_ex : PyStr.split "-" "" = [""].
Proof. reflexivity. Qed.

Example int_ex : PyStr.int " +1_000 " = Some 1000%Z /\ PyStr.int "-" = None
                 /\ PyStr.int "-12" = Some (-12)%Z /\ PyStr.int "1__0" = None
                 /\ PyStr.int "" = None /\ PyStr.int "007" = Some 7%Z.
Proof. repeat split; reflexivity. Qed.

(** [int] does not skip the separators FS..US that [str.strip] removes, and
    skips NBSP. *)
Example int_space_ex :
  PyStr.int (String (ascii_of_nat 28) "5") = None
  /\ PyStr.strip (String (ascii_of_nat 28) "5") = "5"
  /\ PyStr.int (String (ascii_of_nat 160) "5") = Some 5%Z
  /\ PyStr.int (String (ascii_of_nat 11) "5") = Some 5%Z.
Proof. repeat split; reflexivity. Qed.

(** A literal of 4300 digits is read, one of 4301 digits is refused. *)
Example int_limit_ex :
  PyStr.int (PyStr.repeat_char "0" 4299 +++ "7") = Some 7%Z
  /\ PyStr.int (PyStr.repeat_char "0" 4300 +++ "7") = None.
Proof. split; vm_compute; reflexivity. Qed.

Example of_Z_ex : PyStr.of_Z 1230 = "1230" /\ PyStr.of_Z 0 = "0" /\ PyStr.of_Z (-45) = "-45"
  /\ PyStr.of_Z 1000000 = "1000000".
Proof. repeat split; reflexivity. Qed.

Example split_last_ex :
  PyStr.split_last "github.com/" "https://github.com/alice/proj.git" = "alice/proj.git"
  /\ PyStr.remove_all ".git" "alice/proj.git" = "alice/proj".
Proof. split; reflexivity. Qed.

(** ** [os.path] on POSIX paths *)

Module PyPath.

Definition is_slash (c : ascii) : bool := Ascii.eqb c "/".

(** [p[:p.rfind('/') + 1]] *)
Fixpoint head (p : string) : string :=
  match p with
  | EmptyString => EmptyString
  | String c p' =>
      if is_slash c || PyStr.existsb is_slash p' then String c (head p')
      else EmptyString
  end.

(** [os.path.dirname] *)
Definition dirname (p : string) : string :=
  let h := head p in
  if PyStr.truthy h && negb (PyStr.forallb is_slash h)
  then PyStr.rstrip_by is_slash h else h.

(** [os.path.basename] *)
Definition basename (p : string) : string :=
  PyStr.drop (String.length (head p)) p.

Definition endswith_slash (a : string) : bool :=
  match PyStr.rstrip_by is_slash a with
  | r => negb (String.eqb r a)
  end.

(** [os.path.join(a, b)] *)
Definition join (a b : string) : string :=
  if PyStr.startswith "/" b then b
  else if negb (PyStr.truthy a) || endswith_slash a then a ++ b
  else a ++ "/" ++ b.

(** The component loop of [os.path.normpath]; [comps] is kept reversed. *)
Fixpoint norm_comps (absolute : bool) (comps : list string) (todo : list string)
  : list string :=
  match todo with
  | [] => rev comps
  | comp :: rest =>
      if String.eqb comp "" || String.eqb comp "." then norm_comps absolute comps rest
      else if negb (String.eqb comp "..")
              || (negb absolute && match comps with [] => true | _ => false end)
              || match comps with c :: _ => String.eqb c ".." | [] => false end
      then norm_comps absolute (comp :: comps) rest
      else norm_comps absolute (List.tl comps) rest
  end.

(** [os.path.normpath] *)
Definition normpath (p : string) : string :=
  match p with
  | EmptyString => "."
  | _ =>
      let slashes :=
        if PyStr.startswith "/" p then
          if PyStr.startswith "//" p && negb (PyStr.startswith "///" p) then "//" else "/"
        else "" in
      let body := PyStr.join "/" (norm_comps (PyStr.truthy slashes) [] (PyStr.split "/" p)) in
      match slashes ++ body with
      | EmptyString => "."
      | r => r
      end
  end.

(** [os.path.abspath] for a process whose working directory is [cwd] *)
Definition abspath (cwd p : string) : string := normpath (join cwd p).

(** [os.path.splitext(p)[1]]: the extension starts at the last dot of the
    base name, unless only dots precede it. *)
Definition ext (p : string) : string :=
  match rev (PyStr.split "." (basename p)) with
  | last :: (_ :: _) as before =>
      if PyStr.forallb (Ascii.eqb ".") (PyStr.join "." (rev before)) then ""
      else "." ++ last
  | _ => ""
  end.

End PyPath.

Example dirname_ex :
  PyPath.dirname "/a/b/c" = "/a/b" /\ PyPath.dirname "/a" = "/" /\ PyPath.dirname "/" = "/"
  /\ PyPath.dirname "a" = "" /\ PyPath.dirname "//a" = "//" /\ PyPath.dirname "/a//b" = "/a".
Proof. repeat split; reflexivity. Qed.

Example basename_ex : PyPath.basename "/a/b/c.py" = "c.py" /\ PyPath.basename "/a/" = "".
Proof. repeat split; reflexivity. Qed.

Example join_ex :
  PyPath.join "/a" "b" = "/a/b" /\ PyPath.join "/a/" "b" = "/a/b" /\ PyPath.join "/a" "/b" = "/b"
  /\ PyPath.join "" "b" = "b".
Proof. repeat split; reflexivity. Qed.

Example abspath_ex :
  PyPath.abspath "/home/u" "." = "/home/u" /\ PyPath.abspath "/home/u" "../x/./y" = "/home/x/y"
  /\ PyPath.abspath "/home/u" "/" = "/" /\ PyPath.abspath "/" "../.." = "/".
Proof. repeat split; reflexivity. Qed.

Example ext_ex :
  PyPath.ext "src/a.tar.gz" = ".gz" /\ PyPath.ext ".bashrc" = "" /\ PyPath.ext "Makefile" = ""
  /\ PyPath.ext "a.b/c" = "" /\ PyPath.ext "..a" = "" /\ PyPath.ext "a." = ".".
Proof. repeat split; reflexivity. Qed.

(** ** The external collaborators *)

(** The values [json.loads] returns; an object is given by the items of
    its [dict], every key once. *)
#[local] Unset Elimination Schemes.
Inductive JSON :=
| JNull
| JBool (b : bool)
| JInt (n : Z)
| JFloat (repr : string)
| JStr (s : string)
| JArr (items : list JSON)
| JObj (fields : list (string * JSON)).
#[local] Set Elimination Schemes.

(** The exceptions the program meets, each with the text [str(e)] gives;
    all of them are subclasses of [Exception]. *)
Inductive exn :=
| CalledProcessError (returncode : Z) (stderr : string)
| FileNotFoundError (msg : string)
| JSONDecodeError (msg : string)
| TypeError (msg : string)
| AttributeError (msg : string)
| OtherException (msg : string).

(** What [subprocess.run(argv, capture_output=True, text=True)] does before
    [check] is looked at: the process completes, or it cannot be started
    ([FileNotFoundError] when the program or the directory is missing, some
    other [OSError], such as [PermissionError], otherwise).  [stdout] and
    [stderr] are the texts as text mode hands them over: decoded, and with
    every line ending of the process (CR, CR LF) turned into LF. *)
Inductive ProcResult :=
| Completed (returncode : Z) (stdout stderr : string)
| SpawnFailed (not_found : bool) (msg : string).

Definition spawn_exn (not_found : bool) (msg : string) : exn :=
  if not_found then FileNotFoundError msg else OtherException msg.

(** What [requests.get] does: a response, or an exception of [requests]. *)
Inductive HttpResult :=
| Response (status_code : Z) (body : string)
| RequestFailed (msg : string).

(** A node of the file system: a directory, or a regular file with the
    lines [readlines()] returns ([None] when opening or reading raises). *)
Inductive Node :=
| Dir
| Reg (lines : option (list string)).

Record World := {
  (** the working directory of the Python process *)
  getcwd : string;
  (** the file system, by absolute path *)
  fs : string -> option Node;
  (** [subprocess.run]: working directory ([None]: that of the process) and
      argument vector *)
  spawn : option string -> list string -> ProcResult;
  (** [os.environ.get('GITHUB_TOKEN')] *)
  github_token : option string;
  (** [requests.get(url, headers=headers, timeout=10)] *)
  http_get : string -> list (string * string) -> HttpResult;
  (** [json.loads]; the error text on the left *)
  json_loads : string -> string + JSON;
  (** [json.dumps(_, indent=2)] *)
  json_dumps : JSON -> string;
  (** [repr] of a list or dict *)
  py_repr : JSON -> string;
  (** [datetime.strptime(line, '%a, %d %b %Y %H:%M:%S %z').strftime('%A')],
      [None] for [ValueError] *)
  weekday_of : string -> option string;
  (** [datetime.now().strftime('%Y-%m-%d %H:%M:%S')] and
      [datetime.now().isoformat()] *)
  now_text : string;
  now_iso : string
}.

(** One observable action of a run. *)
Inductive Event :=
| EPrint (line : string)
| ESpawn (cwd : option string) (argv : list string)
| EHttpGet (url : string) (headers : list (string * string)).

(** The attributes of a [GitAnalytics] object ([username] is never set). *)
Record Self := {
  repo_path : string;
  start_date : option string;
  end_date : option string
}.

Definition set_repo_path (p : string) (self : Self) : Self :=
  {| repo_path := p; start_date := start_date self; end_date := end_date self |}.

(** ** The monad: state, event log and exceptions *)

Record State := {
  self_ : Self;
  events : list Event
}.

Inductive Result (A : Type) :=
| Ok (a : A)
| Raise (e : exn).
Arguments Ok {A} a.
Arguments Raise {A} e.

Definition M (A : Type) : Type := State -> Result A * State.

Definition ret {A} (a : A) : M A := fun st => (Ok a, st).

Definition bind {A B} (m : M A) (k : A -> M B) : M B :=
  fun st =>
    match m st with
    | (Ok a, st') => k a st'
    | (Raise e, st') => (Raise e, st')
    end.

Definition raise {A} (e : exn) : M A := fun st => (Raise e, st).

(** [try: m  except <any>: ...] as a value: the effects of [m] up to the
    exception are kept. *)
Definition attempt {A} (m : M A) : M (exn + A) :=
  fun st =>
    match m st with
    | (Ok a, st') => (Ok (inr a), st')
    | (Raise e, st') => (Ok (inl e), st')
    end.

(** The state after the events [evs]. *)
Definition log (st : State) (evs : list Event) : State :=
  {| self_ := self_ st; events := (events st ++ evs)%list |}.

Definition emit (ev : Event) : M unit := fun st => (Ok tt, log st [ev]).

Definition print (line : string) : M unit := emit (EPrint line).

Definition get_self : M Self := fun st => (Ok (self_ st), st).

Definition put_self (s : Self) : M unit :=
  fun st => (Ok tt, {| self_ := s; events := events st |}).

Declare Scope py_scope.
Delimit Scope py_scope with py.
Notation "x <- m ;; k" := (bind m (fun x => k))
  (at level 100, m at next level, right associativity) : py_scope.
Notation "m ;;; k" := (bind m (fun _ => k))
  (at level 100, right associativity) : py_scope.
Open Scope py_scope.

(** The printed lines and the external calls of an event log. *)
Definition printed (evs : list Event) : list string :=
  flat_map (fun ev => match ev with EPrint l => [l] | _ => [] end) evs.

Definition calls (evs : list Event) : list Event :=
  List.filter (fun ev => match ev with EPrint _ => false | _ => true end) evs.

(** [str(e)] *)
Definition exn_str (e : exn) : string :=
  match e with
  | CalledProcessError rc _ =>
      "Command returned non-zero exit status " ++ PyStr.of_Z rc ++ "."
  | FileNotFoundError m | JSONDecodeError m | TypeError m | AttributeError m
  | OtherException m => m
  end.

(** ** Termination measure of the ancestor walk *)

Lemma rstrip_by_length p s :
  String.length (PyStr.rstrip_by p s) <= String.length s.
Proof.
  induction s as [|c s IH]; simpl; [lia|].
  destruct (PyStr.rstrip_by p s); simpl in *; [destruct (p c); simpl; lia | lia].
Qed.

Lemma rstrip_by_same_length p s :
  String.length (PyStr.rstrip_by p s) = String.length s -> PyStr.rstrip_by p s = s.
Proof.
  induction s as [|c s IH]; simpl; [reflexivity|].
  pose proof (rstrip_by_length p s) as Hle.
  destruct (PyStr.rstrip_by p s) eqn:E; simpl in *.
  - destruct (p c); simpl; intros H; [lia|].
    destruct s; [reflexivity | simpl in H; lia].
  - intros H. f_equal. apply IH. lia.
Qed.

Lemma head_length p : String.length (PyPath.head p) <= String.length p.
Proof.
  induction p as [|c p IH]; simpl; [lia|].
  destruct (PyPath.is_slash c || PyStr.existsb PyPath.is_slash p); simpl; lia.
Qed.

Lemma head_same_length p :
  String.length (PyPath.head p) = String.length p -> PyPath.head p = p.
Proof.
  induction p as [|c p IH]; simpl; [reflexivity|].
  destruct (PyPath.is_slash c || PyStr.existsb PyPath.is_slash p); simpl.
  - intros H. f_equal. apply IH. lia.
  - intros H. lia.
Qed.

(** A directory that is not its own parent is longer than its parent: the
    measure of the loop [while current_dir != os.path.dirname(current_dir)]. *)
Lemma dirname_shorter p :
  p <> PyPath.dirname p -> String.length (PyPath.dirname p) < String.length p.
Proof.
  intros Hne.
  assert (Hle : String.length (PyPath.dirname p) <= String.length p).
  { unfold PyPath.dirname.
    pose proof (head_length p). pose proof (rstrip_by_length PyPath.is_slash (PyPath.head p)).
    destruct (_ && _); lia. }
  destruct (Nat.eq_dec (String.length (PyPath.dirname p)) (String.length p)) as [Heq|]; [|lia].
  exfalso. apply Hne. unfold PyPath.dirname in *.
  pose proof (head_length p). pose proof (rstrip_by_length PyPath.is_slash (PyPath.head p)).
  destruct (_ && _).
  - rewrite rstrip_by_same_length by lia. symmetry. apply head_same_length. lia.
  - symmetry. apply head_same_length. lia.
Qed.

(** ** Dictionaries, counters and sorting

    A [dict] whose iteration order is observed is an association list in
    insertion order, without repeated keys. *)

Definition LF : ascii := ascii_of_nat 10.
Definition TAB : ascii := ascii_of_nat 9.

(** [output.split('\n')] *)
Definition lines_of (output : string) : list string := PyStr.split LF output.

(** [len(output.split('\n')) if output else 0] *)
Definition count_output_lines (output : string) : Z :=
  if PyStr.truthy output then Z.of_nat (List.length (lines_of output)) else 0%Z.

(** [set(output.split('\n')) if output else set()] *)
Definition set_of_output (output : string) : gset string :=
  if PyStr.truthy output then list_to_set (lines_of output) else ∅.

Section Dict.
Context {V : Type}.

Fixpoint dict_get (k : string) (d : list (string * V)) : option V :=
  match d with
  | [] => None
  | (k', v) :: d' => if String.eqb k k' then Some v else dict_get k d'
  end.

(** [d[k] = v]: an existing key keeps its place. *)
Fixpoint dict_set (k : string) (v : V) (d : list (string * V)) : list (string * V) :=
  match d with
  | [] => [(k, v)]
  | (k', v') :: d' =>
      if String.eqb k k' then (k, v) :: d' else (k', v') :: dict_set k v d'
  end.

(** [dict(items)] *)
Definition dict_of_items (items : list (string * V)) : list (string * V) :=
  fold_left (fun d kv => dict_set (fst kv) (snd kv) d) items [].

End Dict.

(** [c[k] += 1] on a [Counter] *)
Fixpoint counter_incr (k : string) (c : list (string * Z)) : list (string * Z) :=
  match c with
  | [] => [(k, 1%Z)]
  | (k', n) :: c' =>
      if String.eqb k k' then (k, (n + 1)%Z) :: c' else (k', n) :: counter_incr k c'
  end.

(** [Counter(keys)]: the keys in first-seen order. *)
Definition Counter (keys : list string) : list (string * Z) :=
  fold_left (fun c k => counter_incr k c) keys [].

Section Sorting.
Context {A : Type}.

(** [sorted(l, key=key, reverse=True)]: a stable sort, equal keys keep
    their order. *)
Fixpoint insert_desc (key : A -> Z) (x : A) (l : list A) : list A :=
  match l with
  | [] => [x]
  | y :: l' => if (key x <? key y)%Z then y :: insert_desc key x l' else x :: l
  end.

Definition sorted_desc (key : A -> Z) (l : list A) : list A :=
  fold_right (insert_desc key) [] l.

(** [sorted(l)] for an order [lt]: stable as well. *)
Fixpoint insert_asc (lt : A -> A -> bool) (x : A) (l : list A) : list A :=
  match l with
  | [] => [x]
  | y :: l' => if lt y x then y :: insert_asc lt x l' else x :: l
  end.

Definition sorted_asc (lt : A -> A -> bool) (l : list A) : list A :=
  fold_right (insert_asc lt) [] l.

(** [max(l, key=key)]: the first maximum; [None] for an empty list. *)
Fixpoint max_by (key : A -> Z) (l : list A) : option A :=
  match l with
  | [] => None
  | x :: l' =>
      match max_by key l' with
      | Some y => if (key x <? key y)%Z then Some y else Some x
      | None => Some x
      end
  end.

End Sorting.

(** [c.most_common()] *)
Definition most_common (c : list (string * Z)) : list (string * Z) :=
  sorted_desc snd c.

(** The order of Python on [(str, int)] tuples. *)
Definition item_lt (a b : string * Z) : bool :=
  String.ltb (fst a) (fst b) || (String.eqb (fst a) (fst b) && (snd a <? snd b)%Z).

Example Counter_ex :
  dict_of_items (most_common (Counter ["2024"; "2023"; "2023"; "2022"]))
  = [("2023", 2%Z); ("2024", 1%Z); ("2022", 1%Z)].
Proof. reflexivity. Qed.

Example sorted_items_ex :
  sorted_asc item_lt [("2023", 2%Z); ("2024", 1%Z); ("2022", 1%Z)]
  = [("2022", 1%Z); ("2023", 2%Z); ("2024", 1%Z)].
Proof. reflexivity. Qed.

(** The dictionary [get_commit_stats] returns. *)
Record CommitStats := {
  total_commits : Z;
  unique_commits : Z;
  recent_commits : Z;
  first_commit : option string;
  last_commit : option string;
  commits_by_branch : list (string * Z);
  commits_by_year : list (string * Z);
  commits_by_day : list (string * Z);
  commits_by_month : list (string * Z)
}.

(** The dictionary [get_lines_of_code] returns. *)
Record LocStats := {
  files_modified : Z;
  total_loc : Z;
  lines_added : Z;
  lines_deleted : Z;
  net_lines : Z;
  files_by_extension : gmap string Z;
  largest_files : list (string * Z)
}.

(** The dictionary [get_pull_requests] returns. *)
Record PrStats := {
  pull_requests : JSON;
  source : string
}.

(** ** The class [GitAnalytics] *)

Section GitAnalytics.

Variable W : World.

(** [subprocess.run(argv, cwd=cwd, capture_output=True, text=True,
    check=check)]: with [check], a non-zero exit status raises
    [CalledProcessError]. *)
Definition subprocess_run (cwd : option string) (argv : list string) (check : bool)
  : M (Z * string * string) :=
  emit (ESpawn cwd argv) ;;;
  match spawn W cwd argv with
  | SpawnFailed not_found msg => raise (spawn_exn not_found msg)
  | Completed rc out err =>
      if check && negb (rc =? 0)%Z then raise (CalledProcessError rc err)
      else ret (rc, out, err)
  end.

(** The node a path names for the process. *)
Definition node_at (path : string) : option Node :=
  fs W (PyPath.abspath (getcwd W) path).

Definition os_path_isdir (path : string) : bool :=
  match node_at path with Some Dir => true | _ => false end.

Definition os_path_isfile (path : string) : bool :=
  match node_at path with Some (Reg _) => true | _ => false end.

(** [len(open(path, 'r', encoding='utf-8', errors='ignore').readlines())];
    [None] when opening or reading raises. *)
Definition count_lines (path : string) : option Z :=
  match node_at path with
  | Some (Reg (Some lines)) => Some (Z.of_nat (List.length lines))
  | _ => None
  end.

Definition date_truthy (d : option string) : bool :=
  match d with Some s => PyStr.truthy s | None => false end.

Definition date_text (d : option string) : string :=
  match d with Some s => s | None => "None" end.

Definition _build_date_filter (self : Self) : list string :=
  (if date_truthy (start_date self) then ["--since"; date_text (start_date self)] else [])
  ++ (if date_truthy (end_date self) then ["--until"; date_text (end_date self)] else []).

Definition run_git_command (command : list string) : M string :=
  self <- get_self ;;
  r <- attempt (subprocess_run (Some (repo_path self)) ("git" :: command) true) ;;
  match r with
  | inr (_, stdout, _) => ret (PyStr.strip stdout)
  | inl (CalledProcessError _ stderr) =>
      print ("Git command failed: " ++ PyStr.join " " command) ;;;
      print ("Error: " ++ stderr) ;;;
      ret ""
  | inl e => raise e
  end.

(** The loop of [validate_repo]'s handler, from [current_dir] upward. *)
Equations walk_up (current_dir : string) : M bool by wf (String.length current_dir) lt :=
  walk_up current_dir with string_dec current_dir (PyPath.dirname current_dir) := {
    | left _ => ret false
    | right Hne =>
        if os_path_isdir (PyPath.join current_dir ".git") then
          print ("Warning: Navigating to Git repository root: " ++ current_dir) ;;;
          self <- get_self ;;
          put_self (set_repo_path current_dir self) ;;;
          ret true
        else walk_up (PyPath.dirname current_dir)
  }.
Next Obligation. apply dirname_shorter. assumption. Qed.

Definition validate_repo : M bool :=
  r <- attempt (run_git_command ["rev-parse"; "--git-dir"]) ;;
  match r with
  | inr _ => ret true
  | inl (CalledProcessError _ _) =>
      self <- get_self ;;
      walk_up (PyPath.abspath (getcwd W) (repo_path self))
  | inl e => raise e
  end.

Definition check_user_exists (username : string) : M bool :=
  self <- get_self ;;
  let command := (["log"; "--all"; "--author"; username; "--oneline"; "-1"]
                  ++ _build_date_filter self)%list in
  output <- run_git_command command ;;
  ret (PyStr.truthy output).

(** [[line.split('-')[0] for line in output.split('\n') if line and line != '0000']] *)
Definition years_of (output : string) : list string :=
  List.map (fun line => List.hd "" (PyStr.split "-" line))
    (List.filter (fun line => PyStr.truthy line && negb (String.eqb line "0000"))
       (lines_of output)).

(** The weekday loop: lines that do not parse are skipped. *)
Definition days_of (output : string) : list string :=
  flat_map (fun line =>
      if PyStr.truthy line then
        match weekday_of W line with Some d => [d] | None => [] end
      else [])
    (lines_of output).

(** The month loop: [year, month = line.split('-')[:2]]. *)
Definition months_of (output : string) : list string :=
  flat_map (fun line =>
      match PyStr.split "-" line with
      | year :: month :: _ => if PyStr.truthy line then [year ++ "-" ++ month] else []
      | _ => []
      end)
    (lines_of output).

(** The loop over the remote branches; any exception ends it with a
    warning and keeps the counts gathered so far. *)
Fixpoint branch_loop (username : string) (date_filter : list string)
    (branches : list string) (acc : list (string * Z)) : M (list (string * Z)) :=
  match branches with
  | [] => ret acc
  | branch :: rest =>
      if PyStr.truthy (PyStr.strip branch) then
        let branch_name := PyStr.remove_all "origin/" (PyStr.strip branch) in
        let command := (["log"; "--author"; username; PyStr.strip branch; "--oneline"]
                        ++ date_filter)%list in
        r <- attempt (run_git_command command) ;;
        match r with
        | inl e =>
            print ("Warning: Could not get branch statistics: " ++ exn_str e) ;;;
            ret acc
        | inr output =>
            let commit_count := count_output_lines output in
            branch_loop username date_filter rest
              (if (0 <? commit_count)%Z then dict_set branch_name commit_count acc else acc)
        end
      else branch_loop username date_filter rest acc
  end.

Definition get_commit_stats (username : string) : M CommitStats :=
  self <- get_self ;;
  let date_filter := _build_date_filter self in
  let log_all := ["log"; "--all"; "--author"; username] in
  (* Total commits *)
  output <- run_git_command (log_all ++ ["--oneline"] ++ date_filter)%list ;;
  let total := count_output_lines output in
  (* Unique commits *)
  output <- run_git_command (log_all ++ ["--pretty=format:%H"] ++ date_filter)%list ;;
  let unique_hashes := set_of_output output in
  let unique := Z.of_nat (size unique_hashes) in
  (* Recent commits (30 days) *)
  output <- run_git_command
              (log_all ++ ["--since=30 days ago"; "--oneline"] ++ date_filter)%list ;;
  let recent := count_output_lines output in
  (* First and last commit dates *)
  let short_dates := (log_all ++ ["--pretty=format:%ad"; "--date=short"] ++ date_filter)%list in
  output <- run_git_command short_dates ;;
  let first :=
    if PyStr.truthy output then Some (List.last (lines_of output) "") else None in
  let last :=
    if PyStr.truthy output then Some (List.hd "" (lines_of output)) else None in
  (* Commits by year *)
  output <- run_git_command short_dates ;;
  let by_year :=
    if PyStr.truthy output then dict_of_items (most_common (Counter (years_of output)))
    else [] in
  (* Commits by day of week *)
  output <- run_git_command (log_all ++ ["--pretty=format:%aD"] ++ date_filter)%list ;;
  let by_day :=
    if PyStr.truthy output then dict_of_items (most_common (Counter (days_of output)))
    else [] in
  (* Commits by month *)
  output <- run_git_command short_dates ;;
  let by_month :=
    if PyStr.truthy output then dict_of_items (most_common (Counter (months_of output)))
    else [] in
  (* Commits by branch *)
  r <- attempt (run_git_command ["branch"; "-r"]) ;;
  by_branch <-
    match r with
    | inl e =>
        print ("Warning: Could not get branch statistics: " ++ exn_str e) ;;;
        ret []
    | inr branches_output =>
        if PyStr.truthy branches_output
        then branch_loop username date_filter (lines_of branches_output) []
        else ret []
    end ;;
  ret {| total_commits := total;
         unique_commits := unique;
         recent_commits := recent;
         first_commit := first;
         last_commit := last;
         commits_by_branch := by_branch;
         commits_by_year := by_year;
         commits_by_day := by_day;
         commits_by_month := by_month |}.

(** The state of the line-counting loop: [stats['total_loc']],
    [file_sizes] and [ext_counts]. *)
Record LocAcc := {
  acc_total : Z;
  acc_sizes : list (string * Z);
  acc_exts : gmap string Z
}.

Definition loc_acc0 : LocAcc :=
  {| acc_total := 0; acc_sizes := []; acc_exts := ∅ |}.

(** One iteration of [for file_path in files]; a file that cannot be read
    is skipped. *)
Definition count_file (acc : LocAcc) (file_path : string) : LocAcc :=
  if os_path_isfile file_path then
    match count_lines file_path with
    | Some lines =>
        let ext := PyPath.ext file_path in
        {| acc_total := acc_total acc + lines;
           acc_sizes := acc_sizes acc ++ [(file_path, lines)];
           acc_exts := <[ext := (default 0 (acc_exts acc !! ext) + lines)%Z]> (acc_exts acc) |}
    | None => acc
    end
  else acc.

(** [int(part) if part != '-' else 0] *)
Definition numstat_field (part : string) : option Z :=
  if String.eqb part "-" then Some 0%Z else PyStr.int part.

(** One iteration of the numstat loop over [(total_additions,
    total_deletions)]. *)
Definition numstat_step (acc : Z * Z) (line : string) : Z * Z :=
  if PyStr.truthy (PyStr.strip line) then
    match PyStr.split TAB line with
    | p0 :: p1 :: _ =>
        match numstat_field p0 with
        | Some additions =>
            match numstat_field p1 with
            | Some deletions => (fst acc + additions, snd acc + deletions)%Z
            | None => acc
            end
        | None => acc
        end
    | _ => acc
    end
  else acc.

Definition get_lines_of_code (username : string) : M LocStats :=
  self <- get_self ;;
  let date_filter := _build_date_filter self in
  (* Get all files modified by user with date filter *)
  output <- run_git_command
              (["log"; "--all"; "--author"; username; "--name-only"; "--pretty=format:"]
               ++ date_filter)%list ;;
  let files : gset string :=
    filter (fun f => PyStr.truthy (PyStr.strip f) = true) (set_of_output output) in
  (* Count lines by extension *)
  let acc := fold_left count_file (elements files) loc_acc0 in
  (* Count additions and deletions with date filter *)
  output <- run_git_command
              (["log"; "--all"; "--author"; username; "--pretty=tformat:"; "--numstat"]
               ++ date_filter)%list ;;
  let totals := fold_left numstat_step (lines_of output) (0, 0)%Z in
  ret {| files_modified := Z.of_nat (size files);
         total_loc := acc_total acc;
         lines_added := fst totals;
         lines_deleted := snd totals;
         net_lines := fst totals - snd totals;
         files_by_extension := acc_exts acc;
         largest_files := firstn 10 (sorted_desc snd (acc_sizes acc)) |}.

(** [json.loads(text)] *)
Definition json_loads_m (text : string) : M JSON :=
  match json_loads W text with
  | inr data => ret data
  | inl msg => raise (JSONDecodeError msg)
  end.

(** [len(data)] on a decoded document; [None] where Python has no length. *)
Definition json_len (data : JSON) : option Z :=
  match data with
  | JStr s => Some (Z.of_nat (String.length s))
  | JArr items => Some (Z.of_nat (List.length items))
  | JObj fields => Some (Z.of_nat (List.length fields))
  | _ => None
  end.

(** [type(data).__name__] *)
Definition py_type_name (data : JSON) : string :=
  match data with
  | JNull => "NoneType"
  | JBool _ => "bool"
  | JInt _ => "int"
  | JFloat _ => "float"
  | JStr _ => "str"
  | JArr _ => "list"
  | JObj _ => "dict"
  end.

Definition py_len (data : JSON) : M Z :=
  match json_len data with
  | Some n => ret n
  | None => raise (TypeError ("object of type '" ++ py_type_name data ++ "' has no len()"))
  end.

(** [data.get(key, default)] on a decoded document *)
Definition py_get (data : JSON) (key : string) (default : JSON) : M JSON :=
  match data with
  | JObj fields => ret (match dict_get key fields with Some v => v | None => default end)
  | _ => raise (AttributeError ("'" ++ py_type_name data ++ "' object has no attribute 'get'"))
  end.

(** [except (subprocess.CalledProcessError, json.JSONDecodeError,
    FileNotFoundError): pass] *)
Definition cli_handler_catches (e : exn) : bool :=
  match e with
  | CalledProcessError _ _ | JSONDecodeError _ | FileNotFoundError _ => true
  | _ => false
  end.

Definition gh_auth_status : list string := ["gh"; "auth"; "status"].

Definition gh_pr_list (username : string) : list string :=
  ["gh"; "pr"; "list"; "--author"; username; "--json"; "number"].

Definition glab_mr_list (username : string) : list string :=
  ["glab"; "mr"; "list"; "--author"; username; "--json"; "id"].

(** The first [try] of [get_pull_requests]; [Some] when the method returns
    from inside it. *)
Definition try_github_cli (username : string) : M (option PrStats) :=
  r <- attempt (
         auth_check <- subprocess_run None gh_auth_status false ;;
         let '(returncode, _, _) := auth_check in
         if (returncode =? 0)%Z then
           result <- subprocess_run None (gh_pr_list username) true ;;
           let '(_, stdout, _) := result in
           data <- json_loads_m stdout ;;
           n <- py_len data ;;
           ret (Some {| pull_requests := JInt n; source := "github_cli" |})
         else
           print "GitHub CLI not authenticated. Run 'gh auth login' to authenticate." ;;;
           ret None) ;;
  match r with
  | inr res => ret res
  | inl e => if cli_handler_catches e then ret None else raise e
  end.

(** The second [try]. *)
Definition try_gitlab_cli (username : string) : M (option PrStats) :=
  r <- attempt (
         result <- subprocess_run None (glab_mr_list username) true ;;
         let '(_, stdout, _) := result in
         data <- json_loads_m stdout ;;
         n <- py_len data ;;
         ret (Some {| pull_requests := JInt n; source := "gitlab_cli" |})) ;;
  match r with
  | inr res => ret res
  | inl e => if cli_handler_catches e then ret None else raise e
  end.

Definition remote_url_command : list string := ["config"; "--get"; "remote.origin.url"].

(** The search URL for the remote [remote_url]. *)
Definition search_url (username remote_url : string) : string :=
  let repo_name := PyStr.remove_all ".git" (PyStr.split_last "github.com/" remote_url) in
  "https://api.github.com/search/issues?q=author:" ++ username
  ++ "+repo:" ++ repo_name ++ "+is:pr".

(** The headers: the token of the environment, when it is set and not
    empty. *)
Definition auth_headers : list (string * string) :=
  match github_token W with
  | Some t => if PyStr.truthy t then [("Authorization", "token " ++ t)] else []
  | None => []
  end.

(** The third [try]: every exception is caught and printed. *)
Definition try_github_api (username : string) : M (option PrStats) :=
  r <- attempt (
         remote_url <- run_git_command remote_url_command ;;
         if PyStr.contains "github.com" remote_url then
           let url := search_url username remote_url in
           let headers := auth_headers in
           emit (EHttpGet url headers) ;;;
           match http_get W url headers with
           | RequestFailed msg => raise (OtherException msg)
           | Response status_code body =>
               if (status_code =? 200)%Z then
                 data <- json_loads_m body ;;
                 n <- py_get data "total_count" (JInt 0) ;;
                 ret (Some {| pull_requests := n; source := "github_api" |})
               else if (status_code =? 401)%Z then
                 print "GitHub API authentication failed. Set GITHUB_TOKEN environment variable." ;;;
                 ret None
               else if (status_code =? 403)%Z then
                 print "GitHub API rate limit exceeded or insufficient permissions." ;;;
                 ret None
               else ret None
           end
         else ret None) ;;
  match r with
  | inr res => ret res
  | inl e => print ("GitHub API error: " ++ exn_str e) ;;; ret None
  end.

Definition get_pull_requests (username : string) : M PrStats :=
  r1 <- try_github_cli username ;;
  match r1 with
  | Some stats => ret stats
  | None =>
      r2 <- try_gitlab_cli username ;;
      match r2 with
      | Some stats => ret stats
      | None =>
          r3 <- try_github_api username ;;
          match r3 with
          | Some stats => ret stats
          | None => ret {| pull_requests := JInt 0; source := "unknown" |}
          end
      end
  end.

(** The integer entries of a statistics dictionary, by key. *)
Definition int_entries (stats : CommitStats) : gmap string Z :=
  <["total_commits" := total_commits stats]>
    (<["unique_commits" := unique_commits stats]>
       (<["recent_commits" := recent_commits stats]> ∅)).

Definition calculate_activity_score (stats : gmap string Z) : Z :=
  let total_commits := default 0%Z (stats !! "total_commits") in
  let recent_commits := default 0%Z (stats !! "recent_commits") in
  (total_commits * 10 + recent_commits * 50)%Z.

(** [str(v)] as an f-string prints a decoded value. *)
Definition py_str (v : JSON) : string :=
  match v with
  | JNull => "None"
  | JBool true => "True"
  | JBool false => "False"
  | JInt n => PyStr.of_Z n
  | JFloat r => r
  | JStr s => s
  | JArr _ | JObj _ => py_repr W v
  end.

Definition opt_truthy (o : option string) : bool :=
  match o with Some s => PyStr.truthy s | None => false end.

(** [os.path.basename(os.path.abspath(self.repo_path))] *)
Definition repo_display_name (self : Self) : string :=
  PyPath.basename (PyPath.abspath (getcwd W) (repo_path self)).

Definition banner : string := PyStr.repeat_char "=" 50.

Definition _generate_text_report (self : Self) (username : string)
    (commit_stats : CommitStats) (loc_stats : LocStats) (pr_stats : PrStats)
    (activity_score : Z) : string :=
  let report :=
    ([banner; "Git Analytics Report"; banner;
      "User: " +++ username;
      "Repository: " +++ repo_display_name self;
      "Generated: " +++ now_text W]
     (* Show date filter if applied *)
     ++ (if date_truthy (start_date self) || date_truthy (end_date self) then
           ["Date Range: " +++ PyStr.join " "
              ((if date_truthy (start_date self)
                then ["from " +++ date_text (start_date self)] else [])
               ++ (if date_truthy (end_date self)
                   then ["until " +++ date_text (end_date self)] else []))]
         else [])
     ++ [""]
     (* Quick stats *)
     ++ ["📊 Quick Stats:";
         "  Total Commits: " +++ PyStr.of_Z (total_commits commit_stats);
         "  Unique Commits: " +++ PyStr.of_Z (unique_commits commit_stats);
         "  Recent Activity (30 days): " +++ PyStr.of_Z (recent_commits commit_stats);
         "  Activity Score: " +++ PyStr.of_Z activity_score;
         ""]
     (* Pull Requests *)
     ++ ["🔀 Pull Requests:";
         "  Count: " +++ py_str (pull_requests pr_stats);
         "  Source: " +++ source pr_stats;
         ""]
     (* Lines of Code *)
     ++ ["📝 Lines of Code:";
         "  Files Modified: " +++ PyStr.of_Z (files_modified loc_stats);
         "  Total LOC: " +++ PyStr.of_Z (total_loc loc_stats);
         "  Lines Added: " +++ PyStr.of_Z (lines_added loc_stats);
         "  Lines Deleted: " +++ PyStr.of_Z (lines_deleted loc_stats);
         "  Net Lines: " +++ PyStr.of_Z (net_lines loc_stats);
         ""]
     (* Top file extensions *)
     ++ (match map_to_list (files_by_extension loc_stats) with
         | [] => []
         | items =>
             ["📁 Top File Extensions:"]
             ++ List.map (fun '(ext, count) => "  " +++ ext +++ ": " +++ PyStr.of_Z count +++ " lines")
                  (firstn 5 (sorted_desc snd items))
             ++ [""]
         end)
     (* Commit timeline *)
     ++ (if opt_truthy (first_commit commit_stats) && opt_truthy (last_commit commit_stats) then
           ["📅 Timeline:";
            "  First Commit: " +++ date_text (first_commit commit_stats);
            "  Last Commit: " +++ date_text (last_commit commit_stats);
            ""]
         else [])
     (* Commits by year *)
     ++ (match commits_by_year commit_stats with
         | [] => []
         | by_year =>
             ["📈 Commits by Year:"]
             ++ List.map (fun '(year, count) => "  " +++ year +++ ": " +++ PyStr.of_Z count +++ " commits")
                  (sorted_asc item_lt by_year)
             ++ [""]
         end)
     (* Most active day *)
     ++ (match max_by snd (commits_by_day commit_stats) with
         | None => []
         | Some (day, count) =>
             ["🗓️  Most Active Day:";
              "  " +++ day +++ ": " +++ PyStr.of_Z count +++ " commits";
              ""]
         end)
     ++ [banner; "Report Complete"; banner])%list in
  PyStr.join (String LF "") report.

Definition json_of_opt (o : option string) : JSON :=
  match o with Some s => JStr s | None => JNull end.

Definition json_of_counts (d : list (string * Z)) : JSON :=
  JObj (List.map (fun '(k, n) => (k, JInt n)) d).

Definition json_of_commit_stats (c : CommitStats) : JSON :=
  JObj [("total_commits", JInt (total_commits c));
        ("unique_commits", JInt (unique_commits c));
        ("recent_commits", JInt (recent_commits c));
        ("first_commit", json_of_opt (first_commit c));
        ("last_commit", json_of_opt (last_commit c));
        ("commits_by_branch", json_of_counts (commits_by_branch c));
        ("commits_by_year", json_of_counts (commits_by_year c));
        ("commits_by_day", json_of_counts (commits_by_day c));
        ("commits_by_month", json_of_counts (commits_by_month c))].

Definition json_of_loc_stats (l : LocStats) : JSON :=
  JObj [("files_modified", JInt (files_modified l));
        ("total_loc", JInt (total_loc l));
        ("lines_added", JInt (lines_added l));
        ("lines_deleted", JInt (lines_deleted l));
        ("net_lines", JInt (net_lines l));
        ("files_by_extension", json_of_counts (map_to_list (files_by_extension l)));
        ("largest_files",
         JArr (List.map (fun '(f, n) => JArr [JStr f; JInt n]) (largest_files l)))].

Definition json_of_pr_stats (p : PrStats) : JSON :=
  JObj [("pull_requests", pull_requests p); ("source", JStr (source p))].

Definition _generate_json_report (self : Self) (username : string)
    (commit_stats : CommitStats) (loc_stats : LocStats) (pr_stats : PrStats)
    (activity_score : Z) : string :=
  let report :=
    ([("user", JStr username);
      ("repository", JStr (repo_display_name self));
      ("generated", JStr (now_iso W));
      ("activity_score", JInt activity_score);
      ("commit_stats", json_of_commit_stats commit_stats);
      ("lines_of_code", json_of_loc_stats loc_stats);
      ("pull_requests", json_of_pr_stats pr_stats)]
     (* Add date filter information if applied *)
     ++ (if date_truthy (start_date self) || date_truthy (end_date self) then
           [("date_filter",
             JObj [("start_date", json_of_opt (start_date self));
                   ("end_date", json_of_opt (end_date self))])]
         else []))%list in
  json_dumps W (JObj report).

Definition generate_report (username output_format : string) : M string :=
  valid <- validate_repo ;;
  if negb valid then ret "Error: Not a Git repository"
  else
    found <- check_user_exists username ;;
    if negb found then ret ("Error: No commits found for user '" ++ username ++ "'")
    else
      (* Gather all statistics *)
      commit_stats <- get_commit_stats username ;;
      loc_stats <- get_lines_of_code username ;;
      pr_stats <- get_pull_requests username ;;
      (* Calculate activity score *)
      let activity_score := calculate_activity_score (int_entries commit_stats) in
      (* Generate report *)
      self <- get_self ;;
      if String.eqb output_format "json" then
        ret (_generate_json_report self username commit_stats loc_stats pr_stats activity_score)
      else
        ret (_generate_text_report self username commit_stats loc_stats pr_stats activity_score).

End GitAnalytics.

(** ** Sample worlds *)

Module Sample.

(** A world without tools, files or network: every program is missing. *)
Definition bare : World :=
  {| getcwd := "/home/u/proj";
     fs := fun _ => None;
     spawn := fun _ _ => SpawnFailed true "No such file or directory";
     github_token := None;
     http_get := fun _ _ => RequestFailed "connection refused";
     json_loads := fun s =>
       if String.eqb s "[]" then inr (JArr [])
       else if String.eqb s "[1, 2]" then inr (JArr [JInt 1; JInt 2])
       else if String.eqb s "7" then inr (JInt 7)
       else inl "Expecting value";
     json_dumps := fun _ => "{}";
     py_repr := fun _ => "[]";
     weekday_of := fun _ => None;
     now_text := "2024-05-01 12:00:00";
     now_iso := "2024-05-01T12:00:00" |}.

Definition with_spawn (f : option string -> list string -> ProcResult) (w : World) : World :=
  {| getcwd := getcwd w; fs := fs w; spawn := f; github_token := github_token w;
     http_get := http_get w; json_loads := json_loads w; json_dumps := json_dumps w;
     py_repr := py_repr w; weekday_of := weekday_of w; now_text := now_text w;
     now_iso := now_iso w |}.

Definition with_fs (f : string -> option Node) (w : World) : World :=
  {| getcwd := getcwd w; fs := f; spawn := spawn w; github_token := github_token w;
     http_get := http_get w; json_loads := json_loads w; json_dumps := json_dumps w;
     py_repr := py_repr w; weekday_of := weekday_of w; now_text := now_text w;
     now_iso := now_iso w |}.

Definition with_http (f : string -> list (string * string) -> HttpResult) (w : World) : World :=
  {| getcwd := getcwd w; fs := fs w; spawn := spawn w; github_token := github_token w;
     http_get := f; json_loads := json_loads w; json_dumps := json_dumps w;
     py_repr := py_repr w; weekday_of := weekday_of w; now_text := now_text w;
     now_iso := now_iso w |}.

(** The object [GitAnalytics(path)] before any call. *)
Definition start (path : string) : State :=
  {| self_ := {| repo_path := path; start_date := None; end_date := None |};
     events := [] |}.

(** Does the argument vector hold the word [w]? *)
Definition has_arg (w : string) (argv : list string) : bool :=
  List.existsb (String.eqb w) argv.

Definition unlines : list string -> string := PyStr.join (String LF "").
Definition tabbed : list string -> string := PyStr.join (String TAB "").

(** The listings a [git] checkout answers with. *)
Record Listings := {
  l_oneline : string;      (* log --all --oneline *)
  l_hashes : string;       (* log --all --pretty=format:%H *)
  l_recent : string;       (* log --all --since=30 days ago --oneline *)
  l_dates : string;        (* log --all --pretty=format:%ad --date=short *)
  l_names : string;        (* log --all --name-only --pretty=format: *)
  l_numstat : string       (* log --all --pretty=tformat: --numstat *)
}.

(** [git] run in the checkout [root]; no other program is installed. *)
Definition git_in (root : string) (l : Listings) (cwd : option string)
    (argv : list string) : ProcResult :=
  match argv with
  | "git" :: args =>
      if negb (match cwd with Some d => String.eqb d root | None => false end)
      then Completed 128 "" "fatal: not a git repository"
      else if has_arg "--numstat" args then Completed 0 (l_numstat l) ""
      else if has_arg "--name-only" args then Completed 0 (l_names l) ""
      else if has_arg "--pretty=format:%H" args then Completed 0 (l_hashes l) ""
      else if has_arg "--since=30 days ago" args then Completed 0 (l_recent l) ""
      else if has_arg "--date=short" args then Completed 0 (l_dates l) ""
      else if has_arg "--oneline" args && has_arg "--all" args
      then Completed 0 (l_oneline l) ""
      else if has_arg "rev-parse" args then Completed 0 ".git" ""
      else Completed 0 "" ""
  | _ => SpawnFailed true "No such file or directory"
  end.

(** Three commits of alice, two files, run from the checkout itself. *)
Definition alice_listings : Listings :=
  {| l_oneline := unlines ["c3c3c3c add image"; "b2b2b2b update readme"; "a1a1a1a initial"];
     l_hashes := unlines ["c3c3c3c0"; "b2b2b2b0"; "a1a1a1a0"];
     l_recent := unlines ["c3c3c3c add image"];
     l_dates := unlines ["2024-02-01"; "2023-07-02"; "2023-01-05"];
     l_names := unlines ["image.png"; ""; "README.md"; ""; "README.md"; "main.py"];
     l_numstat := unlines [tabbed ["-"; "-"; "image.png"];
                           tabbed ["3"; "1"; "README.md"];
                           tabbed ["10"; "0"; "README.md"];
                           tabbed ["4"; "0"; "main.py"]] |}.

Definition alice_fs (p : string) : option Node :=
  if String.eqb p "/home/u/proj/README.md" then Some (Reg (Some ["# proj"; ""; "text"]))
  else if String.eqb p "/home/u/proj/main.py" then Some (Reg (Some ["import os"; "main()"]))
  else if String.eqb p "/home/u/proj/image.png" then Some (Reg None)
  else if String.eqb p "/home/u/proj" || String.eqb p "/home/u/proj/.git" then Some Dir
  else None.

Definition alice_repo : World :=
  with_fs alice_fs (with_spawn (git_in "." alice_listings) bare).

End Sample.

(** ** The command runner *)

(** What [run_git_command] does, by the answer of the external command. *)
Lemma run_git_command_unfold (W : World) (command : list string) (st : State) :
  let cwd := Some (repo_path (self_ st)) in
  run_git_command W command st =
  match spawn W cwd ("git" :: command) with
  | Completed rc stdout stderr =>
      if (rc =? 0)%Z then (Ok (PyStr.strip stdout), log st [ESpawn cwd ("git" :: command)])
      else (Ok "",
            log (log (log st [ESpawn cwd ("git" :: command)])
                   [EPrint ("Git command failed: " ++ PyStr.join " " command)])
              [EPrint ("Error: " ++ stderr)])
  | SpawnFailed not_found msg =>
      (Raise (spawn_exn not_found msg), log st [ESpawn cwd ("git" :: command)])
  end.
Proof.
  unfold run_git_command, subprocess_run, bind, attempt, get_self, emit, print, raise, ret.
  cbn. destruct (spawn W _ _) as [rc out err | nf msg]; cbn.
  - destruct (rc =? 0)%Z; reflexivity.
  - destruct nf; reflexivity.
Qed.

(** [run_git_command] never raises [CalledProcessError]: the handler of
    [validate_repo] has nothing to catch. *)
Lemma run_git_command_never_CalledProcessError W command st rc err st' :
  run_git_command W command st <> (Raise (CalledProcessError rc err), st').
Proof.
  rewrite run_git_command_unfold. cbn zeta.
  destruct (spawn W _ _) as [rc' out err' | nf msg].
  - destruct (rc' =? 0)%Z; discriminate.
  - destruct nf; discriminate.
Qed.

Lemma run_git_command_self W command st r st' :
  run_git_command W command st = (r, st') -> self_ st' = self_ st.
Proof.
  rewrite run_git_command_unfold. cbn zeta.
  destruct (spawn W _ _) as [rc out err | nf msg].
  - destruct (rc =? 0)%Z; intros [= <- <-]; reflexivity.
  - intros [= <- <-]; reflexivity.
Qed.

(** C5, as amended: when the external command exits with a non-zero status,
    [run_git_command] prints two lines, one with the arguments of the command
    joined by spaces and one with the captured error text (the exit status is
    in neither), raises nothing and returns the empty string; when the
    command exits with status zero it prints nothing and returns the standard
    output stripped of leading and trailing white space. *)
Theorem run_git_command_contract (W : World) (command : list string) (st : State)
    (rc : Z) (stdout stderr : string) :
  spawn W (Some (repo_path (self_ st))) ("git" :: command) = Completed rc stdout stderr ->
  let '(result, st') := run_git_command W command st in
  self_ st' = self_ st
  /\ calls (events st') = (calls (events st)
                          ++ [ESpawn (Some (repo_path (self_ st))) ("git" :: command)])%list
  /\ if (rc =? 0)%Z then
       result = Ok (PyStr.strip stdout)
       /\ printed (events st') = printed (events st)
     else
       result = Ok ""
       /\ printed (events st') =
          (printed (events st)
           ++ ["Git command failed: " +++ PyStr.join " " command; "Error: " +++ stderr])%list.
Proof.
  intros Hspawn. rewrite run_git_command_unfold. cbn zeta. rewrite Hspawn.
  unfold calls, printed, log.
  destruct (rc =? 0)%Z; cbn [self_ events];
    repeat rewrite ?List.filter_app, ?flat_map_app; cbn;
    rewrite ?app_nil_r, <- ?app_assoc; auto.
Qed.

Module Sample_C5.

(** [git status] outside a repository, exiting with status [rc]. *)
Definition failing (rc : Z) : World :=
  Sample.with_spawn
    (fun _ _ => Completed rc "" "fatal: not a git repository") Sample.bare.

Definition diagnostics (rc : Z) : list string :=
  printed (events (snd (run_git_command (failing rc) ["status"] (Sample.start ".")))).

End Sample_C5.

Lemma run_git_command_contract_witness :
  let '(result, st') :=
    run_git_command (Sample_C5.failing 128) ["status"] (Sample.start ".") in
  self_ st' = self_ (Sample.start ".")
  /\ calls (events st') = [ESpawn (Some ".") ["git"; "status"]]
  /\ result = Ok ""
  /\ printed (events st') =
     ["Git command failed: status"; "Error: fatal: not a git repository"].
Proof.
  exact (run_git_command_contract (Sample_C5.failing 128) ["status"] (Sample.start ".")
           128 "" "fatal: not a git repository" eq_refl).
Defined.

(** C5 as stated fails: the exit status is not part of what is reported.
    The same command failing with status 128 and with status 1 prints the
    same two lines, and neither holds the text [128]. *)
Lemma run_git_command_omits_exit_status :
  Sample_C5.diagnostics 128 =
    ["Git command failed: status"; "Error: fatal: not a git repository"]
  /\ Sample_C5.diagnostics 1 = Sample_C5.diagnostics 128
  /\ List.forallb (fun line => negb (PyStr.contains "128" line))
       (Sample_C5.diagnostics 128) = true.
Proof. repeat split; vm_compute; reflexivity. Qed.

(** ** The repository locator *)

Lemma validate_repo_unfold (W : World) (st : State) :
  let cwd := Some (repo_path (self_ st)) in
  let argv := ["git"; "rev-parse"; "--git-dir"] in
  validate_repo W st =
  match spawn W cwd argv with
  | Completed rc stdout stderr =>
      (Ok true, snd (run_git_command W ["rev-parse"; "--git-dir"] st))
  | SpawnFailed not_found msg => (Raise (spawn_exn not_found msg), log st [ESpawn cwd argv])
  end.
Proof.
  unfold validate_repo, bind, attempt. rewrite run_git_command_unfold. cbn zeta.
  destruct (spawn W _ _) as [rc out err | nf msg].
  - destruct (rc =? 0)%Z; reflexivity.
  - destruct nf; reflexivity.
Qed.

(** Whatever the probe answers, [validate_repo] never returns [False] and
    never changes [self.repo_path]: the ancestor walk is not reached. *)
Lemma validate_repo_never_false (W : World) (st : State) :
  fst (validate_repo W st) <> Ok false
  /\ self_ (snd (validate_repo W st)) = self_ st.
Proof.
  rewrite validate_repo_unfold. cbn zeta.
  destruct (spawn W _ _) as [rc out err | nf msg] eqn:E.
  - split; [discriminate|]. unfold snd at 1.
    destruct (run_git_command W ["rev-parse"; "--git-dir"] st) as [r st'] eqn:R.
    apply (run_git_command_self _ _ _ _ _ R).
  - split; [discriminate | reflexivity].
Qed.

Module Sample_C3.

(** A directory [/tmp/x] that lies in no repository: no [.git] anywhere,
    and every [git] command exits with status 128. *)
Definition no_repo : World :=
  Sample.with_fs
    (fun p => if String.eqb p "/tmp/x" || String.eqb p "/tmp" || String.eqb p "/"
              then Some Dir else None)
    (Sample.with_spawn
       (fun _ _ => Completed 128 ""
                     "fatal: not a git repository (or any of the parent directories): .git")
       Sample.bare).

Definition st0 : State := Sample.start "/tmp/x".

End Sample_C3.

(** The handler's loop answers [False] at [/tmp/x]. *)
Lemma walk_up_no_repo :
  fst (walk_up Sample_C3.no_repo
         (PyPath.abspath (getcwd Sample_C3.no_repo) (repo_path (self_ Sample_C3.st0)))
         Sample_C3.st0) = Ok false.
Proof.
  change (PyPath.abspath _ _) with "/tmp/x".
  repeat (rewrite walk_up_equation_1; cbn).
  reflexivity.
Qed.

(** C3, the code at a failing input: for a path that lies in no repository
    the probe fails, yet [validate_repo] answers [True] without walking the
    ancestors (the walk would have answered [False]), [self.repo_path] is
    unchanged, and the report ends with the missing-history message where
    the not-a-repository message is due. *)
Theorem validate_repo_accepts_non_repository :
  fst (validate_repo Sample_C3.no_repo Sample_C3.st0) = Ok true
  /\ repo_path (self_ (snd (validate_repo Sample_C3.no_repo Sample_C3.st0))) = "/tmp/x"
  /\ printed (events (snd (validate_repo Sample_C3.no_repo Sample_C3.st0))) =
     ["Git command failed: rev-parse --git-dir";
      "Error: fatal: not a git repository (or any of the parent directories): .git"]
  /\ fst (walk_up Sample_C3.no_repo "/tmp/x" Sample_C3.st0) = Ok false
  /\ fst (generate_report Sample_C3.no_repo "alice" "text" Sample_C3.st0) =
     Ok "Error: No commits found for user 'alice'".
Proof.
  repeat split; vm_compute; reflexivity.
Qed.

(** ** The activity score *)

(** A key that a dictionary lacks counts as zero. *)
Lemma calculate_activity_score_empty : calculate_activity_score ∅ = 0%Z.
Proof. reflexivity. Qed.

(** C7: for every commit-statistics value, zeros included, the score is ten
    times the total commits plus fifty times the recent commits. *)
Theorem calculate_activity_score_formula (stats : CommitStats) :
  calculate_activity_score (int_entries stats)
  = (10 * total_commits stats + 50 * recent_commits stats)%Z.
Proof.
  unfold calculate_activity_score, int_entries.
  rewrite lookup_insert_eq.
  rewrite lookup_insert_ne by discriminate.
  rewrite lookup_insert_ne by discriminate.
  rewrite lookup_insert_eq. cbn. lia.
Qed.

(** ** The report *)

(** [generate_report] with the serialization left open: the checks, the
    three collectors and the score, then [render] on what was gathered. *)
Definition report_rendered_by (W : World)
    (render : Self -> string -> CommitStats -> LocStats -> PrStats -> Z -> string)
    (username : string) : M string :=
  valid <- validate_repo W ;;
  if negb valid then ret "Error: Not a Git repository"
  else
    found <- check_user_exists W username ;;
    if negb found then ret ("Error: No commits found for user '" ++ username ++ "'")
    else
      commit_stats <- get_commit_stats W username ;;
      loc_stats <- get_lines_of_code W username ;;
      pr_stats <- get_pull_requests W username ;;
      self <- get_self ;;
      ret (render self username commit_stats loc_stats pr_stats
             (calculate_activity_score (int_entries commit_stats))).

Lemma generate_report_dispatch (W : World) (username output_format : string) (st : State) :
  generate_report W username output_format st =
  report_rendered_by W
    (if String.eqb output_format "json"
     then _generate_json_report W else _generate_text_report W)
    username st.
Proof.
  unfold generate_report, report_rendered_by, bind.
  destruct (validate_repo W st) as [[valid|e] st1]; [|reflexivity].
  destruct valid; [|reflexivity]. cbn [negb].
  destruct (check_user_exists W username st1) as [[found|e] st2]; [|reflexivity].
  destruct found; [|reflexivity]. cbn [negb].
  destruct (get_commit_stats W username st2) as [[cs|e] st3]; [|reflexivity].
  destruct (get_lines_of_code W username st3) as [[ls|e] st4]; [|reflexivity].
  destruct (get_pull_requests W username st4) as [[ps|e] st5]; [|reflexivity].
  destruct (get_self st5) as [[self|e] st6]; [|reflexivity].
  destruct (String.eqb output_format "json"); reflexivity.
Qed.

(** C10: every format other than the exact string [json] ([structured],
    [text] or anything else) makes [generate_report] behave as with the text
    renderer, and only [json] selects the structured document. *)
Theorem generate_report_format (W : World) (username output_format : string) (st : State) :
  (output_format <> "json" ->
   generate_report W username output_format st
   = report_rendered_by W (_generate_text_report W) username st)
  /\ (output_format = "json" ->
      generate_report W username output_format st
      = report_rendered_by W (_generate_json_report W) username st).
Proof.
  rewrite generate_report_dispatch. split; intros H.
  - apply String.eqb_neq in H. rewrite H. reflexivity.
  - subst. reflexivity.
Qed.

Lemma generate_report_format_witness :
  "structured" <> "json"
  /\ generate_report Sample.alice_repo "alice" "structured" (Sample.start ".")
     = report_rendered_by Sample.alice_repo (_generate_text_report Sample.alice_repo)
         "alice" (Sample.start ".")
  /\ generate_report Sample.alice_repo "alice" "json" (Sample.start ".")
     = report_rendered_by Sample.alice_repo (_generate_json_report Sample.alice_repo)
         "alice" (Sample.start ".").
Proof.
  split; [discriminate|]. split.
  - apply (proj1 (generate_report_format Sample.alice_repo "alice" "structured"
                    (Sample.start "."))).
    discriminate.
  - apply (proj2 (generate_report_format Sample.alice_repo "alice" "json"
                    (Sample.start "."))).
    reflexivity.
Defined.

(** ** The code churn collector *)

(** The sum of the values of a dictionary. *)
Definition sum_values (m : gmap string Z) : Z :=
  map_fold (fun _ v acc => (v + acc)%Z) 0%Z m.

Lemma sum_values_insert_fresh (m : gmap string Z) (k : string) (v : Z) :
  m !! k = None -> sum_values (<[k := v]> m) = (v + sum_values m)%Z.
Proof.
  intros Hk. unfold sum_values.
  apply (map_fold_insert_L (fun _ v acc => (v + acc)%Z)); [|exact Hk].
  intros; lia.
Qed.

Lemma sum_values_insert (m : gmap string Z) (k : string) (v : Z) :
  sum_values (<[k := v]> m) = (sum_values m - default 0%Z (m !! k) + v)%Z.
Proof.
  destruct (m !! k) as [x|] eqn:Hk; cbn.
  - rewrite <- (insert_delete_eq m k v).
    rewrite sum_values_insert_fresh by apply lookup_delete_eq.
    unfold sum_values at 2.
    rewrite (map_fold_delete_L (fun _ v acc => (v + acc)%Z) 0%Z k x m); [|intros; lia|exact Hk].
    fold (sum_values (delete k m)). lia.
  - rewrite sum_values_insert_fresh by exact Hk. lia.
Qed.

(** The loop invariant: the extension buckets add up to the running total. *)
Definition buckets_match (acc : LocAcc) : Prop :=
  sum_values (acc_exts acc) = acc_total acc.

Lemma count_file_buckets W acc file_path :
  buckets_match acc -> buckets_match (count_file W acc file_path).
Proof.
  unfold buckets_match, count_file. intros Hacc.
  destruct (os_path_isfile W file_path); [|exact Hacc].
  destruct (count_lines W file_path) as [lines|]; [|exact Hacc].
  cbn [acc_exts acc_total]. rewrite sum_values_insert. lia.
Qed.

Lemma fold_count_file_buckets W files acc :
  buckets_match acc -> buckets_match (fold_left (count_file W) files acc).
Proof.
  revert acc. induction files as [|f files IH]; intros acc Hacc; cbn; [exact Hacc|].
  apply IH, count_file_buckets, Hacc.
Qed.

(** The two listings [get_lines_of_code] asks for. *)
Definition names_command (self : Self) (username : string) : list string :=
  (["log"; "--all"; "--author"; username; "--name-only"; "--pretty=format:"]
   ++ _build_date_filter self)%list.

Definition numstat_command (self : Self) (username : string) : list string :=
  (["log"; "--all"; "--author"; username; "--pretty=tformat:"; "--numstat"]
   ++ _build_date_filter self)%list.

(** What [run_git_command] hands to the parser for [command]; [None] when
    [git] cannot be started. *)
Definition listing_of (W : World) (self : Self) (command : list string) : option string :=
  match spawn W (Some (repo_path self)) ("git" :: command) with
  | Completed rc stdout _ => Some (if (rc =? 0)%Z then PyStr.strip stdout else "")
  | SpawnFailed _ _ => None
  end.

Lemma run_git_command_listing W command st :
  match listing_of W (self_ st) command with
  | Some listing =>
      exists st', run_git_command W command st = (Ok listing, st') /\ self_ st' = self_ st
  | None =>
      exists e st', run_git_command W command st = (Raise e, st')
  end.
Proof.
  unfold listing_of. rewrite run_git_command_unfold. cbn zeta.
  destruct (spawn W _ _) as [rc out err | nf msg].
  - destruct (rc =? 0)%Z; eexists; split; reflexivity.
  - eexists; eexists; reflexivity.
Qed.

(** The files the loop visits and the statistics, by the two listings. *)
Definition touched_files (names : string) : gset string :=
  filter (fun f => PyStr.truthy (PyStr.strip f) = true) (set_of_output names).

Lemma get_lines_of_code_unfold W username st :
  get_lines_of_code W username st =
  match run_git_command W (names_command (self_ st) username) st with
  | (Ok names, st1) =>
      match run_git_command W (numstat_command (self_ st) username) st1 with
      | (Ok numstat, st2) =>
          let acc := fold_left (count_file W) (elements (touched_files names)) loc_acc0 in
          let totals := fold_left numstat_step (lines_of numstat) (0, 0)%Z in
          (Ok {| files_modified := Z.of_nat (size (touched_files names));
                 total_loc := acc_total acc;
                 lines_added := fst totals;
                 lines_deleted := snd totals;
                 net_lines := fst totals - snd totals;
                 files_by_extension := acc_exts acc;
                 largest_files := firstn 10 (sorted_desc snd (acc_sizes acc)) |}, st2)
      | (Raise e, st2) => (Raise e, st2)
      end
  | (Raise e, st1) => (Raise e, st1)
  end.
Proof.
  unfold get_lines_of_code, bind, get_self, names_command, numstat_command, touched_files.
  destruct (run_git_command W _ st) as [[names|e] st1]; [|reflexivity].
  destruct (run_git_command W _ st1) as [[numstat|e] st2]; reflexivity.
Qed.

(** [get_lines_of_code] returns whenever [git] can be started. *)
Lemma get_lines_of_code_returns W username st names numstat :
  listing_of W (self_ st) (names_command (self_ st) username) = Some names ->
  listing_of W (self_ st) (numstat_command (self_ st) username) = Some numstat ->
  exists stats st', get_lines_of_code W username st = (Ok stats, st').
Proof.
  intros Hn Hs. rewrite get_lines_of_code_unfold.
  pose proof (run_git_command_listing W (names_command (self_ st) username) st) as H1.
  rewrite Hn in H1. destruct H1 as (st1 & -> & Hself).
  pose proof (run_git_command_listing W (numstat_command (self_ st) username) st1) as H2.
  rewrite Hself, Hs in H2. destruct H2 as (st2 & -> & _).
  eexists; eexists; reflexivity.
Qed.

(** C9: in the statistics [get_lines_of_code] returns, the values of
    [files_by_extension] add up to [total_loc]. *)
Theorem files_by_extension_sum (W : World) (username : string) (st st' : State)
    (stats : LocStats) :
  get_lines_of_code W username st = (Ok stats, st') ->
  sum_values (files_by_extension stats) = total_loc stats.
Proof.
  rewrite get_lines_of_code_unfold.
  destruct (run_git_command W _ st) as [[names|e] st1]; [|discriminate].
  destruct (run_git_command W _ st1) as [[numstat|e] st2]; [|discriminate].
  cbn zeta. intros [= <- <-]. cbn [files_by_extension total_loc].
  apply fold_count_file_buckets. reflexivity.
Qed.

Lemma files_by_extension_sum_witness :
  exists stats st',
    get_lines_of_code Sample.alice_repo "alice" (Sample.start ".") = (Ok stats, st')
    /\ sum_values (files_by_extension stats) = total_loc stats
    /\ total_loc stats = 5%Z.
Proof.
  destruct (get_lines_of_code Sample.alice_repo "alice" (Sample.start "."))
    as [[stats|e] st'] eqn:E; [|vm_compute in E; discriminate E].
  exists stats, st'. split; [reflexivity|]. split.
  - exact (files_by_extension_sum Sample.alice_repo "alice" (Sample.start ".") st' stats E).
  - vm_compute in E. injection E as <- _. reflexivity.
Defined.

(** *** Added and deleted lines *)

(** What the numstat listing says, line by line: the added and deleted
    counts of a line, a binary marker [-] counting as zero; [None] for a
    blank line and for a malformed one (fewer than two fields, or a count
    field that is neither the marker nor an integer). *)
Definition numstat_record (line : string) : option (Z * Z) :=
  if PyStr.truthy (PyStr.strip line) then
    match PyStr.split TAB line with
    | added :: deleted :: _ =>
        match numstat_field added, numstat_field deleted with
        | Some a, Some d => Some (a, d)
        | _, _ => None
        end
    | _ => None
    end
  else None.

Definition numstat_records (listing : string) : list (Z * Z) :=
  omap numstat_record (lines_of listing).

Definition sum_Z (l : list Z) : Z := fold_right Z.add 0%Z l.

Lemma numstat_step_record acc line :
  numstat_step acc line =
  match numstat_record line with
  | Some (a, d) => (fst acc + a, snd acc + d)%Z
  | None => acc
  end.
Proof.
  unfold numstat_step, numstat_record.
  destruct (PyStr.truthy _); [|reflexivity].
  destruct (PyStr.split TAB line) as [|p0 [|p1 rest]]; try reflexivity.
  destruct (numstat_field p0); [|reflexivity].
  destruct (numstat_field p1); reflexivity.
Qed.

Lemma fold_numstat_step lines acc :
  fold_left numstat_step lines acc =
  ((fst acc + sum_Z (List.map fst (omap numstat_record lines)))%Z,
   (snd acc + sum_Z (List.map snd (omap numstat_record lines)))%Z).
Proof.
  revert acc. induction lines as [|line lines IH]; intros [a d]; cbn [fold_left].
  - cbn. f_equal; lia.
  - rewrite IH, numstat_step_record. cbn [omap list_omap].
    destruct (numstat_record line) as [[x y]|]; unfold sum_Z; cbn; f_equal; lia.
Qed.

(** C6: the added and deleted totals are the two independent sums over the
    records of the numstat listing, a binary marker counting as zero and
    blank or malformed lines being skipped, and the net is their difference;
    the listing of the scenario ([3 1 README.md] and the binary line
    [- - image.png]) gives 3 added and 1 deleted. *)
Theorem numstat_totals (W : World) (username : string) (st st' : State) (stats : LocStats) :
  get_lines_of_code W username st = (Ok stats, st') ->
  (exists listing,
     listing_of W (self_ st) (numstat_command (self_ st) username) = Some listing
     /\ lines_added stats = sum_Z (List.map fst (numstat_records listing))
     /\ lines_deleted stats = sum_Z (List.map snd (numstat_records listing))
     /\ (listing = Sample.unlines [Sample.tabbed ["3"; "1"; "README.md"];
                                   Sample.tabbed ["-"; "-"; "image.png"]] ->
         lines_added stats = 3%Z /\ lines_deleted stats = 1%Z))
  /\ net_lines stats = (lines_added stats - lines_deleted stats)%Z.
Proof.
  rewrite get_lines_of_code_unfold.
  pose proof (run_git_command_listing W (names_command (self_ st) username) st) as H1.
  destruct (run_git_command W _ st) as [[names|e] st1] eqn:R1; [|discriminate].
  assert (Hself : self_ st1 = self_ st) by apply (run_git_command_self _ _ _ _ _ R1).
  pose proof (run_git_command_listing W (numstat_command (self_ st) username) st1) as H2.
  rewrite Hself in H2.
  destruct (run_git_command W _ st1) as [[numstat|e] st2] eqn:R2; [|discriminate].
  cbn zeta. intros [= <- <-]. cbn [lines_added lines_deleted net_lines].
  split; [|reflexivity].
  destruct (listing_of W (self_ st) (numstat_command (self_ st) username)) as [listing|].
  - destruct H2 as (st2' & [= <- <-] & _).
    exists numstat. rewrite fold_numstat_step. unfold numstat_records. cbn [fst snd].
    split; [reflexivity|]. split; [lia|]. split; [lia|].
    intros ->. vm_compute. split; reflexivity.
  - destruct H2 as (e & st2' & [=]).
Qed.

Module Sample_C6.

(** The scenario: one text file changed and one binary file. *)
Definition scenario : World :=
  Sample.with_spawn
    (Sample.git_in "."
       {| Sample.l_oneline := "a1a1a1a initial";
          Sample.l_hashes := "a1a1a1a0";
          Sample.l_recent := "";
          Sample.l_dates := "2024-02-01";
          Sample.l_names := Sample.unlines ["README.md"; "image.png"];
          Sample.l_numstat :=
            Sample.unlines [Sample.tabbed ["3"; "1"; "README.md"];
                            Sample.tabbed ["-"; "-"; "image.png"]] |})
    Sample.bare.

End Sample_C6.

Lemma numstat_totals_witness :
  exists stats st',
    get_lines_of_code Sample_C6.scenario "alice" (Sample.start ".") = (Ok stats, st')
    /\ lines_added stats = 3%Z /\ lines_deleted stats = 1%Z /\ net_lines stats = 2%Z.
Proof.
  destruct (get_lines_of_code Sample_C6.scenario "alice" (Sample.start "."))
    as [[stats|e] st'] eqn:E; [|vm_compute in E; discriminate E].
  exists stats, st'. split; [reflexivity|].
  destruct (numstat_totals Sample_C6.scenario "alice" (Sample.start ".") st' stats E)
    as [(listing & Hl & _ & _ & Hscenario) Hnet].
  vm_compute in Hl. injection Hl as <-.
  destruct (Hscenario eq_refl) as [Ha Hd].
  rewrite Hnet, Ha, Hd. repeat split; reflexivity.
Defined.

(** The net may be negative: one line added, four deleted. *)
Lemma net_lines_negative :
  let totals := fold_left numstat_step (lines_of (Sample.tabbed ["1"; "4"; "a.c"])) (0, 0)%Z in
  (fst totals - snd totals = -3)%Z.
Proof. reflexivity. Qed.

(** A line whose count field [int] refuses is skipped as a whole: a count
    that starts with the separator FS (which [str.strip] would remove, but
    [int] does not skip), and a count of more digits than [int] converts. *)
Example numstat_skips_refused_counts :
  fold_left numstat_step
    (lines_of (Sample.unlines [Sample.tabbed ["2"; "3"; "a.c"];
                               Sample.tabbed [String (ascii_of_nat 28) "4"; "1"; "b.c"]]))
    (0, 0)%Z = (2, 3)%Z
  /\ fold_left numstat_step
       (lines_of (Sample.unlines [Sample.tabbed ["2"; "3"; "a.c"];
                                  Sample.tabbed ["1"; PyStr.repeat_char "9" 4301; "b.c"]]))
       (0, 0)%Z = (2, 3)%Z
  /\ fold_left numstat_step
       (lines_of (Sample.unlines [Sample.tabbed ["2"; "3"; "a.c"];
                                  Sample.tabbed [" +4 "; "1"; "b.c"]]))
       (0, 0)%Z = (6, 4)%Z.
Proof. repeat split; vm_compute; reflexivity. Qed.

(** *** Current line counts *)

Module Sample_C8.

(** The tool started in [/home/u] on the checkout [/srv/proj], which holds
    [a.py] with three lines; [/home/u] has no such file. *)
Definition elsewhere : World :=
  {| getcwd := "/home/u";
     fs := fun p =>
       if String.eqb p "/srv/proj/a.py" then Some (Reg (Some ["x = 1"; "y = 2"; "print(x)"]))
       else if String.eqb p "/srv/proj" || String.eqb p "/srv/proj/.git"
               || String.eqb p "/home/u" then Some Dir
       else None;
     spawn := Sample.git_in "/srv/proj"
       {| Sample.l_oneline := "a1a1a1a add a.py";
          Sample.l_hashes := "a1a1a1a0";
          Sample.l_recent := "";
          Sample.l_dates := "2024-02-01";
          Sample.l_names := "a.py";
          Sample.l_numstat := Sample.tabbed ["3"; "0"; "a.py"] |};
     github_token := None;
     http_get := http_get Sample.bare;
     json_loads := json_loads Sample.bare;
     json_dumps := json_dumps Sample.bare;
     py_repr := py_repr Sample.bare;
     weekday_of := weekday_of Sample.bare;
     now_text := now_text Sample.bare;
     now_iso := now_iso Sample.bare |}.

(** The same checkout with the tool started inside it. *)
Definition inside : World :=
  {| getcwd := "/srv/proj";
     fs := fs elsewhere; spawn := spawn elsewhere; github_token := None;
     http_get := http_get Sample.bare;
     json_loads := json_loads Sample.bare;
     json_dumps := json_dumps Sample.bare;
     py_repr := py_repr Sample.bare;
     weekday_of := weekday_of Sample.bare;
     now_text := now_text Sample.bare;
     now_iso := now_iso Sample.bare |}.

Definition st0 : State := Sample.start "/srv/proj".

Definition loc (W : World) : option (Z * Z * list (string * Z)) :=
  match fst (get_lines_of_code W "alice" st0) with
  | Ok stats => Some (files_modified stats, total_loc stats, largest_files stats)
  | Raise _ => None
  end.

End Sample_C8.

(** C8, the code at a failing input: [a.py] is a touched path that exists as
    a regular file under the repository root [/srv/proj], where [validate_repo]
    leaves [self.repo_path], but the tool runs in [/home/u] and looks the
    path up there: no line is counted.  Started inside the checkout the same
    file counts with its three lines. *)
Theorem get_lines_of_code_ignores_repo_root :
  fst (validate_repo Sample_C8.elsewhere Sample_C8.st0) = Ok true
  /\ repo_path (self_ (snd (validate_repo Sample_C8.elsewhere Sample_C8.st0))) = "/srv/proj"
  /\ fs Sample_C8.elsewhere (PyPath.join "/srv/proj" "a.py")
     = Some (Reg (Some ["x = 1"; "y = 2"; "print(x)"]))
  /\ Sample_C8.loc Sample_C8.elsewhere = Some (1%Z, 0%Z, [])
  /\ Sample_C8.loc Sample_C8.inside = Some (1%Z, 3%Z, [("a.py", 3%Z)]).
Proof. repeat split; vm_compute; reflexivity. Qed.

(** ** The request-count resolver *)

Section Resolver.

Variable W : World.
Variable username : string.

(** The first source succeeds: the session is authenticated, the listing
    exits with status zero and decodes to a document with a length. *)
Definition github_cli_succeeds (n : Z) : Prop :=
  exists out err out' err' data,
    spawn W None gh_auth_status = Completed 0 out err
    /\ spawn W None (gh_pr_list username) = Completed 0 out' err'
    /\ json_loads W out' = inr data
    /\ json_len data = Some n.

(** A listing query of a hosting tool fails: the tool is not installed, it
    exits with a non-zero status, or its output does not decode. *)
Inductive cli_query_fails (argv : list string) : Prop :=
| cli_not_installed msg :
    spawn W None argv = SpawnFailed true msg -> cli_query_fails argv
| cli_exit_status rc out err :
    spawn W None argv = Completed rc out err -> rc <> 0%Z -> cli_query_fails argv
| cli_malformed out err msg :
    spawn W None argv = Completed 0 out err -> json_loads W out = inl msg ->
    cli_query_fails argv.

(** The first source fails: no tool, no authenticated session, or a failed
    listing. *)
Inductive github_cli_fails : Prop :=
| gh_not_installed msg :
    spawn W None gh_auth_status = SpawnFailed true msg -> github_cli_fails
| gh_unauthenticated rc out err :
    spawn W None gh_auth_status = Completed rc out err -> rc <> 0%Z -> github_cli_fails
| gh_listing_fails out err :
    spawn W None gh_auth_status = Completed 0 out err ->
    cli_query_fails (gh_pr_list username) -> github_cli_fails.

Definition gitlab_cli_fails : Prop := cli_query_fails (glab_mr_list username).

(** The third source fails, for an object whose repository is [self]: the
    remote cannot be read, it is not on the hosting domain, the request
    fails, the status is not 200, or the body is not a JSON object. *)
Inductive github_api_fails (self : Self) : Prop :=
| api_no_git :
    listing_of W self remote_url_command = None -> github_api_fails self
| api_other_host remote_url :
    listing_of W self remote_url_command = Some remote_url ->
    PyStr.contains "github.com" remote_url = false -> github_api_fails self
| api_request_failed remote_url msg :
    listing_of W self remote_url_command = Some remote_url ->
    PyStr.contains "github.com" remote_url = true ->
    http_get W (search_url username remote_url) (auth_headers W) = RequestFailed msg ->
    github_api_fails self
| api_status remote_url status_code body :
    listing_of W self remote_url_command = Some remote_url ->
    PyStr.contains "github.com" remote_url = true ->
    http_get W (search_url username remote_url) (auth_headers W) = Response status_code body ->
    status_code <> 200%Z -> github_api_fails self
| api_malformed remote_url body msg :
    listing_of W self remote_url_command = Some remote_url ->
    PyStr.contains "github.com" remote_url = true ->
    http_get W (search_url username remote_url) (auth_headers W) = Response 200 body ->
    json_loads W body = inl msg -> github_api_fails self
| api_not_an_object remote_url body data :
    listing_of W self remote_url_command = Some remote_url ->
    PyStr.contains "github.com" remote_url = true ->
    http_get W (search_url username remote_url) (auth_headers W) = Response 200 body ->
    json_loads W body = inr data ->
    (forall fields, data <> JObj fields) -> github_api_fails self.

Ltac run_monad :=
  unfold try_github_cli, try_gitlab_cli, try_github_api, subprocess_run, json_loads_m,
    py_len, py_get, bind, attempt, emit, print, raise, ret.

Lemma try_github_cli_success n st :
  github_cli_succeeds n ->
  try_github_cli W username st =
  (Ok (Some {| pull_requests := JInt n; source := "github_cli" |}),
   log (log st [ESpawn None gh_auth_status]) [ESpawn None (gh_pr_list username)]).
Proof.
  intros (out & err & out' & err' & data & Hauth & Hlist & Hjson & Hlen).
  run_monad. rewrite Hauth. cbn. rewrite Hlist. cbn. rewrite Hjson, Hlen. reflexivity.
Qed.

Lemma try_github_cli_failure st :
  github_cli_fails ->
  exists st', try_github_cli W username st = (Ok None, st') /\ self_ st' = self_ st.
Proof.
  intros [msg H | rc out err H Hrc | out err H Hq]; run_monad; rewrite H; cbn.
  - eexists; split; reflexivity.
  - apply Z.eqb_neq in Hrc. rewrite Hrc. eexists; split; reflexivity.
  - destruct Hq as [msg Hl | rc out' err' Hl Hrc | out' err' msg Hl Hjson]; rewrite Hl; cbn.
    + eexists; split; reflexivity.
    + apply Z.eqb_neq in Hrc. rewrite Hrc. cbn. eexists; split; reflexivity.
    + rewrite Hjson. eexists; split; reflexivity.
Qed.

Lemma try_gitlab_cli_failure st :
  gitlab_cli_fails ->
  exists st', try_gitlab_cli W username st = (Ok None, st') /\ self_ st' = self_ st.
Proof.
  intros [msg Hl | rc out' err' Hl Hrc | out' err' msg Hl Hjson]; run_monad; rewrite Hl; cbn.
  - eexists; split; reflexivity.
  - apply Z.eqb_neq in Hrc. rewrite Hrc. cbn. eexists; split; reflexivity.
  - rewrite Hjson. eexists; split; reflexivity.
Qed.

Lemma listing_of_Some self command listing st :
  listing_of W self command = Some listing -> self_ st = self ->
  exists st', run_git_command W command st = (Ok listing, st').
Proof.
  intros H <-. pose proof (run_git_command_listing W command st) as R.
  rewrite H in R. destruct R as (st' & R & _). eauto.
Qed.

Lemma try_github_api_failure st :
  github_api_fails (self_ st) ->
  exists st', try_github_api W username st = (Ok None, st').
Proof.
  intros Hfail. unfold try_github_api, bind, attempt.
  destruct Hfail as [Hg | url Hg Hhost | url msg Hg Hhost Hreq
                    | url code body Hg Hhost Hreq Hcode
                    | url body msg Hg Hhost Hreq Hjson
                    | url body data Hg Hhost Hreq Hjson Hobj].
  - pose proof (run_git_command_listing W remote_url_command st) as R.
    rewrite Hg in R. destruct R as (e & st' & ->). cbn. eexists; reflexivity.
  - destruct (listing_of_Some _ _ _ st Hg eq_refl) as (st' & ->).
    rewrite Hhost. cbn. eexists; reflexivity.
  - destruct (listing_of_Some _ _ _ st Hg eq_refl) as (st' & ->).
    rewrite Hhost. run_monad. rewrite Hreq. cbn. eexists; reflexivity.
  - destruct (listing_of_Some _ _ _ st Hg eq_refl) as (st' & ->).
    rewrite Hhost. run_monad. rewrite Hreq. apply Z.eqb_neq in Hcode. rewrite Hcode.
    destruct (code =? 401)%Z; [cbn; eexists; reflexivity|].
    destruct (code =? 403)%Z; cbn; eexists; reflexivity.
  - destruct (listing_of_Some _ _ _ st Hg eq_refl) as (st' & ->).
    rewrite Hhost. run_monad. rewrite Hreq. cbn. rewrite Hjson. cbn. eexists; reflexivity.
  - destruct (listing_of_Some _ _ _ st Hg eq_refl) as (st' & ->).
    rewrite Hhost. run_monad. rewrite Hreq. cbn. rewrite Hjson. cbn.
    destruct data; try (cbn; eexists; reflexivity).
    exfalso. eapply Hobj. reflexivity.
Qed.

End Resolver.

(** The chain where the handlers hold: when the first source succeeds,
    [get_pull_requests] returns its count tagged [github_cli] and the only
    external calls made are the two of the first source (the second and
    third sources are not invoked); when each of the three sources fails in
    a way the handler of its stage catches, it returns count 0 tagged
    [unknown]. *)
Theorem get_pull_requests_chain (W : World) (username : string) (st : State) :
  (forall n,
     github_cli_succeeds W username n ->
     get_pull_requests W username st =
     (Ok {| pull_requests := JInt n; source := "github_cli" |},
      log st [ESpawn None gh_auth_status; ESpawn None (gh_pr_list username)]))
  /\ (github_cli_fails W username ->
      gitlab_cli_fails W username ->
      github_api_fails W username (self_ st) ->
      fst (get_pull_requests W username st)
      = Ok {| pull_requests := JInt 0; source := "unknown" |}).
Proof.
  split.
  - intros n Hok. unfold get_pull_requests, bind.
    rewrite (try_github_cli_success W username n st Hok).
    unfold ret, log. cbn. rewrite <- app_assoc. reflexivity.
  - intros H1 H2 H3. unfold get_pull_requests, bind.
    destruct (try_github_cli_failure W username st H1) as (st1 & -> & Hs1).
    destruct (try_gitlab_cli_failure W username st1 H2) as (st2 & -> & Hs2).
    rewrite <- Hs1, <- Hs2 in H3.
    destruct (try_github_api_failure W username st2 H3) as (st3 & ->).
    reflexivity.
Qed.

Module Sample_C2.

(** The first tool is installed and authenticated and lists two requests. *)
Definition gh_ready : World :=
  Sample.with_spawn
    (fun _ argv =>
       match argv with
       | ["gh"; "auth"; "status"] => Completed 0 "Logged in to github.com" ""
       | "gh" :: "pr" :: _ => Completed 0 "[1, 2]" ""
       | _ => SpawnFailed true "No such file or directory"
       end)
    Sample.bare.

(** The first tool is not authenticated, the second is not installed, and
    the REST endpoint answers 403. *)
Definition all_fail : World :=
  Sample.with_http
    (fun _ _ => Response 403 "")
    (Sample.with_spawn
       (fun _ argv =>
          match argv with
          | ["gh"; "auth"; "status"] => Completed 1 "" "You are not logged in"
          | "git" :: "config" :: _ => Completed 0 "https://github.com/alice/proj.git" ""
          | _ => SpawnFailed true "No such file or directory"
          end)
       Sample.bare).

Definition st0 : State := Sample.start ".".

End Sample_C2.

Lemma get_pull_requests_chain_witness :
  get_pull_requests Sample_C2.gh_ready "alice" Sample_C2.st0 =
    (Ok {| pull_requests := JInt 2; source := "github_cli" |},
     log Sample_C2.st0 [ESpawn None gh_auth_status; ESpawn None (gh_pr_list "alice")])
  /\ fst (get_pull_requests Sample_C2.all_fail "alice" Sample_C2.st0)
     = Ok {| pull_requests := JInt 0; source := "unknown" |}.
Proof.
  split.
  - apply (proj1 (get_pull_requests_chain Sample_C2.gh_ready "alice" Sample_C2.st0) 2%Z).
    exists "Logged in to github.com", "", "[1, 2]", "", (JArr [JInt 1; JInt 2]).
    repeat split; reflexivity.
  - apply (proj2 (get_pull_requests_chain Sample_C2.all_fail "alice" Sample_C2.st0)).
    + apply (gh_unauthenticated _ _ 1%Z "" "You are not logged in"); [reflexivity | lia].
    + apply (cli_not_installed _ _ "No such file or directory"). reflexivity.
    + apply (api_status _ _ _ "https://github.com/alice/proj.git" 403%Z "");
        [reflexivity | reflexivity | reflexivity | lia].
Defined.

(** In the all-fail scenario the calls are tried in order and two notices
    are printed: the missing second tool fails silently. *)
Example all_fail_events :
  events (snd (get_pull_requests Sample_C2.all_fail "alice" Sample_C2.st0)) =
  [ESpawn None gh_auth_status;
   EPrint "GitHub CLI not authenticated. Run 'gh auth login' to authenticate.";
   ESpawn None (glab_mr_list "alice");
   ESpawn (Some ".") ["git"; "config"; "--get"; "remote.origin.url"];
   EHttpGet "https://api.github.com/search/issues?q=author:alice+repo:alice/proj+is:pr" [];
   EPrint "GitHub API rate limit exceeded or insufficient permissions."].
Proof. vm_compute. reflexivity. Qed.

Module Sample_C2_unusable.

(** [gh] is found on the search path but may not be executed, [glab] is not
    installed, and the remote of the checkout is on another host: none of
    the three sources can give a count. *)
Definition gh_unusable : World :=
  Sample.with_spawn
    (fun _ argv =>
       match argv with
       | "gh" :: _ => SpawnFailed false "[Errno 13] Permission denied: 'gh'"
       | "git" :: "config" :: _ => Completed 0 "https://gitlab.com/alice/proj.git" ""
       | _ => SpawnFailed true "No such file or directory"
       end)
    Sample.bare.

(** Here it is [git] that may not be executed; the two tools are not
    installed. *)
Definition git_unusable : World :=
  Sample.with_spawn
    (fun _ argv =>
       match argv with
       | "git" :: _ => SpawnFailed false "[Errno 13] Permission denied: 'git'"
       | _ => SpawnFailed true "No such file or directory"
       end)
    Sample.bare.

End Sample_C2_unusable.

(** C2, the code at a failing input: [gh] cannot be executed, [glab] is not
    installed and the remote is on another host, so every source fails; the
    handler of the first stage does not catch the [PermissionError] and
    [get_pull_requests] raises it after the first call instead of returning
    count 0 tagged [unknown].  The third stage catches every exception: the
    same error from [git] there gives count 0 tagged [unknown]. *)
Theorem get_pull_requests_aborts_on_unusable_tool :
  spawn Sample_C2_unusable.gh_unusable None gh_auth_status
  = SpawnFailed false "[Errno 13] Permission denied: 'gh'"
  /\ gitlab_cli_fails Sample_C2_unusable.gh_unusable "alice"
  /\ github_api_fails Sample_C2_unusable.gh_unusable "alice" (self_ Sample_C2.st0)
  /\ get_pull_requests Sample_C2_unusable.gh_unusable "alice" Sample_C2.st0
     = (Raise (OtherException "[Errno 13] Permission denied: 'gh'"),
        log Sample_C2.st0 [ESpawn None gh_auth_status])
  /\ get_pull_requests Sample_C2_unusable.git_unusable "alice" Sample_C2.st0
     = (Ok {| pull_requests := JInt 0; source := "unknown" |},
        log Sample_C2.st0
          [ESpawn None gh_auth_status;
           ESpawn None (glab_mr_list "alice");
           ESpawn (Some ".") ["git"; "config"; "--get"; "remote.origin.url"];
           EPrint "GitHub API error: [Errno 13] Permission denied: 'git'"]).
Proof.
  split; [reflexivity|]. split.
  { apply (cli_not_installed _ _ "No such file or directory"). reflexivity. }
  split.
  { apply (api_other_host _ _ _ "https://gitlab.com/alice/proj.git"); reflexivity. }
  split; vm_compute; reflexivity.
Qed.

(** A decoded document without a length ends the method with [TypeError],
    which neither handler of the tools catches. *)
Example scalar_listing_raises :
  let W := Sample.with_spawn
             (fun _ argv =>
                match argv with
                | ["gh"; "auth"; "status"] => Completed 0 "" ""
                | _ => Completed 0 "7" ""
                end) Sample.bare in
  fst (get_pull_requests W "alice" Sample_C2.st0)
  = Raise (TypeError "object of type 'int' has no len()").
Proof. vm_compute. reflexivity. Qed.

(** ** The commit counts *)

(** *** Lines of a listing *)

Definition no_LF (s : string) : bool := negb (PyStr.existsb (Ascii.eqb LF) s).

Lemma split_without sep s :
  PyStr.existsb (Ascii.eqb sep) s = false -> PyStr.split sep s = [s].
Proof.
  induction s as [|c s IH]; cbn [PyStr.existsb PyStr.split]; [reflexivity|].
  rewrite (Ascii.eqb_sym sep c). destruct (Ascii.eqb c sep); cbn [orb]; [discriminate|].
  intros H. rewrite (IH H). reflexivity.
Qed.

Lemma split_append sep s rest :
  PyStr.existsb (Ascii.eqb sep) s = false ->
  PyStr.split sep (s +++ String sep rest) = s :: PyStr.split sep rest.
Proof.
  induction s as [|c s IH]; simpl.
  - intros _. rewrite Ascii.eqb_refl. reflexivity.
  - rewrite (Ascii.eqb_sym sep c). destruct (Ascii.eqb c sep); simpl; [discriminate|].
    intros H. rewrite (IH H). reflexivity.
Qed.

Lemma split_no_LF s : no_LF s = true -> PyStr.split LF s = [s].
Proof. intros H. apply split_without, negb_true_iff, H. Qed.

Lemma split_append_LF s rest :
  no_LF s = true -> PyStr.split LF (s +++ String LF rest) = s :: PyStr.split LF rest.
Proof. intros H. apply split_append, negb_true_iff, H. Qed.

(** Lines without a line feed are read back from their listing. *)
Lemma lines_of_join (lines : list string) :
  lines <> [] -> Forall (fun l => no_LF l = true) lines ->
  lines_of (PyStr.join (String LF "") lines) = lines.
Proof.
  unfold lines_of. induction lines as [|l lines IH]; [congruence|].
  intros _ Hall. inversion Hall as [|? ? Hl Hrest]; subst.
  destruct lines as [|l' lines].
  - apply split_no_LF, Hl.
  - change (PyStr.join (String LF "") (l :: l' :: lines))
      with (l +++ String LF (PyStr.join (String LF "") (l' :: lines))).
    rewrite split_append_LF by exact Hl. f_equal. apply IH; [discriminate | exact Hrest].
Qed.

Lemma join_truthy (lines : list string) :
  lines <> [] -> Forall (fun l => PyStr.truthy l = true) lines ->
  PyStr.truthy (PyStr.join (String LF "") lines) = true.
Proof.
  destruct lines as [|l lines]; [congruence|]. intros _ Hall.
  inversion Hall as [|? ? Hl _]; subst.
  destruct l as [|c l]; [discriminate|]. destruct lines; reflexivity.
Qed.

(** A line of a listing: not empty and without line feed. *)
Definition is_line (l : string) : bool := PyStr.truthy l && no_LF l.

Lemma count_output_lines_join (lines : list string) :
  Forall (fun l => is_line l = true) lines ->
  count_output_lines (PyStr.join (String LF "") lines) = Z.of_nat (List.length lines).
Proof.
  intros Hall. destruct lines as [|l lines]; [reflexivity|].
  unfold count_output_lines.
  rewrite join_truthy, lines_of_join; try discriminate; try reflexivity.
  - eapply Forall_impl; [exact Hall|]. cbn. unfold is_line. intros a H.
    apply andb_prop in H. tauto.
  - eapply Forall_impl; [exact Hall|]. cbn. unfold is_line. intros a H.
    apply andb_prop in H. tauto.
Qed.


Lemma size_list_to_set_le (l : list string) :
  size (list_to_set l : gset string) <= List.length l.
Proof.
  induction l as [|x l IH]; cbn [list_to_set List.length].
  - rewrite size_empty. lia.
  - rewrite size_union_alt, size_singleton.
    assert (Hsub : list_to_set l ∖ {[x]} ⊆ (list_to_set l : gset string)).
    { intros y Hy. apply elem_of_difference in Hy. tauto. }
    apply subseteq_size in Hsub. lia.
Qed.


Lemma strip_by_none p s :
  PyStr.existsb p s = false -> PyStr.lstrip_by p s = s /\ PyStr.rstrip_by p s = s.
Proof.
  induction s as [|c s IH]; cbn [PyStr.existsb PyStr.lstrip_by PyStr.rstrip_by];
    [intros _; split; reflexivity|].
  intros H. apply orb_false_iff in H. destruct H as [Hc Hs].
  destruct (IH Hs) as [_ Hr]. rewrite Hc, Hr. split; [reflexivity|].
  destruct s; reflexivity.
Qed.

Ltac run_listing :=
  match goal with
  | Hself : self_ ?s = _ |- context [match run_git_command ?W ?c ?s with _ => _ end] =>
      let H := fresh "H" in
      let E := fresh "E" in
      pose proof (run_git_command_listing W c s) as H;
      try rewrite Hself in H;
      match type of H with
      | match ?l with _ => _ end =>
          destruct l eqn:E;
          [ let st1 := fresh "st" in
            let Hs := fresh "Hs" in
            destruct H as (st1 & -> & Hs); clear Hself; cbn beta iota
          | destruct H as (? & ? & ->); discriminate ]
      end
  end.

(** *** Line breaks and trailing white space *)







(** What is trimmed on the right is white space. *)
Lemma rstrip_by_all p t : PyStr.forallb p t = true -> PyStr.rstrip_by p t = "".
Proof.
  induction t as [|c t IH]; cbn [PyStr.forallb PyStr.rstrip_by]; [reflexivity|].
  intros H. apply andb_true_iff in H. destruct H as [Hc Ht]. rewrite (IH Ht), Hc. reflexivity.
Qed.




(** A text that starts with a character other than white space. *)
Definition starts_solid (s : string) : bool :=
  match s with
  | String c _ => negb (PyStr.is_space c)
  | EmptyString => false
  end.



Lemma starts_solid_kept s : starts_solid s = true -> s <> "".
Proof. destruct s; [discriminate | discriminate]. Qed.





















(** *** A history and the listings that render it *)












Module Sample_C1.

Definition st0 : State := Sample.start ".".





End Sample_C1.





(** *** The date listing and the histograms *)

Definition dates_command (self : Self) (username : string) : list string :=
  (["log"; "--all"; "--author"; username] ++ ["--pretty=format:%ad"; "--date=short"]
   ++ _build_date_filter self)%list.

(** [dict(Counter(keys).most_common())] *)
Definition histogram (keys : list string) : list (string * Z) :=
  dict_of_items (most_common (Counter keys)).

(** The timeline and the date histograms of [get_commit_stats], by the
    date listing. *)
Lemma get_commit_stats_dates W username st stats st' :
  get_commit_stats W username st = (Ok stats, st') ->
  exists dates,
    listing_of W (self_ st) (dates_command (self_ st) username) = Some dates
    /\ commits_by_year stats
       = (if PyStr.truthy dates then histogram (years_of dates) else [])
    /\ commits_by_month stats
       = (if PyStr.truthy dates then histogram (months_of dates) else [])
    /\ first_commit stats
       = (if PyStr.truthy dates then Some (List.last (lines_of dates) "") else None)
    /\ last_commit stats
       = (if PyStr.truthy dates then Some (List.hd "" (lines_of dates)) else None).
Proof.
  unfold get_commit_stats, bind, get_self.
  fold (dates_command (self_ st) username).
  assert (Hself : self_ st = self_ st) by reflexivity.
  do 7 run_listing.
  repeat match goal with
         | H : Some _ = Some _ |- _ => injection H as <-
         end.
  match goal with
  | |- context [match attempt ?m ?s with _ => _ end] =>
      destruct (attempt m s) as [[[?|?]|?] ?]; [| |discriminate]
  end.
  - unfold print, emit, ret. cbn. intros [= <- <-]. eexists. split; [reflexivity|].
    cbn. auto.
  - match goal with
    | |- context [if ?b then _ else _] => destruct b
    end.
    + match goal with
      | |- context [match branch_loop ?W ?u ?d ?l ?a ?s with _ => _ end] =>
          destruct (branch_loop W u d l a s) as [[?|?] ?]; [|discriminate]
      end.
      unfold ret. intros [= <- <-]. eexists. split; [reflexivity|]. cbn. auto.
    + unfold ret. intros [= <- <-]. eexists. split; [reflexivity|]. cbn. auto.
Qed.

(** *** Keys of a histogram *)

Lemma counter_incr_keys k c k' :
  List.In k' (List.map fst (counter_incr k c)) <-> k' = k \/ List.In k' (List.map fst c).
Proof.
  induction c as [|[k0 n] c IH]; cbn.
  - intuition.
  - destruct (String.eqb_spec k k0) as [->|Hne]; cbn; [intuition|].
    rewrite IH. intuition.
Qed.

Lemma counter_incr_NoDup k c :
  List.NoDup (List.map fst c) -> List.NoDup (List.map fst (counter_incr k c)).
Proof.
  induction c as [|[k0 n] c IH]; cbn; intros Hnd.
  - constructor; [intros []|constructor].
  - inversion Hnd as [|? ? Hnotin Hnd']; subst.
    destruct (String.eqb_spec k k0) as [->|Hne]; cbn.
    + constructor; assumption.
    + constructor; [|apply IH, Hnd'].
      rewrite counter_incr_keys. intros [->|Hin]; [congruence | exact (Hnotin Hin)].
Qed.

Lemma Counter_fold_keys keys c k' :
  List.In k' (List.map fst (fold_left (fun c k => counter_incr k c) keys c))
  <-> List.In k' keys \/ List.In k' (List.map fst c).
Proof.
  revert c. induction keys as [|k keys IH]; intros c; cbn; [intuition|].
  rewrite IH, counter_incr_keys. intuition.
Qed.

Lemma Counter_fold_NoDup keys c :
  List.NoDup (List.map fst c) ->
  List.NoDup (List.map fst (fold_left (fun c k => counter_incr k c) keys c)).
Proof.
  revert c. induction keys as [|k keys IH]; intros c Hnd; cbn; [exact Hnd|].
  apply IH, counter_incr_NoDup, Hnd.
Qed.

Lemma insert_desc_perm {A} (key : A -> Z) x l :
  Permutation (insert_desc key x l) (x :: l).
Proof.
  induction l as [|y l IH]; cbn; [reflexivity|].
  destruct (key x <? key y)%Z; [|reflexivity].
  rewrite IH. apply perm_swap.
Qed.

Lemma sorted_desc_perm {A} (key : A -> Z) l : Permutation (sorted_desc key l) l.
Proof.
  induction l as [|x l IH]; cbn; [reflexivity|].
  rewrite insert_desc_perm. constructor. exact IH.
Qed.

Lemma dict_set_fresh {V} k (v : V) d :
  ~ List.In k (List.map fst d) -> dict_set k v d = (d ++ [(k, v)])%list.
Proof.
  induction d as [|[k0 v0] d IH]; cbn; intros Hnotin; [reflexivity|].
  destruct (String.eqb_spec k k0) as [->|Hne]; [tauto|].
  rewrite IH; [reflexivity | tauto].
Qed.

Lemma dict_of_items_fold {V} (items acc : list (string * V)) :
  List.NoDup (List.map fst (acc ++ items)) ->
  fold_left (fun d kv => dict_set (fst kv) (snd kv) d) items acc = (acc ++ items)%list.
Proof.
  revert acc. induction items as [|[k v] items IH]; intros acc Hnd; cbn.
  - rewrite app_nil_r. reflexivity.
  - rewrite dict_set_fresh.
    + rewrite IH; rewrite <- app_assoc; [reflexivity | exact Hnd].
    + rewrite List.map_app in Hnd. cbn in Hnd.
      apply List.NoDup_remove_2 in Hnd. intros Hin. apply Hnd.
      apply List.in_or_app. left. exact Hin.
Qed.

(** A list of items with distinct keys is the dictionary built from it. *)
Lemma dict_of_items_NoDup {V} (items : list (string * V)) :
  List.NoDup (List.map fst items) -> dict_of_items items = items.
Proof. intros Hnd. unfold dict_of_items. apply (dict_of_items_fold items []), Hnd. Qed.

(** A histogram has no repeated key, and its keys are the counted ones. *)
Lemma histogram_keys (keys : list string) :
  List.NoDup (List.map fst (histogram keys))
  /\ forall k, List.In k (List.map fst (histogram keys)) <-> List.In k keys.
Proof.
  assert (Hc : List.NoDup (List.map fst (Counter keys))).
  { apply Counter_fold_NoDup. constructor. }
  assert (Hp : Permutation (List.map fst (most_common (Counter keys)))
                 (List.map fst (Counter keys))).
  { apply Permutation_map, sorted_desc_perm. }
  assert (Hm : List.NoDup (List.map fst (most_common (Counter keys)))).
  { eapply Permutation_NoDup; [symmetry; exact Hp | exact Hc]. }
  unfold histogram. rewrite dict_of_items_NoDup by exact Hm.
  split; [exact Hm|]. intros k. split.
  - intros Hin. eapply Permutation_in in Hin; [|exact Hp].
    apply Counter_fold_keys in Hin. cbn in Hin. tauto.
  - intros Hin. eapply Permutation_in; [symmetry; exact Hp|].
    apply Counter_fold_keys. tauto.
Qed.

(** *** The rendering order *)

Lemma string_compare_refl (a : string) : String.compare a a = Eq.
Proof.
  pose proof (String.compare_antisym a a) as H.
  destruct (String.compare a a); cbn in H; congruence.
Qed.

Lemma string_ltb_asym (a b : string) : String.ltb a b = true -> String.ltb b a = false.
Proof.
  unfold String.ltb. rewrite (String.compare_antisym a b).
  destruct (String.compare b a); cbn; congruence.
Qed.

Lemma string_ltb_irrefl (a : string) : String.ltb a a = false.
Proof. unfold String.ltb. rewrite string_compare_refl. reflexivity. Qed.

Lemma string_ltb_total (a b : string) :
  a <> b -> String.ltb b a = false -> String.ltb a b = true.
Proof.
  unfold String.ltb. intros Hne. rewrite (String.compare_antisym b a).
  destruct (String.compare a b) eqn:E; cbn; try congruence.
  apply String.compare_eq_iff in E. congruence.
Qed.

Lemma item_lt_asym (a b : string * Z) : item_lt a b = true -> item_lt b a = false.
Proof.
  unfold item_lt. intros H. apply orb_true_iff in H. destruct H as [H|H].
  - rewrite (string_ltb_asym _ _ H).
    destruct (String.eqb_spec (fst b) (fst a)) as [E|_]; [|reflexivity].
    rewrite E, string_ltb_irrefl in H. discriminate.
  - apply andb_true_iff in H. destruct H as [He Hv].
    apply String.eqb_eq in He. rewrite He, string_ltb_irrefl, String.eqb_refl. cbn.
    apply Z.ltb_ge. apply Z.ltb_lt in Hv. lia.
Qed.

Section InsertionSort.
Context {A : Type} (lt : A -> A -> bool).
Hypothesis lt_asym : forall a b, lt a b = true -> lt b a = false.

(** No element is followed by a smaller one. *)
Definition not_after (a b : A) : Prop := lt b a = false.

Lemma insert_asc_perm x l : Permutation (insert_asc lt x l) (x :: l).
Proof.
  induction l as [|y l IH]; cbn; [reflexivity|].
  destruct (lt y x); [|reflexivity].
  rewrite IH. apply perm_swap.
Qed.

Lemma sorted_asc_perm l : Permutation (sorted_asc lt l) l.
Proof.
  induction l as [|x l IH]; cbn; [reflexivity|].
  rewrite insert_asc_perm. constructor. exact IH.
Qed.

Lemma insert_asc_Sorted x l :
  Sorted not_after l -> Sorted not_after (insert_asc lt x l).
Proof.
  induction l as [|y l IH]; cbn; intros Hs.
  - repeat constructor.
  - destruct (lt y x) eqn:E.
    + inversion Hs as [|? ? Hl Hhd]; subst. constructor; [apply IH, Hl|].
      destruct l as [|z l]; cbn.
      * constructor. apply lt_asym, E.
      * destruct (lt z x); constructor.
        -- inversion Hhd; assumption.
        -- apply lt_asym, E.
    + constructor; [exact Hs|]. constructor. exact E.
Qed.

Lemma sorted_asc_Sorted l : Sorted not_after (sorted_asc lt l).
Proof.
  induction l as [|x l IH]; cbn; [constructor|].
  apply insert_asc_Sorted, IH.
Qed.

End InsertionSort.

(** The keys of a rendering grow strictly, in the order of Python on
    strings. *)
Definition keys_ascending (l : list (string * Z)) : Prop :=
  Sorted (fun a b => String.ltb (fst a) (fst b) = true) l.

Lemma Sorted_keys_ascending (l : list (string * Z)) :
  List.NoDup (List.map fst l) -> Sorted (not_after item_lt) l -> keys_ascending l.
Proof.
  unfold keys_ascending. induction l as [|a l IH]; intros Hnd Hs; [constructor|].
  inversion Hs as [|? ? Hl Hhd]; subst. cbn in Hnd.
  inversion Hnd as [|? ? Hnotin Hnd']; subst.
  constructor; [apply IH; assumption|].
  destruct l as [|b l]; constructor.
  inversion Hhd as [|? ? Hab]; subst. unfold not_after, item_lt in Hab.
  apply orb_false_iff in Hab. destruct Hab as [Hab _].
  apply string_ltb_total; [|exact Hab].
  intros E. apply Hnotin. cbn. left. symmetry. exact E.
Qed.

(** The year lines of the text report, [sorted(commits_by_year.items())] of
    a histogram, have distinct keys in strictly ascending order. *)
Lemma year_rendering_ascending (keys : list string) :
  List.NoDup (List.map fst (sorted_asc item_lt (histogram keys)))
  /\ keys_ascending (sorted_asc item_lt (histogram keys)).
Proof.
  assert (Hnd : List.NoDup (List.map fst (sorted_asc item_lt (histogram keys)))).
  { eapply Permutation_NoDup; [|exact (proj1 (histogram_keys keys))].
    symmetry. apply Permutation_map, sorted_asc_perm. }
  split; [exact Hnd|].
  apply Sorted_keys_ascending; [exact Hnd|].
  apply sorted_asc_Sorted, item_lt_asym.
Qed.

(** *** Year tokens as numbers *)

Definition all_digits (s : string) : bool := PyStr.forallb PyStr.is_digit s.

(** The number a string of decimal digits writes. *)
Fixpoint dec_value (acc : Z) (s : string) : Z :=
  match s with
  | EmptyString => acc
  | String c s' => dec_value (acc * 10 + PyStr.digit_val c) s'
  end.

Lemma dec_value_acc acc s :
  dec_value acc s = (acc * 10 ^ Z.of_nat (String.length s) + dec_value 0 s)%Z.
Proof.
  revert acc. induction s as [|c s IH]; intros acc; cbn [dec_value String.length].
  - cbn. lia.
  - rewrite IH, (IH (0 * 10 + PyStr.digit_val c)%Z).
    rewrite Nat2Z.inj_succ, Z.pow_succ_r by lia. lia.
Qed.

Lemma digit_val_range c : PyStr.is_digit c = true -> (0 <= PyStr.digit_val c <= 9)%Z.
Proof.
  unfold PyStr.is_digit, PyStr.digit_val. intros H.
  apply andb_true_iff in H. destruct H as [H1 H2].
  apply Nat.leb_le in H1, H2. lia.
Qed.

Lemma dec_value_bound s :
  all_digits s = true -> (0 <= dec_value 0 s < 10 ^ Z.of_nat (String.length s))%Z.
Proof.
  induction s as [|c s IH]; cbn [all_digits PyStr.forallb dec_value String.length].
  - intros _. cbn. lia.
  - intros H. apply andb_true_iff in H. destruct H as [Hc Hs].
    specialize (IH Hs). pose proof (digit_val_range c Hc).
    rewrite dec_value_acc, Nat2Z.inj_succ, Z.pow_succ_r by lia. nia.
Qed.

Lemma ascii_compare_digit_val c d :
  Ascii.compare c d = Lt -> (PyStr.digit_val c < PyStr.digit_val d)%Z.
Proof.
  unfold Ascii.compare, PyStr.digit_val, nat_of_ascii. intros H.
  pose proof (proj1 (N.compare_lt_iff _ _) H). rewrite !N_nat_Z. lia.
Qed.

(** On digit strings of one length the order of strings is the order of
    the numbers. *)
Lemma digits_compare_lt a b :
  String.length a = String.length b -> all_digits a = true -> all_digits b = true ->
  String.compare a b = Lt -> (dec_value 0 a < dec_value 0 b)%Z.
Proof.
  revert b. induction a as [|c a IH]; intros [|d b]; cbn [String.length]; try discriminate.
  intros Hlen Ha Hb. cbn [all_digits PyStr.forallb] in Ha, Hb.
  apply andb_true_iff in Ha, Hb. destruct Ha as [Hc Ha], Hb as [Hd Hb].
  injection Hlen as Hlen.
  cbn [String.compare dec_value].
  rewrite (dec_value_acc _ a), (dec_value_acc _ b), Hlen.
  pose proof (dec_value_bound a Ha) as Ba. pose proof (dec_value_bound b Hb) as Bb.
  rewrite Hlen in Ba.
  destruct (Ascii.compare c d) eqn:E; try discriminate.
  - apply Ascii.compare_eq_iff in E. subst d. intros Hcmp.
    specialize (IH b Hlen Ha Hb Hcmp). lia.
  - intros _. apply ascii_compare_digit_val in E. nia.
Qed.

Lemma digit_plain c :
  PyStr.is_digit c = true ->
  PyStr.is_space c = false /\ Ascii.eqb c "-" = false /\ Ascii.eqb c "+" = false.
Proof.
  destruct c as [[] [] [] [] [] [] [] []]; try discriminate; intros _; repeat split.
Qed.

Lemma all_digits_no_space s : all_digits s = true -> PyStr.existsb PyStr.is_space s = false.
Proof.
  induction s as [|c s IH]; cbn [all_digits PyStr.forallb PyStr.existsb]; [reflexivity|].
  intros H. apply andb_true_iff in H. destruct H as [Hc Hs].
  rewrite (proj1 (digit_plain c Hc)). cbn. apply IH, Hs.
Qed.

Lemma int_digits_all_digits acc prev s :
  all_digits s = true -> (prev = true \/ s <> "") ->
  PyStr.int_digits acc prev s = Some (dec_value acc s).
Proof.
  revert acc prev. induction s as [|c s IH]; intros acc prev Hs Hne;
    cbn [PyStr.int_digits dec_value].
  - destruct Hne as [->|Hne]; [reflexivity | congruence].
  - cbn [all_digits PyStr.forallb] in Hs.
    apply andb_true_iff in Hs. destruct Hs as [Hc Hs].
    rewrite Hc. apply IH; [exact Hs | left; reflexivity].
Qed.

Lemma digit_not_int_space c : PyStr.is_digit c = true -> PyStr.is_int_space c = false.
Proof.
  destruct c as [[] [] [] [] [] [] [] []]; try discriminate; intros _; reflexivity.
Qed.

Lemma all_digits_no_int_space s :
  all_digits s = true -> PyStr.existsb PyStr.is_int_space s = false.
Proof.
  induction s as [|c s IH]; cbn [all_digits PyStr.forallb PyStr.existsb]; [reflexivity|].
  intros H. apply andb_true_iff in H. destruct H as [Hc Hs].
  rewrite (digit_not_int_space c Hc). cbn. apply IH, Hs.
Qed.

Lemma count_digits_length s : (PyStr.count_digits s <= N.of_nat (String.length s))%N.
Proof.
  induction s as [|c s IH]; cbn [PyStr.count_digits String.length]; [lia|].
  destruct (PyStr.is_digit c); lia.
Qed.

(** [int] reads a string of digits, short of the digit limit, as the number
    it writes. *)
Lemma int_all_digits s :
  all_digits s = true -> s <> "" -> String.length s <= 4300 ->
  PyStr.int s = Some (dec_value 0 s).
Proof.
  intros Hs Hne Hlen. unfold PyStr.int.
  pose proof (strip_by_none _ _ (all_digits_no_int_space s Hs)) as [Hl Hr].
  rewrite Hr, Hl.
  rewrite <- (int_digits_all_digits 0 false s Hs (or_intror Hne)).
  assert (Hlit : PyStr.int_literal s = PyStr.int_digits 0 false s).
  { unfold PyStr.int_literal.
    destruct (N.ltb_spec PyStr.max_str_digits (PyStr.count_digits s)) as [Hlt|_];
      [|reflexivity].
    pose proof (count_digits_length s). unfold PyStr.max_str_digits in Hlt. lia. }
  rewrite <- Hlit.
  destruct s as [|c s]; [congruence|].
  cbn [all_digits PyStr.forallb] in Hs. apply andb_true_iff in Hs. destruct Hs as [Hc _].
  destruct c as [[] [] [] [] [] [] [] []]; try discriminate Hc; reflexivity.
Qed.

(** A year token of a short date: four decimal digits. *)
Definition is_year (k : string) : bool := (String.length k =? 4) && all_digits k.

(** The year of one rendered line is numerically below that of the next. *)
Definition year_before (a b : string * Z) : Prop :=
  exists x y, PyStr.int (fst a) = Some x /\ PyStr.int (fst b) = Some y /\ (x < y)%Z.

Lemma is_year_before a b :
  is_year (fst a) = true -> is_year (fst b) = true ->
  String.ltb (fst a) (fst b) = true -> year_before a b.
Proof.
  unfold is_year, String.ltb. intros Ha Hb Hlt.
  apply andb_true_iff in Ha, Hb. destruct Ha as [La Da], Hb as [Lb Db].
  apply Nat.eqb_eq in La, Lb.
  exists (dec_value 0 (fst a)), (dec_value 0 (fst b)).
  split; [apply int_all_digits; [exact Da|intros E; rewrite E in La; discriminate|lia]|].
  split; [apply int_all_digits; [exact Db|intros E; rewrite E in Lb; discriminate|lia]|].
  apply digits_compare_lt; try assumption; [congruence|].
  destruct (String.compare (fst a) (fst b)); congruence.
Qed.

Lemma Sorted_impl_on {A} (R R' : A -> A -> Prop) (P : A -> Prop) (l : list A) :
  (forall a b, P a -> P b -> R a b -> R' a b) ->
  List.Forall P l -> Sorted R l -> Sorted R' l.
Proof.
  intros Himpl. induction l as [|a l IH]; intros Hall Hs; [constructor|].
  inversion Hall as [|? ? Pa Hall']; subst. inversion Hs as [|? ? Hl Hhd]; subst.
  constructor; [apply IH; assumption|].
  destruct l as [|b l]; constructor.
  inversion Hall'; subst. inversion Hhd; subst. apply Himpl; assumption.
Qed.

(** When every counted key is a four-digit year, the year lines of the
    text report are in strictly ascending numeric order. *)
Lemma year_rendering_numeric (keys : list string) :
  List.Forall (fun k => is_year k = true) keys ->
  Sorted year_before (sorted_asc item_lt (histogram keys)).
Proof.
  intros Hyears.
  apply (Sorted_impl_on (fun a b => String.ltb (fst a) (fst b) = true) year_before
           (fun a => is_year (fst a) = true)).
  - intros a b. apply is_year_before.
  - apply List.Forall_forall. intros a Ha.
    assert (Hin : List.In (fst a) (List.map fst (histogram keys))).
    { apply List.in_map. eapply Permutation_in; [apply sorted_asc_perm | exact Ha]. }
    apply (proj2 (histogram_keys keys)) in Hin.
    apply (proj1 (List.Forall_forall _ _) Hyears), Hin.
  - apply (proj2 (year_rendering_ascending keys)).
Qed.

(** *** The collector returns *)

Lemma branch_loop_returns W username date_filter branches acc st :
  exists counts st',
    branch_loop W username date_filter branches acc st = (Ok counts, st').
Proof.
  revert acc st. induction branches as [|branch rest IH]; intros acc st; cbn [branch_loop].
  - eexists; eexists; reflexivity.
  - destruct (PyStr.truthy (PyStr.strip branch)); [|apply IH].
    unfold bind, attempt.
    destruct (run_git_command W _ st) as [[output|e] st1].
    + apply IH.
    + unfold print, emit, ret. eexists; eexists; reflexivity.
Qed.

(** [get_commit_stats] returns whenever [git] can be started. *)
Lemma get_commit_stats_returns W username st :
  (forall command, listing_of W (self_ st) command <> None) ->
  exists stats st', get_commit_stats W username st = (Ok stats, st').
Proof.
  intros Hgit. unfold get_commit_stats, bind, get_self.
  assert (Hself : self_ st = self_ st) by reflexivity.
  do 7 (match goal with
        | Hself : self_ ?s = _ |- context [match run_git_command ?W ?c ?s with _ => _ end] =>
            let H := fresh "H" in
            pose proof (run_git_command_listing W c s) as H;
            try rewrite Hself in H;
            destruct (listing_of W (self_ st) c) eqn:?;
            [ let st1 := fresh "st" in
              let Hs := fresh "Hs" in
              destruct H as (st1 & -> & Hs); clear Hself; cbn beta iota
            | exfalso; eapply Hgit; eassumption ]
        end).
  unfold attempt.
  destruct (run_git_command W ["branch"; "-r"] st6) as [[branches|e] st7].
  - destruct (PyStr.truthy branches).
    + destruct (branch_loop_returns W username (_build_date_filter (self_ st))
                  (lines_of branches) [] st7) as (counts & st8 & ->).
      eexists; eexists; reflexivity.
    + eexists; eexists; reflexivity.
  - unfold print, emit, ret. eexists; eexists; reflexivity.
Qed.

(** ** The year histogram *)

(** The filter of the year histogram drops a line that is exactly [0000];
    the year token of any other line is counted. *)
Example years_of_ex :
  years_of (Sample.unlines ["2024-02-01"; "0000"; ""; "2023-01-05"]) = ["2024"; "2023"]
  /\ years_of (Sample.unlines ["2024-02-01"; "0000-00-00"]) = ["2024"; "0000"].
Proof. split; reflexivity. Qed.

(** A short date whose year is [0000] passes the filter: its year token is
    counted. *)
Lemma years_of_keeps_sentinel (output rest : string) :
  List.In ("0000-" +++ rest) (lines_of output) -> List.In "0000" (years_of output).
Proof.
  intros Hin. unfold years_of. apply List.in_map_iff.
  exists ("0000-" +++ rest). split.
  - cbn. destruct (PyStr.split "-" rest); reflexivity.
  - apply List.filter_In. split; [exact Hin | reflexivity].
Qed.

Lemma split_not_nil sep s : PyStr.split sep s <> [].
Proof.
  destruct s as [|c s]; cbn [PyStr.split]; [discriminate|].
  destruct (Ascii.eqb c sep); [discriminate|].
  destruct (PyStr.split sep s); discriminate.
Qed.

(** The first field of a text is the text itself or what precedes its first
    separator. *)
Lemma split_hd sep s :
  s = List.hd "" (PyStr.split sep s)
  \/ exists rest, s = List.hd "" (PyStr.split sep s) +++ String sep rest.
Proof.
  induction s as [|c s IH]; [left; reflexivity|].
  cbn [PyStr.split]. destruct (Ascii.eqb_spec c sep) as [->|Hne].
  - right. exists s. reflexivity.
  - pose proof (split_not_nil sep s) as Hnil.
    destruct (PyStr.split sep s) as [|h t]; [congruence|]. cbn [List.hd] in *.
    destruct IH as [->|(rest & ->)]; [left; reflexivity | right; exists rest; reflexivity].
Qed.

(** The year tokens counted: the first field of every line that is neither
    empty nor [0000]. *)
Lemma years_of_spec output year :
  List.In year (years_of output)
  <-> exists line, List.In line (lines_of output) /\ line <> "" /\ line <> "0000"
                   /\ year = List.hd "" (PyStr.split "-" line).
Proof.
  unfold years_of. rewrite List.in_map_iff. split.
  - intros (line & <- & Hin). apply List.filter_In in Hin. destruct Hin as [Hin Hf].
    apply andb_true_iff in Hf. destruct Hf as [Ht Hz].
    exists line. split; [exact Hin|]. split; [intros ->; discriminate Ht|].
    split; [|reflexivity]. intros ->. discriminate Hz.
  - intros (line & Hin & Hne & Hz & ->). exists line. split; [reflexivity|].
    apply List.filter_In. split; [exact Hin|]. apply andb_true_iff. split.
    + destruct line; [congruence | reflexivity].
    + apply negb_true_iff, String.eqb_neq, Hz.
Qed.

(** The year lines of the text report: the items of the histogram, sorted
    as Python sorts pairs of a string and a number. *)
Definition year_line : string * Z -> string :=
  fun '(year, count) => "  " +++ year +++ ": " +++ PyStr.of_Z count +++ " commits".

Lemma text_report_year_lines W self username commit_stats loc_stats pr_stats activity_score :
  commits_by_year commit_stats <> [] ->
  exists before after,
    _generate_text_report W self username commit_stats loc_stats pr_stats activity_score
    = PyStr.join (String LF "")
        (before ++ ["📈 Commits by Year:"]
         ++ List.map year_line (sorted_asc item_lt (commits_by_year commit_stats))
         ++ after)%list.
Proof.
  intros Hne. unfold _generate_text_report.
  destruct (commits_by_year commit_stats) as [|item items] eqn:E; [congruence|].
  match goal with
  | |- exists before after,
         PyStr.join _ (?l1 ++ ?l2 ++ ?l3 ++ ?l4 ++ ?l5 ++ ?l6 ++ ?l7 ++ ?l8
                       ++ (_ ++ _ ++ [""]) ++ ?d ++ ?e)%list = _ =>
      exists (l1 ++ l2 ++ l3 ++ l4 ++ l5 ++ l6 ++ l7 ++ l8)%list, ([""] ++ d ++ e)%list
  end.
  f_equal. rewrite <- !app_assoc. reflexivity.
Qed.

Module Sample_C4.

(** Two commits, one of them dated in the year 10000. *)
Definition far_future_repo : World :=
  Sample.with_spawn
    (Sample.git_in "."
       {| Sample.l_oneline := Sample.unlines ["b2b2b2b second"; "a1a1a1a first"];
          Sample.l_hashes := Sample.unlines ["b2b2b2b0"; "a1a1a1a0"];
          Sample.l_recent := "";
          Sample.l_dates := Sample.unlines ["10000-01-01"; "2023-05-01"];
          Sample.l_names := "";
          Sample.l_numstat := "" |})
    Sample.bare.

Definition st0 : State := Sample.start ".".

Definition by_year (W : World) : option (list (string * Z)) :=
  match fst (get_commit_stats W "alice" st0) with
  | Ok stats => Some (commits_by_year stats)
  | Raise _ => None
  end.

Definition report_lines (W : World) : list string :=
  match fst (generate_report W "alice" "text" st0) with
  | Ok text => lines_of text
  | Raise _ => []
  end.

End Sample_C4.

(** C4, as amended: the year histogram has no repeated key; its keys are
    the first fields of the lines of the date listing that are neither empty
    nor [0000], so that it holds the key [0000] exactly when a line starts
    with [0000-]; the text report renders it in strictly ascending order of
    the keys as strings, which is ascending numeric order when every key
    is a year of four digits. *)
Theorem commits_by_year_order (W : World) (username : string) (st st' : State)
    (stats : CommitStats) :
  get_commit_stats W username st = (Ok stats, st') ->
  exists dates,
    listing_of W (self_ st) (dates_command (self_ st) username) = Some dates
    /\ List.NoDup (List.map fst (commits_by_year stats))
    /\ (forall year,
          List.In year (List.map fst (commits_by_year stats))
          <-> exists line, List.In line (lines_of dates) /\ line <> "" /\ line <> "0000"
                           /\ year = List.hd "" (PyStr.split "-" line))
    /\ (List.In "0000" (List.map fst (commits_by_year stats))
        <-> exists rest, List.In ("0000-" +++ rest) (lines_of dates))
    /\ keys_ascending (sorted_asc item_lt (commits_by_year stats))
    /\ (List.Forall (fun item => is_year (fst item) = true) (commits_by_year stats) ->
        Sorted year_before (sorted_asc item_lt (commits_by_year stats))).
Proof.
  intros Hrun. destruct (get_commit_stats_dates _ _ _ _ _ Hrun) as (dates & Hl & Hy & _).
  exists dates. split; [exact Hl|].
  assert (Hkeys : forall year,
             List.In year (List.map fst (commits_by_year stats))
             <-> List.In year (years_of dates)).
  { intros year. rewrite Hy. destruct dates as [|c dates].
    - cbn. tauto.
    - cbn [PyStr.truthy]. apply histogram_keys. }
  split; [|split; [|split; [|split]]].
  - rewrite Hy. destruct (PyStr.truthy dates); [apply histogram_keys | constructor].
  - intros year. rewrite Hkeys. apply years_of_spec.
  - rewrite Hkeys. split.
    + intros Hin. apply years_of_spec in Hin. destruct Hin as (line & Hin & _ & Hz & Hhd).
      destruct (split_hd "-" line) as [E|(rest & E)]; rewrite <- Hhd in E.
      * congruence.
      * exists rest. rewrite E in Hin. exact Hin.
    + intros (rest & Hin). eapply years_of_keeps_sentinel, Hin.
  - rewrite Hy. destruct (PyStr.truthy dates); [apply year_rendering_ascending | constructor].
  - rewrite Hy. destruct (PyStr.truthy dates); [|intros _; constructor].
    intros Hyears.
    apply (Sorted_impl_on (fun a b => String.ltb (fst a) (fst b) = true) year_before
             (fun a => is_year (fst a) = true)).
    + intros a b. apply is_year_before.
    + apply List.Forall_forall. intros a Ha.
      apply (proj1 (List.Forall_forall _ _) Hyears).
      eapply Permutation_in; [apply sorted_asc_perm | exact Ha].
    + apply year_rendering_ascending.
Qed.

Lemma commits_by_year_order_witness :
  exists stats st',
    get_commit_stats Sample.alice_repo "alice" (Sample.start ".") = (Ok stats, st')
    /\ List.NoDup (List.map fst (commits_by_year stats))
    /\ ~ List.In "0000" (List.map fst (commits_by_year stats))
    /\ sorted_asc item_lt (commits_by_year stats) = [("2023", 2%Z); ("2024", 1%Z)]
    /\ keys_ascending (sorted_asc item_lt (commits_by_year stats))
    /\ Sorted year_before (sorted_asc item_lt (commits_by_year stats)).
Proof.
  destruct (get_commit_stats Sample.alice_repo "alice" (Sample.start "."))
    as [[stats|e] st'] eqn:E; [|vm_compute in E; discriminate E].
  exists stats, st'. split; [reflexivity|].
  destruct (commits_by_year_order Sample.alice_repo "alice" (Sample.start ".") st' stats E)
    as (dates & Hl & Hnd & _ & Hz & Hasc & Hnum).
  vm_compute in Hl. injection Hl as <-.
  assert (Ey : commits_by_year stats = [("2023", 2%Z); ("2024", 1%Z)]).
  { vm_compute in E. injection E as <- _. reflexivity. }
  split; [exact Hnd|]. split.
  - intros Hin. apply Hz in Hin. destruct Hin as (rest & Hin).
    vm_compute in Hin. destruct Hin as [H|[H|[H|[]]]]; discriminate H.
  - split; [rewrite Ey; reflexivity|]. split; [exact Hasc|].
    apply Hnum. rewrite Ey. repeat constructor.
Defined.

(** C4 as stated fails: with one commit dated in the year 10000 and one in
    2023, the report renders the year 10000 before the year 2023. *)
Lemma year_rendering_not_numeric :
  Sample_C4.by_year Sample_C4.far_future_repo = Some [("10000", 1%Z); ("2023", 1%Z)]
  /\ List.filter (PyStr.contains "commits") (Sample_C4.report_lines Sample_C4.far_future_repo)
     = ["  10000: 1 commits"; "  2023: 1 commits"]
  /\ PyStr.int "10000" = Some 10000%Z /\ PyStr.int "2023" = Some 2023%Z
  /\ ~ Sorted year_before (sorted_asc item_lt [("10000", 1%Z); ("2023", 1%Z)]).
Proof.
  split; [vm_compute; reflexivity|]. split; [vm_compute; reflexivity|].
  split; [reflexivity|]. split; [reflexivity|].
  intros Hs. cbn in Hs. inversion Hs as [|? ? _ Hhd]; subst.
  inversion Hhd as [|? ? (x & y & Hx & Hy & Hlt)]; subst.
  cbn [fst] in Hx, Hy. vm_compute in Hx, Hy.
  injection Hx as <-. injection Hy as <-. lia.
Qed.

(** * Further properties of the code *)

(** ** What a computation adds to the event log

    [emits self P m]: started on an object whose attributes are [self], the
    computation [m] leaves the attributes as they are and adds to the log
    only events that satisfy [P], whether it returns or raises. *)

Definition emits {A} (self : Self) (P : Event -> Prop) (m : M A) : Prop :=
  forall st r st',
    self_ st = self -> m st = (r, st') ->
    self_ st' = self /\ exists evs, events st' = (events st ++ evs)%list /\ List.Forall P evs.

Section Emits.
Context (self : Self) (P : Event -> Prop).

Lemma emits_ret {A} (a : A) : emits self P (ret a).
Proof.
  intros st r st' Hs [= <- <-]. split; [exact Hs|].
  exists []. rewrite app_nil_r. split; [reflexivity | constructor].
Qed.

Lemma emits_raise {A} (e : exn) : emits self P (raise e : M A).
Proof.
  intros st r st' Hs [= <- <-]. split; [exact Hs|].
  exists []. rewrite app_nil_r. split; [reflexivity | constructor].
Qed.

Lemma emits_emit (ev : Event) : P ev -> emits self P (emit ev).
Proof.
  intros Hev st r st' Hs [= <- <-]. split; [exact Hs|].
  exists [ev]. split; [reflexivity | constructor; [exact Hev | constructor]].
Qed.

Lemma emits_bind {A B} (m : M A) (k : A -> M B) :
  emits self P m -> (forall a, emits self P (k a)) -> emits self P (bind m k).
Proof.
  intros Hm Hk st r st' Hs. unfold bind.
  destruct (m st) as [[a|e] st1] eqn:E; intros Hrun.
  - destruct (Hm _ _ _ Hs E) as (Hs1 & evs1 & E1 & H1).
    destruct (Hk a _ _ _ Hs1 Hrun) as (Hs2 & evs2 & E2 & H2).
    split; [exact Hs2|]. exists (evs1 ++ evs2)%list.
    rewrite E2, E1, <- app_assoc. split; [reflexivity | apply List.Forall_app; auto].
  - injection Hrun as <- <-. destruct (Hm _ _ _ Hs E) as (Hs1 & evs1 & E1 & H1).
    split; [exact Hs1|]. exists evs1. auto.
Qed.

Lemma emits_get_self {A} (k : Self -> M A) :
  emits self P (k self) -> emits self P (bind get_self k).
Proof.
  intros Hk st r st' Hs. unfold bind, get_self. rewrite Hs. apply Hk, Hs.
Qed.

Lemma emits_attempt {A} (m : M A) : emits self P m -> emits self P (attempt m).
Proof.
  intros Hm st r st' Hs. unfold attempt.
  destruct (m st) as [[a|e] st1] eqn:E; intros [= <- <-]; exact (Hm _ _ _ Hs E).
Qed.

End Emits.

Lemma emits_impl {A} self (P Q : Event -> Prop) (m : M A) :
  (forall ev, P ev -> Q ev) -> emits self P m -> emits self Q m.
Proof.
  intros HPQ Hm st r st' Hs Hrun.
  destruct (Hm _ _ _ Hs Hrun) as (Hs' & evs & E & H).
  split; [exact Hs'|]. exists evs. split; [exact E|].
  eapply List.Forall_impl; [exact HPQ | exact H].
Qed.

Section EmitsPrograms.
Context (W : World) (self : Self) (P : Event -> Prop).
Hypothesis P_print : forall line, P (EPrint line).

Lemma emits_print line : emits self P (print line).
Proof. apply emits_emit, P_print. Qed.

Lemma emits_subprocess_run cwd argv check :
  P (ESpawn cwd argv) -> emits self P (subprocess_run W cwd argv check).
Proof.
  intros Hev. unfold subprocess_run. apply emits_bind; [apply emits_emit, Hev|].
  intros _. destruct (spawn W cwd argv) as [rc out err|nf msg]; [|apply emits_raise].
  destruct (check && negb (rc =? 0)%Z); [apply emits_raise | apply emits_ret].
Qed.

Lemma emits_run_git_command command :
  P (ESpawn (Some (repo_path self)) ("git" :: command)) ->
  emits self P (run_git_command W command).
Proof.
  intros Hev. unfold run_git_command. apply emits_get_self.
  apply emits_bind; [apply emits_attempt, emits_subprocess_run, Hev|].
  intros [e|[[rc out] err]]; [|apply emits_ret].
  destruct e; try apply emits_raise.
  apply emits_bind; [apply emits_print|]. intros _.
  apply emits_bind; [apply emits_print|]. intros _. apply emits_ret.
Qed.

End EmitsPrograms.

(** ** The queries of a run *)

(** A history query of the object [self]: [git log] run in [self.repo_path]
    with the date filter at the end of its arguments, or the enumeration of
    the remote branches. *)
Definition history_query (self : Self) (ev : Event) : Prop :=
  match ev with
  | EPrint _ => True
  | ESpawn cwd argv =>
      cwd = Some (repo_path self)
      /\ (argv = ["git"; "branch"; "-r"]
          \/ exists options, argv = ("git" :: "log" :: options ++ _build_date_filter self)%list)
  | EHttpGet _ _ => False
  end.

Lemma history_query_log self (options : list string) :
  history_query self
    (ESpawn (Some (repo_path self)) ("git" :: "log" :: options ++ _build_date_filter self)%list).
Proof. split; [reflexivity|]. right. exists options. reflexivity. Qed.

Lemma emits_branch_loop W self username branches acc :
  emits self (history_query self)
    (branch_loop W username (_build_date_filter self) branches acc).
Proof.
  revert acc. induction branches as [|branch rest IH]; intros acc; cbn [branch_loop].
  - apply emits_ret.
  - destruct (PyStr.truthy (PyStr.strip branch)); [|apply IH].
    apply emits_bind.
    + apply emits_attempt, emits_run_git_command; [exact (fun _ => I)|].
      apply (history_query_log self ["--author"; username; PyStr.strip branch; "--oneline"]).
    + intros [e|output]; [|apply IH].
      apply emits_bind; [apply emits_print; exact (fun _ => I) | intros _; apply emits_ret].
Qed.

Lemma emits_get_commit_stats W self username :
  emits self (history_query self) (get_commit_stats W username).
Proof.
  unfold get_commit_stats. apply emits_get_self. cbn zeta.
  repeat (apply emits_bind;
          [ apply emits_run_git_command; [exact (fun _ => I)|];
            first [ apply (history_query_log self ["--all"; "--author"; username; "--oneline"])
                  | apply (history_query_log self
                             ["--all"; "--author"; username; "--pretty=format:%H"])
                  | apply (history_query_log self
                             ["--all"; "--author"; username; "--since=30 days ago"; "--oneline"])
                  | apply (history_query_log self
                             ["--all"; "--author"; username; "--pretty=format:%ad";
                              "--date=short"])
                  | apply (history_query_log self
                             ["--all"; "--author"; username; "--pretty=format:%aD"]) ]
          | intros ? ]).
  apply emits_bind.
  - apply emits_attempt, emits_run_git_command; [exact (fun _ => I)|].
    split; [reflexivity | left; reflexivity].
  - intros r. apply emits_bind; [|intros ?; apply emits_ret].
    destruct r as [e|branches_output].
    + apply emits_bind; [apply emits_print; exact (fun _ => I) | intros _; apply emits_ret].
    + destruct (PyStr.truthy branches_output); [apply emits_branch_loop | apply emits_ret].
Qed.

Lemma emits_get_lines_of_code W self username :
  emits self (history_query self) (get_lines_of_code W username).
Proof.
  unfold get_lines_of_code. apply emits_get_self. cbn zeta.
  apply emits_bind.
  { apply emits_run_git_command; [exact (fun _ => I)|].
    apply (history_query_log self
             ["--all"; "--author"; username; "--name-only"; "--pretty=format:"]). }
  intros names. apply emits_bind; [|intros ?; apply emits_ret].
  apply emits_run_git_command; [exact (fun _ => I)|].
  apply (history_query_log self
           ["--all"; "--author"; username; "--pretty=tformat:"; "--numstat"]).
Qed.

(** The two collectors leave the object as it is, and whatever they start
    is [git] in [self.repo_path]: the branch enumeration or a [git log]
    whose arguments end with the date filter.  They send no request over
    HTTP. *)
Theorem collectors_apply_date_filter (W : World) (username : string) (st : State) :
  (let '(_, st') := get_commit_stats W username st in
   self_ st' = self_ st
   /\ exists evs, events st' = (events st ++ evs)%list
                  /\ List.Forall (history_query (self_ st)) evs)
  /\ (let '(_, st') := get_lines_of_code W username st in
      self_ st' = self_ st
      /\ exists evs, events st' = (events st ++ evs)%list
                     /\ List.Forall (history_query (self_ st)) evs).
Proof.
  split.
  - destruct (get_commit_stats W username st) as [r st'] eqn:E.
    exact (emits_get_commit_stats W (self_ st) username st r st' eq_refl E).
  - destruct (get_lines_of_code W username st) as [r st'] eqn:E.
    exact (emits_get_lines_of_code W (self_ st) username st r st' eq_refl E).
Qed.

(** ** What a report run reaches *)

(** The programs and the endpoint of a run: [git] in [self.repo_path], the
    two hosting tools in the directory of the process, and the search
    endpoint for requests of an author. *)
Definition tool_event (self : Self) (ev : Event) : Prop :=
  match ev with
  | EPrint _ => True
  | ESpawn cwd argv =>
      (cwd = Some (repo_path self) /\ exists args, argv = "git" :: args)
      \/ (cwd = None /\ exists args, argv = "gh" :: args \/ argv = "glab" :: args)
  | EHttpGet url _ =>
      PyStr.startswith "https://api.github.com/search/issues?q=author:" url = true
  end.

Lemma history_query_tool_event self ev : history_query self ev -> tool_event self ev.
Proof.
  destruct ev as [line|cwd argv|url headers]; cbn; [tauto | | tauto].
  intros [-> [-> | (options & ->)]]; left; split; eauto.
Qed.

Lemma startswith_append p s : PyStr.startswith p (p +++ s) = true.
Proof.
  induction p as [|c p IH]; [reflexivity|].
  simpl. rewrite Ascii.eqb_refl. exact IH.
Qed.

Lemma tool_event_git self command :
  tool_event self (ESpawn (Some (repo_path self)) ("git" :: command)).
Proof. left. split; eauto. Qed.

Lemma emits_try_github_cli W self username :
  emits self (tool_event self) (try_github_cli W username).
Proof.
  unfold try_github_cli. apply emits_bind.
  - apply emits_attempt. apply emits_bind.
    + apply emits_subprocess_run. right. split; [reflexivity|]. eexists. left. reflexivity.
    + intros [[rc out] err]. destruct (rc =? 0)%Z.
      * apply emits_bind.
        { apply emits_subprocess_run. right. split; [reflexivity|]. eexists. left. reflexivity. }
        intros [[rc' out'] err']. apply emits_bind.
        { unfold json_loads_m. destruct (json_loads W out'); [apply emits_raise | apply emits_ret]. }
        intros data. apply emits_bind; [|intros ?; apply emits_ret].
        unfold py_len. destruct (json_len data); [apply emits_ret | apply emits_raise].
      * apply emits_bind; [apply emits_print; exact (fun _ => I) | intros _; apply emits_ret].
  - intros [e|res]; [|apply emits_ret].
    destruct (cli_handler_catches e); [apply emits_ret | apply emits_raise].
Qed.

(** The events of the second and of the third source. *)
Definition gitlab_event (username : string) (ev : Event) : Prop :=
  ev = ESpawn None (glab_mr_list username).

Definition api_event (self : Self) (ev : Event) : Prop :=
  match ev with
  | EPrint _ => True
  | ESpawn cwd argv => cwd = Some (repo_path self) /\ argv = "git" :: remote_url_command
  | EHttpGet url _ =>
      PyStr.startswith "https://api.github.com/search/issues?q=author:" url = true
  end.

Definition fallback_event (self : Self) (username : string) (ev : Event) : Prop :=
  gitlab_event username ev \/ api_event self ev.

Lemma fallback_tool_event self username ev :
  fallback_event self username ev -> tool_event self ev.
Proof.
  intros [->|H].
  - right. split; [reflexivity|]. eexists. right. reflexivity.
  - destruct ev as [line|cwd argv|url headers]; cbn in *; [exact I | | exact H].
    destruct H as [-> ->]. left. split; eauto.
Qed.

Lemma emits_try_gitlab_cli W self username :
  emits self (gitlab_event username) (try_gitlab_cli W username).
Proof.
  unfold try_gitlab_cli. apply emits_bind.
  - apply emits_attempt. apply emits_bind.
    + unfold subprocess_run. apply emits_bind; [apply emits_emit; reflexivity|].
      intros _. destruct (spawn W _ _) as [rc out err|nf msg]; [|apply emits_raise].
      destruct (true && negb (rc =? 0)%Z); [apply emits_raise | apply emits_ret].
    + intros [[rc' out'] err']. apply emits_bind.
      { unfold json_loads_m. destruct (json_loads W out'); [apply emits_raise | apply emits_ret]. }
      intros data. apply emits_bind; [|intros ?; apply emits_ret].
      unfold py_len. destruct (json_len data); [apply emits_ret | apply emits_raise].
  - intros [e|res]; [|apply emits_ret].
    destruct (cli_handler_catches e); [apply emits_ret | apply emits_raise].
Qed.

Lemma emits_try_github_api W self username :
  emits self (api_event self) (try_github_api W username).
Proof.
  unfold try_github_api. apply emits_bind.
  - apply emits_attempt. apply emits_bind.
    + apply emits_run_git_command; [exact (fun _ => I) | split; reflexivity].
    + intros remote_url. destruct (PyStr.contains "github.com" remote_url); [|apply emits_ret].
      cbn zeta. apply emits_bind.
      { apply emits_emit. cbn [api_event]. unfold search_url.
        apply (startswith_append "https://api.github.com/search/issues?q=author:"). }
      intros _. destruct (http_get W _ _) as [code body|msg]; [|apply emits_raise].
      destruct (code =? 200)%Z.
      * apply emits_bind.
        { unfold json_loads_m. destruct (json_loads W body); [apply emits_raise | apply emits_ret]. }
        intros data. apply emits_bind; [|intros ?; apply emits_ret].
        unfold py_get. destruct data; try apply emits_raise. apply emits_ret.
      * destruct (code =? 401)%Z;
          [apply emits_bind; [apply emits_print; exact (fun _ => I) | intros _; apply emits_ret]|].
        destruct (code =? 403)%Z;
          [apply emits_bind; [apply emits_print; exact (fun _ => I) | intros _; apply emits_ret]|].
        apply emits_ret.
  - intros [e|res]; [|apply emits_ret].
    apply emits_bind; [apply emits_print; exact (fun _ => I) | intros _; apply emits_ret].
Qed.

(** What follows the first source. *)
Definition fallback_stages (W : World) (username : string) : M PrStats :=
  r2 <- try_gitlab_cli W username ;;
  match r2 with
  | Some stats => ret stats
  | None =>
      r3 <- try_github_api W username ;;
      match r3 with
      | Some stats => ret stats
      | None => ret {| pull_requests := JInt 0; source := "unknown" |}
      end
  end.

Lemma emits_fallback_stages W self username :
  emits self (fallback_event self username) (fallback_stages W username).
Proof.
  unfold fallback_stages.
  apply emits_bind.
  { eapply emits_impl; [|apply emits_try_gitlab_cli]. intros ev H. left. exact H. }
  intros [stats|]; [apply emits_ret|].
  apply emits_bind.
  { eapply emits_impl; [|apply emits_try_github_api]. intros ev H. right. exact H. }
  intros [stats|]; apply emits_ret.
Qed.

Lemma emits_get_pull_requests W self username :
  emits self (tool_event self) (get_pull_requests W username).
Proof.
  change (get_pull_requests W username)
    with (r1 <- try_github_cli W username ;;
          match r1 with
          | Some stats => ret stats
          | None => fallback_stages W username
          end).
  apply emits_bind; [apply emits_try_github_cli|]. intros [stats|]; [apply emits_ret|].
  eapply emits_impl; [apply fallback_tool_event | apply emits_fallback_stages].
Qed.

Lemma emits_validate_repo W self :
  emits self (tool_event self) (validate_repo W).
Proof.
  intros st r st' Hs Hrun. rewrite validate_repo_unfold in Hrun. cbn zeta in Hrun.
  destruct (run_git_command W ["rev-parse"; "--git-dir"] st) as [r1 st1] eqn:E.
  pose proof (emits_run_git_command W self (tool_event self) (fun _ => I)
                ["rev-parse"; "--git-dir"] (tool_event_git _ _) st r1 st1 Hs E) as H.
  destruct (spawn W _ _) as [rc out err|nf msg] eqn:Esp.
  - injection Hrun as <- <-. exact H.
  - injection Hrun as <- <-. split; [exact Hs|].
    exists [ESpawn (Some (repo_path (self_ st))) ["git"; "rev-parse"; "--git-dir"]].
    split; [reflexivity|]. constructor; [|constructor]. rewrite Hs. apply tool_event_git.
Qed.

Lemma emits_generate_report W self username output_format :
  emits self (tool_event self) (generate_report W username output_format).
Proof.
  unfold generate_report.
  apply emits_bind; [apply emits_validate_repo|]. intros valid.
  destruct (negb valid); [apply emits_ret|].
  apply emits_bind.
  { unfold check_user_exists. apply emits_get_self. cbn zeta.
    apply emits_bind; [|intros ?; apply emits_ret].
    apply emits_run_git_command; [exact (fun _ => I) | apply tool_event_git]. }
  intros found. destruct (negb found); [apply emits_ret|].
  apply emits_bind.
  { eapply emits_impl; [apply history_query_tool_event | apply emits_get_commit_stats]. }
  intros commit_stats. apply emits_bind.
  { eapply emits_impl; [apply history_query_tool_event | apply emits_get_lines_of_code]. }
  intros loc_stats. apply emits_bind; [apply emits_get_pull_requests|].
  intros pr_stats. cbn zeta. apply emits_get_self.
  destruct (String.eqb output_format "json"); apply emits_ret.
Qed.

(** Whatever [generate_report] returns or raises, it leaves
    [self.repo_path] and the date bounds as they were, and all it starts or
    contacts is [git] in [self.repo_path], [gh] or [glab] in the directory
    of the process, and the search endpoint of the hosting API. *)
Theorem generate_report_reach (W : World) (username output_format : string) (st : State) :
  let '(_, st') := generate_report W username output_format st in
  self_ st' = self_ st
  /\ exists evs, events st' = (events st ++ evs)%list
                 /\ List.Forall (tool_event (self_ st)) evs.
Proof.
  destruct (generate_report W username output_format st) as [r st'] eqn:E.
  exact (emits_generate_report W (self_ st) username output_format st r st' eq_refl E).
Qed.

(** Without an authenticated session the listing of the first tool is not
    started: after the status query and the notice, only the second and
    the third source are tried. *)
Theorem gh_unauthenticated_skips_listing (W : World) (username : string) (st : State)
    (rc : Z) (out err : string) :
  spawn W None gh_auth_status = Completed rc out err -> rc <> 0%Z ->
  let '(_, st') := get_pull_requests W username st in
  exists evs,
    events st' =
      (events st
       ++ [ESpawn None gh_auth_status;
           EPrint "GitHub CLI not authenticated. Run 'gh auth login' to authenticate."]
       ++ evs)%list
    /\ List.Forall (fallback_event (self_ st) username) evs
    /\ ~ List.In (ESpawn None (gh_pr_list username)) evs.
Proof.
  intros Hauth Hrc.
  change (get_pull_requests W username)
    with (r1 <- try_github_cli W username ;;
          match r1 with
          | Some stats => ret stats
          | None => fallback_stages W username
          end).
  unfold bind at 1.
  assert (E1 : try_github_cli W username st =
               (Ok None,
                log (log st [ESpawn None gh_auth_status])
                  [EPrint "GitHub CLI not authenticated. Run 'gh auth login' to authenticate."])).
  { unfold try_github_cli, subprocess_run, bind, attempt, emit, print, raise, ret.
    rewrite Hauth. cbn. apply Z.eqb_neq in Hrc. rewrite Hrc. reflexivity. }
  rewrite E1.
  destruct (fallback_stages W username _) as [r st'] eqn:E2.
  apply (emits_fallback_stages W (self_ st) username) in E2; [|reflexivity].
  destruct E2 as (_ & evs & Eev & Hall).
  exists evs. split; [|split; [exact Hall|]].
  - rewrite Eev. cbn. rewrite <- !app_assoc. reflexivity.
  - intros Hin. apply (proj1 (List.Forall_forall _ _) Hall) in Hin.
    destruct Hin as [Hin|[Hin _]]; discriminate Hin.
Qed.

Lemma gh_unauthenticated_skips_listing_witness :
  exists evs,
    events (snd (get_pull_requests Sample_C2.all_fail "alice" Sample_C2.st0)) =
      ([ESpawn None gh_auth_status;
        EPrint "GitHub CLI not authenticated. Run 'gh auth login' to authenticate."]
       ++ evs)%list
    /\ ~ List.In (ESpawn None (gh_pr_list "alice")) evs.
Proof.
  pose proof (gh_unauthenticated_skips_listing Sample_C2.all_fail "alice" Sample_C2.st0
                1%Z "" "You are not logged in" eq_refl ltac:(discriminate)) as H.
  destruct (get_pull_requests Sample_C2.all_fail "alice" Sample_C2.st0) as [r st'].
  destruct H as (evs & Eev & _ & Hnot). exists evs. split; [exact Eev | exact Hnot].
Defined.

(** ** The outcomes of the request-count resolver *)

Lemma json_len_nonneg data n : json_len data = Some n -> (0 <= n)%Z.
Proof. destruct data; cbn; intros [= <-]; lia. Qed.











(** ** The fatal checks of a report *)

Lemma calls_log st evs : calls (events (log st evs)) = (calls (events st) ++ calls evs)%list.
Proof. unfold calls, log. cbn. apply List.filter_app. Qed.

(** The existence query of [check_user_exists]. *)
Definition user_command (self : Self) (username : string) : list string :=
  (["log"; "--all"; "--author"; username; "--oneline"; "-1"] ++ _build_date_filter self)%list.

(** When the existence query hands back nothing (no matching commit, only
    white space, or a failed command), the report is the no-commits message
    and no collector runs: the probe and the existence query are the only
    external calls. *)
Theorem generate_report_no_commits (W : World) (username output_format : string)
    (st : State) (rc : Z) (out err : string) :
  spawn W (Some (repo_path (self_ st))) ["git"; "rev-parse"; "--git-dir"]
  = Completed rc out err ->
  listing_of W (self_ st) (user_command (self_ st) username) = Some "" ->
  let '(r, st') := generate_report W username output_format st in
  r = Ok ("Error: No commits found for user '" +++ username +++ "'")
  /\ calls (events st') =
     (calls (events st)
      ++ [ESpawn (Some (repo_path (self_ st))) ["git"; "rev-parse"; "--git-dir"];
          ESpawn (Some (repo_path (self_ st))) ("git" :: user_command (self_ st) username)])%list.
Proof.
  intros Hprobe Huser. unfold generate_report, bind at 1.
  rewrite validate_repo_unfold. cbn zeta. rewrite Hprobe.
  rewrite run_git_command_unfold. cbn zeta. rewrite Hprobe.
  unfold listing_of in Huser.
  destruct (spawn W (Some (repo_path (self_ st))) ("git" :: user_command (self_ st) username))
    as [rc' out' err'|nf msg] eqn:Hspawn; [|discriminate].
  injection Huser as Huser.
  assert (Hcheck : forall st1, self_ st1 = self_ st ->
            exists st2, check_user_exists W username st1 = (Ok false, st2)
                        /\ calls (events st2) =
                           (calls (events st1)
                            ++ [ESpawn (Some (repo_path (self_ st)))
                                  ("git" :: user_command (self_ st) username)])%list).
  { intros st1 Hs. unfold check_user_exists, bind, get_self. rewrite Hs.
    fold (user_command (self_ st) username).
    rewrite run_git_command_unfold. cbn zeta. rewrite Hs, Hspawn.
    destruct (rc' =? 0)%Z.
    - rewrite Huser. eexists. split; [reflexivity|]. apply calls_log.
    - eexists. split; [reflexivity|]. rewrite !calls_log. cbn. rewrite !app_nil_r. reflexivity. }
  destruct (rc =? 0)%Z; cbn [snd fst negb]; unfold bind at 1.
  - destruct (Hcheck (log st [ESpawn (Some (repo_path (self_ st)))
                               ["git"; "rev-parse"; "--git-dir"]]) eq_refl)
      as (st2 & -> & Hcalls).
    cbn. split; [reflexivity|]. rewrite Hcalls, calls_log, <- app_assoc. reflexivity.
  - match goal with
    | |- context [check_user_exists W username ?s] =>
        destruct (Hcheck s eq_refl) as (st2 & -> & Hcalls)
    end.
    cbn. split; [reflexivity|]. rewrite Hcalls, !calls_log. cbn.
    rewrite !app_nil_r, <- app_assoc. reflexivity.
Qed.

Lemma generate_report_no_commits_witness :
  let '(r, st') := generate_report Sample_C3.no_repo "alice" "text" Sample_C3.st0 in
  r = Ok "Error: No commits found for user 'alice'"
  /\ calls (events st') =
     [ESpawn (Some "/tmp/x") ["git"; "rev-parse"; "--git-dir"];
      ESpawn (Some "/tmp/x") ["git"; "log"; "--all"; "--author"; "alice"; "--oneline"; "-1"]].
Proof.
  exact (generate_report_no_commits Sample_C3.no_repo "alice" "text" Sample_C3.st0
           128%Z "" "fatal: not a git repository (or any of the parent directories): .git"
           eq_refl eq_refl).
Defined.

(** ** The text a command hands back *)

(** [s] does not end with a character that satisfies [p]. *)
Fixpoint last_ok (p : ascii -> bool) (s : string) : bool :=
  match s with
  | EmptyString => true
  | String c s' =>
      match s' with
      | EmptyString => negb (p c)
      | String _ _ => last_ok p s'
      end
  end.

Lemma rstrip_by_last_ok p s : last_ok p (PyStr.rstrip_by p s) = true.
Proof.
  induction s as [|c s IH]; [reflexivity|]. simpl.
  destruct (PyStr.rstrip_by p s) as [|d r].
  - destruct (p c) eqn:E; simpl; [reflexivity | rewrite E; reflexivity].
  - exact IH.
Qed.

Lemma rstrip_by_fixed p s : last_ok p s = true -> PyStr.rstrip_by p s = s.
Proof.
  induction s as [|c s IH]; [reflexivity|]. simpl.
  destruct s as [|d s'].
  - intros H. simpl. destruct (p c); [discriminate | reflexivity].
  - intros H. rewrite (IH H). reflexivity.
Qed.

Lemma lstrip_by_last_ok q p s :
  last_ok p s = true -> last_ok p (PyStr.lstrip_by q s) = true.
Proof.
  induction s as [|c s IH]; [reflexivity|]. intros H. simpl.
  destruct (q c); [|exact H].
  apply IH. destruct s; [reflexivity | exact H].
Qed.

Lemma lstrip_by_idem p s :
  PyStr.lstrip_by p (PyStr.lstrip_by p s) = PyStr.lstrip_by p s.
Proof.
  induction s as [|c s IH]; [reflexivity|]. simpl.
  destruct (p c) eqn:E; [exact IH|]. simpl. rewrite E. reflexivity.
Qed.

Lemma strip_idem s : PyStr.strip (PyStr.strip s) = PyStr.strip s.
Proof.
  unfold PyStr.strip, PyStr.lstrip, PyStr.rstrip.
  rewrite (rstrip_by_fixed _ (PyStr.lstrip_by _ _)).
  - apply lstrip_by_idem.
  - apply lstrip_by_last_ok, rstrip_by_last_ok.
Qed.

(** The text [run_git_command] returns is trimmed: stripping it again
    changes nothing, and an output of white space only comes back as the
    empty string, which every caller reads as no output. *)
Theorem run_git_command_trimmed (W : World) (command : list string) (st st' : State)
    (output : string) :
  run_git_command W command st = (Ok output, st') ->
  PyStr.strip output = output
  /\ (forall rc stdout stderr,
        spawn W (Some (repo_path (self_ st))) ("git" :: command) = Completed rc stdout stderr ->
        PyStr.forallb PyStr.is_space stdout = true -> output = "").
Proof.
  rewrite run_git_command_unfold. cbn zeta.
  destruct (spawn W _ _) as [rc out err|nf msg]; [|discriminate].
  destruct (rc =? 0)%Z; intros [= <- <-].
  - split; [apply strip_idem|].
    intros rc' out' err' [= <- <- <-] Hall.
    unfold PyStr.strip, PyStr.rstrip. rewrite rstrip_by_all by exact Hall. reflexivity.
  - split; [reflexivity | intros; reflexivity].
Qed.

Lemma run_git_command_trimmed_witness :
  exists output st',
    run_git_command Sample.alice_repo ["log"; "--all"; "--oneline"] (Sample.start ".")
    = (Ok output, st')
    /\ PyStr.strip output = output.
Proof.
  destruct (run_git_command Sample.alice_repo ["log"; "--all"; "--oneline"] (Sample.start "."))
    as [[output|e] st'] eqn:E; [|vm_compute in E; discriminate E].
  exists output, st'. split; [reflexivity|].
  exact (proj1 (run_git_command_trimmed Sample.alice_repo _ _ _ _ E)).
Defined.

(** ** The ancestor walk *)

(** The directories the loop of [validate_repo]'s handler visits from [d]:
    [d] and its parents, up to and without the directory that is its own
    parent. *)
Fixpoint ancestors_upto (n : nat) (d : string) : list string :=
  match n with
  | O => []
  | S n' =>
      if string_dec d (PyPath.dirname d) then []
      else d :: ancestors_upto n' (PyPath.dirname d)
  end.

Definition ancestors (d : string) : list string := ancestors_upto (String.length d) d.

(** The state after the relocation to [p]. *)
Definition relocated (p : string) (st : State) : State :=
  {| self_ := set_repo_path p (self_ st);
     events := (events st ++ [EPrint ("Warning: Navigating to Git repository root: " +++ p)])%list |}.

Lemma walk_up_ancestors_upto W n d st :
  String.length d <= n ->
  walk_up W d st =
  match List.find (fun p => os_path_isdir W (PyPath.join p ".git")) (ancestors_upto n d) with
  | Some p => (Ok true, relocated p st)
  | None => (Ok false, st)
  end.
Proof.
  revert d. induction n as [|n IH]; intros d Hlen; rewrite walk_up_equation_1.
  - destruct d; [|cbn in Hlen; lia]. reflexivity.
  - cbn [ancestors_upto]. unfold walk_up_unfold_clause_1.
    destruct (string_dec d (PyPath.dirname d)) as [E|Hne]; cbn [List.find].
    + reflexivity.
    + destruct (os_path_isdir W (PyPath.join d ".git")); [reflexivity|].
      apply IH. pose proof (dirname_shorter d Hne). lia.
Qed.

(** The walk answers with the nearest visited directory that holds a
    [.git] directory: it relocates [self.repo_path] there and prints one
    notice; if there is none it answers [False] and changes nothing.  The
    directory that is its own parent is not visited, so a repository at the
    root of the file system is never found. *)
Theorem walk_up_nearest (W : World) (d : string) (st : State) :
  walk_up W d st =
    match List.find (fun p => os_path_isdir W (PyPath.join p ".git")) (ancestors d) with
    | Some p => (Ok true, relocated p st)
    | None => (Ok false, st)
    end
  /\ (d = PyPath.dirname d -> walk_up W d st = (Ok false, st)).
Proof.
  split; [apply walk_up_ancestors_upto; reflexivity|].
  intros E. rewrite walk_up_equation_1.
  destruct (string_dec d (PyPath.dirname d)) as [E'|Hne]; [reflexivity | contradiction].
Qed.

Example ancestors_ex :
  ancestors "/home/u/proj/src" = ["/home/u/proj/src"; "/home/u/proj"; "/home/u"; "/home"]
  /\ ancestors "/" = [].
Proof. split; reflexivity. Qed.

Example walk_up_relocates :
  walk_up Sample.alice_repo "/home/u/proj/src" (Sample.start "src")
  = (Ok true, relocated "/home/u/proj" (Sample.start "src")).
Proof. vm_compute. reflexivity. Qed.

(** ** Frequency histograms *)

Lemma dict_get_counter_incr k k' c :
  dict_get k (counter_incr k' c) =
  if String.eqb k k' then Some (default 0%Z (dict_get k c) + 1)%Z else dict_get k c.
Proof.
  induction c as [|[k0 n] c IH]; cbn [counter_incr dict_get].
  - destruct (String.eqb k k'); reflexivity.
  - destruct (String.eqb_spec k' k0) as [->|Hne]; cbn [dict_get].
    + destruct (String.eqb k k0); reflexivity.
    + rewrite IH. destruct (String.eqb_spec k k0) as [->|Hne'].
      * destruct (String.eqb_spec k0 k') as [E|_]; [congruence | reflexivity].
      * reflexivity.
Qed.

(** The count [Counter] holds for a key, after the keys [keys]. *)
Lemma dict_get_Counter_fold k keys c :
  default 0%Z (dict_get k (fold_left (fun c k => counter_incr k c) keys c))
  = (default 0%Z (dict_get k c) + Z.of_nat (List.count_occ string_dec keys k))%Z
  /\ (dict_get k (fold_left (fun c k => counter_incr k c) keys c) = None
      <-> dict_get k c = None /\ List.count_occ string_dec keys k = 0).
Proof.
  revert c. induction keys as [|k' keys IH]; intros c; cbn [fold_left List.count_occ].
  - split; [cbn; lia | tauto].
  - destruct (IH (counter_incr k' c)) as [IH1 IH2]. rewrite IH1, IH2.
    rewrite dict_get_counter_incr.
    destruct (string_dec k' k) as [->|Hne].
    + rewrite String.eqb_refl. cbn [default]. unfold id. split; [lia|].
      split; [intros [H _]; discriminate | intros [_ H]; discriminate].
    + destruct (String.eqb_spec k k') as [E|_]; [congruence|]. split; [lia | tauto].
Qed.

Lemma dict_get_In {V} k (v : V) d :
  List.NoDup (List.map fst d) -> (dict_get k d = Some v <-> List.In (k, v) d).
Proof.
  induction d as [|[k0 v0] d IH]; cbn [dict_get List.map List.In]; intros Hnd.
  - split; [discriminate | tauto].
  - inversion Hnd as [|? ? Hnotin Hnd']; subst.
    destruct (String.eqb_spec k k0) as [->|Hne].
    + split; [intros [= ->]; left; reflexivity|].
      intros [[= ->]|Hin]; [reflexivity|].
      exfalso. apply Hnotin. apply (List.in_map fst) in Hin. exact Hin.
    + rewrite (IH Hnd'). split; [tauto|]. intros [[= E _]|Hin]; [congruence | exact Hin].
Qed.

Lemma dict_get_perm {V} k (d d' : list (string * V)) :
  List.NoDup (List.map fst d) -> Permutation d d' -> dict_get k d = dict_get k d'.
Proof.
  intros Hnd Hp.
  assert (Hnd' : List.NoDup (List.map fst d')).
  { eapply Permutation_NoDup; [apply Permutation_map, Hp | exact Hnd]. }
  destruct (dict_get k d) as [v|] eqn:E.
  - symmetry. apply (dict_get_In k v d' Hnd'). eapply Permutation_in; [exact Hp|].
    apply (dict_get_In k v d Hnd), E.
  - destruct (dict_get k d') as [v'|] eqn:E'; [|reflexivity].
    apply (dict_get_In k v' d' Hnd') in E'.
    eapply Permutation_in in E'; [|symmetry; exact Hp].
    apply (dict_get_In k v' d Hnd) in E'. congruence.
Qed.

Lemma sum_Z_perm l l' : Permutation l l' -> sum_Z l = sum_Z l'.
Proof. unfold sum_Z. induction 1; cbn; lia. Qed.

Lemma sum_counter_incr k c :
  sum_Z (List.map snd (counter_incr k c)) = (sum_Z (List.map snd c) + 1)%Z.
Proof.
  unfold sum_Z. induction c as [|[k0 n] c IH]; cbn; [lia|].
  destruct (String.eqb k k0); cbn; lia.
Qed.

Lemma sum_Counter_fold keys c :
  sum_Z (List.map snd (fold_left (fun c k => counter_incr k c) keys c))
  = (sum_Z (List.map snd c) + Z.of_nat (List.length keys))%Z.
Proof.
  revert c. induction keys as [|k keys IH]; intros c; cbn [fold_left List.length].
  - lia.
  - rewrite IH, sum_counter_incr. lia.
Qed.

Section Descending.
Context {A : Type} (key : A -> Z).

Lemma insert_desc_Sorted x l :
  Sorted (fun a b => (key b <= key a)%Z) l ->
  Sorted (fun a b => (key b <= key a)%Z) (insert_desc key x l).
Proof.
  induction l as [|y l IH]; cbn; intros Hs.
  - repeat constructor.
  - destruct (key x <? key y)%Z eqn:E.
    + apply Z.ltb_lt in E. inversion Hs as [|? ? Hl Hhd]; subst.
      constructor; [apply IH, Hl|].
      destruct l as [|z l]; cbn.
      * constructor. lia.
      * destruct (key x <? key z)%Z; constructor; [inversion Hhd; assumption | lia].
    + apply Z.ltb_ge in E. constructor; [exact Hs|]. constructor. exact E.
Qed.

Lemma sorted_desc_Sorted l : Sorted (fun a b => (key b <= key a)%Z) (sorted_desc key l).
Proof.
  induction l as [|x l IH]; cbn; [constructor|]. apply insert_desc_Sorted, IH.
Qed.

(** The sort is stable: the elements of one key keep their order. *)
Lemma insert_desc_filter n x l :
  List.filter (fun a => (key a =? n)%Z) (insert_desc key x l)
  = List.filter (fun a => (key a =? n)%Z) (x :: l).
Proof.
  induction l as [|y l IH]; [reflexivity|]. cbn [insert_desc].
  destruct (key x <? key y)%Z eqn:E; [|reflexivity].
  apply Z.ltb_lt in E. cbn [List.filter] in *. rewrite IH.
  destruct (key x =? n)%Z eqn:Ex; [|reflexivity].
  apply Z.eqb_eq in Ex.
  destruct (key y =? n)%Z eqn:Ey; [|reflexivity].
  apply Z.eqb_eq in Ey. lia.
Qed.

Lemma sorted_desc_filter n l :
  List.filter (fun a => (key a =? n)%Z) (sorted_desc key l)
  = List.filter (fun a => (key a =? n)%Z) l.
Proof.
  induction l as [|x l IH]; [reflexivity|]. cbn [sorted_desc fold_right].
  fold (sorted_desc key l). rewrite insert_desc_filter. cbn [List.filter]. rewrite IH.
  reflexivity.
Qed.

End Descending.

Lemma histogram_most_common keys : histogram keys = most_common (Counter keys).
Proof.
  unfold histogram. apply dict_of_items_NoDup.
  eapply Permutation_NoDup.
  - symmetry. apply Permutation_map, sorted_desc_perm.
  - apply Counter_fold_NoDup. constructor.
Qed.

(** [dict(Counter(keys).most_common())], the histogram of the year, weekday
    and month keys: every key maps to the number of its occurrences (a key
    that does not occur is missing), the counts add up to the number of
    keys, the entries come in descending order of count, and entries with
    one count keep the order in which their keys were first seen. *)
Theorem histogram_frequencies (keys : list string) :
  (forall k,
     dict_get k (histogram keys) =
     match List.count_occ string_dec keys k with
     | O => None
     | S n => Some (Z.of_nat (S n))
     end)
  /\ sum_Z (List.map snd (histogram keys)) = Z.of_nat (List.length keys)
  /\ Sorted (fun a b => (snd b <= snd a)%Z) (histogram keys)
  /\ (forall n,
        List.filter (fun kv => (snd kv =? n)%Z) (histogram keys)
        = List.filter (fun kv => (snd kv =? n)%Z) (Counter keys)).
Proof.
  rewrite histogram_most_common. unfold most_common.
  assert (Hnd : List.NoDup (List.map fst (Counter keys))).
  { apply Counter_fold_NoDup. constructor. }
  split; [|split; [|split]].
  - intros k.
    rewrite <- (dict_get_perm k (Counter keys) (sorted_desc snd (Counter keys)) Hnd)
      by (symmetry; apply sorted_desc_perm).
    destruct (dict_get_Counter_fold k keys []) as [H1 H2]. fold (Counter keys) in H1, H2.
    cbn [dict_get default] in H1, H2.
    destruct (List.count_occ string_dec keys k) as [|n] eqn:E.
    + apply H2. split; reflexivity.
    + destruct (dict_get k (Counter keys)) as [v|] eqn:Ev.
      * cbn [default] in H1. unfold id in H1. f_equal. lia.
      * destruct (proj1 H2 eq_refl) as [_ Ev']. discriminate.
  - rewrite (sum_Z_perm _ (List.map snd (Counter keys)))
      by (apply Permutation_map, sorted_desc_perm).
    unfold Counter. rewrite sum_Counter_fold. cbn. lia.
  - apply sorted_desc_Sorted.
  - intros n. apply (sorted_desc_filter snd).
Qed.

Lemma sum_histogram keys : sum_Z (List.map snd (histogram keys)) = Z.of_nat (List.length keys).
Proof.
  rewrite histogram_most_common. unfold most_common.
  rewrite (sum_Z_perm _ (List.map snd (Counter keys)))
    by (apply Permutation_map, sorted_desc_perm).
  unfold Counter. rewrite sum_Counter_fold. cbn. lia.
Qed.

(** A line that counts for a month counts for a year. *)
Lemma months_years_length (lines : list string) :
  List.length
    (flat_map (fun line =>
       match PyStr.split "-" line with
       | year :: month :: _ => if PyStr.truthy line then [year +++ "-" +++ month] else []
       | _ => []
       end) lines)
  <= List.length
       (List.filter (fun line => PyStr.truthy line && negb (String.eqb line "0000")) lines)
  /\ List.length
       (List.filter (fun line => PyStr.truthy line && negb (String.eqb line "0000")) lines)
     <= List.length lines.
Proof.
  induction lines as [|line lines [IH1 IH2]]; cbn [flat_map List.filter List.length]; [lia|].
  rewrite List.length_app.
  destruct (String.eqb_spec line "0000") as [->|Hne].
  - cbn. lia.
  - rewrite andb_true_r.
    destruct (PyStr.split "-" line) as [|y [|m rest]]; destruct (PyStr.truthy line); cbn; lia.
Qed.

(** The counts of the year histogram add up to the number of date lines
    that are neither empty nor [0000], and those of the month histogram to
    the number of date lines with at least two fields: never more than the
    year counts, which are never more than the lines of the listing. *)
Theorem date_histogram_totals (W : World) (username : string) (st st' : State)
    (stats : CommitStats) :
  get_commit_stats W username st = (Ok stats, st') ->
  exists dates,
    listing_of W (self_ st) (dates_command (self_ st) username) = Some dates
    /\ sum_Z (List.map snd (commits_by_year stats)) = Z.of_nat (List.length (years_of dates))
    /\ sum_Z (List.map snd (commits_by_month stats)) = Z.of_nat (List.length (months_of dates))
    /\ (sum_Z (List.map snd (commits_by_month stats))
        <= sum_Z (List.map snd (commits_by_year stats))
        <= Z.of_nat (List.length (lines_of dates)))%Z.
Proof.
  intros Hrun. destruct (get_commit_stats_dates _ _ _ _ _ Hrun) as (dates & Hl & -> & -> & _).
  exists dates. split; [exact Hl|].
  pose proof (months_years_length (lines_of dates)) as [Hmy Hyl].
  assert (Ey : List.length (years_of dates)
               = List.length (List.filter
                   (fun line => PyStr.truthy line && negb (String.eqb line "0000"))
                   (lines_of dates))).
  { unfold years_of. apply List.length_map. }
  fold (months_of dates) in Hmy.
  destruct (PyStr.truthy dates) eqn:Et.
  - rewrite !sum_histogram. repeat split; lia.
  - destruct dates; [|discriminate]. cbn. repeat split; lia.
Qed.

Lemma date_histogram_totals_witness :
  exists stats st',
    get_commit_stats Sample.alice_repo "alice" (Sample.start ".") = (Ok stats, st')
    /\ sum_Z (List.map snd (commits_by_year stats)) = 3%Z
    /\ sum_Z (List.map snd (commits_by_month stats)) = 3%Z.
Proof.
  destruct (get_commit_stats Sample.alice_repo "alice" (Sample.start "."))
    as [[stats|e] st'] eqn:E; [|vm_compute in E; discriminate E].
  exists stats, st'. split; [reflexivity|].
  destruct (date_histogram_totals Sample.alice_repo "alice" (Sample.start ".") st' stats E)
    as (dates & Hl & Hy & Hm & _).
  vm_compute in Hl. injection Hl as <-. split; [exact Hy | exact Hm].
Defined.

(** ** The per-branch counts *)

Lemma dict_set_keys {V} k (v : V) d k' :
  List.In k' (List.map fst (dict_set k v d)) <-> k' = k \/ List.In k' (List.map fst d).
Proof.
  induction d as [|[k0 v0] d IH]; cbn; [intuition|].
  destruct (String.eqb_spec k k0) as [->|Hne]; cbn; [intuition|].
  rewrite IH. intuition.
Qed.

Lemma dict_set_NoDup {V} k (v : V) d :
  List.NoDup (List.map fst d) -> List.NoDup (List.map fst (dict_set k v d)).
Proof.
  induction d as [|[k0 v0] d IH]; cbn; intros Hnd.
  - constructor; [intros []|constructor].
  - inversion Hnd as [|? ? Hnotin Hnd']; subst.
    destruct (String.eqb_spec k k0) as [->|Hne]; cbn.
    + constructor; assumption.
    + constructor; [|apply IH, Hnd'].
      rewrite dict_set_keys. intros [->|Hin]; [congruence | exact (Hnotin Hin)].
Qed.

Lemma dict_set_Forall {V} (Q : string * V -> Prop) k v d :
  Q (k, v) -> List.Forall Q d -> List.Forall Q (dict_set k v d).
Proof.
  intros Hkv. induction d as [|[k0 v0] d IH]; cbn; intros Hall.
  - constructor; [exact Hkv | constructor].
  - inversion Hall; subst.
    destruct (String.eqb k k0); constructor; auto.
Qed.

(** A per-branch mapping as the loop keeps it: distinct branch names, each
    with a strictly positive count. *)
Definition branch_counts_ok (d : list (string * Z)) : Prop :=
  List.NoDup (List.map fst d) /\ List.Forall (fun kv => (0 < snd kv)%Z) d.

Lemma branch_loop_ok W username date_filter branches acc st counts st' :
  branch_counts_ok acc ->
  branch_loop W username date_filter branches acc st = (Ok counts, st') ->
  branch_counts_ok counts.
Proof.
  revert acc st. induction branches as [|branch rest IH]; intros acc st Hacc;
    cbn [branch_loop].
  - intros [= <- _]. exact Hacc.
  - destruct (PyStr.truthy (PyStr.strip branch)); [|apply IH, Hacc].
    unfold bind, attempt.
    destruct (run_git_command W _ st) as [[output|e] st1].
    + apply IH. destruct (0 <? count_output_lines output)%Z eqn:E; [|exact Hacc].
      apply Z.ltb_lt in E. destruct Hacc as [Hnd Hall].
      split; [apply dict_set_NoDup, Hnd | apply dict_set_Forall; [exact E | exact Hall]].
    + unfold print, emit, ret. intros [= <- _]. exact Hacc.
Qed.

(** In the statistics [get_commit_stats] returns, the per-branch mapping
    has no branch name twice and no count that is zero or negative: a
    branch without commits of the author is left out. *)
Theorem commits_by_branch_positive (W : World) (username : string) (st st' : State)
    (stats : CommitStats) :
  get_commit_stats W username st = (Ok stats, st') ->
  List.NoDup (List.map fst (commits_by_branch stats))
  /\ List.Forall (fun kv => (0 < snd kv)%Z) (commits_by_branch stats).
Proof.
  unfold get_commit_stats, bind, get_self.
  assert (Hself : self_ st = self_ st) by reflexivity.
  do 7 run_listing.
  assert (Hnil : branch_counts_ok []) by (split; constructor).
  match goal with
  | |- context [match attempt ?m ?s with _ => _ end] =>
      destruct (attempt m s) as [[[?|?]|?] ?]; [| |discriminate]
  end.
  - unfold print, emit, ret. cbn. intros [= <- <-]. exact Hnil.
  - match goal with
    | |- context [if ?b then _ else _] => destruct b
    end.
    + match goal with
      | |- context [match branch_loop ?W ?u ?d ?l ?a ?s with _ => _ end] =>
          destruct (branch_loop W u d l a s) as [[counts|?] ?] eqn:Eloop; [|discriminate]
      end.
      unfold ret. intros [= <- <-]. cbn [commits_by_branch].
      exact (branch_loop_ok _ _ _ _ _ _ _ _ Hnil Eloop).
    + unfold ret. intros [= <- <-]. exact Hnil.
Qed.

Module Sample_branches.

(** The checkout of alice with three remote branches: two of them hold
    commits of hers, one does not. *)
Definition repo : World :=
  Sample.with_spawn
    (fun cwd argv =>
       if Sample.has_arg "branch" argv
       then Completed 0 (Sample.unlines ["  origin/HEAD -> origin/main"; "  origin/main";
                                         "  origin/feature"; "  origin/empty"]) ""
       else if Sample.has_arg "--oneline" argv && negb (Sample.has_arg "--all" argv)
       then
         if Sample.has_arg "origin/main" argv
         then Completed 0 (Sample.unlines ["b2b2b2b update readme"; "a1a1a1a initial"]) ""
         else if Sample.has_arg "origin/feature" argv
         then Completed 0 "c3c3c3c add image" ""
         else Completed 128 "" "fatal: ambiguous argument"
       else Sample.git_in "." Sample.alice_listings cwd argv)
    Sample.alice_repo.

Definition by_branch : option (list (string * Z)) :=
  match fst (get_commit_stats repo "alice" (Sample.start ".")) with
  | Ok stats => Some (commits_by_branch stats)
  | Raise _ => None
  end.

End Sample_branches.

Example by_branch_ex :
  Sample_branches.by_branch = Some [("main", 2%Z); ("feature", 1%Z)].
Proof. vm_compute. reflexivity. Qed.

Lemma commits_by_branch_positive_witness :
  exists stats st',
    get_commit_stats Sample_branches.repo "alice" (Sample.start ".") = (Ok stats, st')
    /\ List.NoDup (List.map fst (commits_by_branch stats))
    /\ List.Forall (fun kv => (0 < snd kv)%Z) (commits_by_branch stats).
Proof.
  destruct (get_commit_stats Sample_branches.repo "alice" (Sample.start "."))
    as [[stats|e] st'] eqn:E; [|vm_compute in E; discriminate E].
  exists stats, st'. split; [reflexivity|].
  exact (commits_by_branch_positive Sample_branches.repo "alice" (Sample.start ".") st' stats E).
Defined.

(** ** Failing commands *)

(** Every [git] command of [self] exits with a non-zero status. *)
Definition git_always_fails (W : World) (self : Self) : Prop :=
  forall command,
    exists rc out err,
      spawn W (Some (repo_path self)) ("git" :: command) = Completed rc out err
      /\ rc <> 0%Z.

Lemma run_git_command_fails W self command st :
  git_always_fails W self -> self_ st = self ->
  exists st', run_git_command W command st = (Ok "", st') /\ self_ st' = self.
Proof.
  intros Hfail Hs. destruct (Hfail command) as (rc & out & err & Hspawn & Hrc).
  rewrite run_git_command_unfold. cbn zeta. rewrite Hs, Hspawn.
  apply Z.eqb_neq in Hrc. rewrite Hrc. eexists. split; [reflexivity | exact Hs].
Qed.

Ltac run_failing Hfail :=
  match goal with
  | Hself : self_ ?s = _ |- context [run_git_command ?W ?c ?s] =>
      let st1 := fresh "st" in
      let Hs := fresh "Hs" in
      destruct (run_git_command_fails W _ c s Hfail Hself) as (st1 & -> & Hs);
      clear Hself; cbn beta iota
  end.

(** When every [git] command fails, both collectors still return, with
    every statistic at its zero or empty value. *)
Theorem collectors_degrade_to_empty (W : World) (username : string) (st : State) :
  git_always_fails W (self_ st) ->
  fst (get_commit_stats W username st)
  = Ok {| total_commits := 0; unique_commits := 0; recent_commits := 0;
          first_commit := None; last_commit := None;
          commits_by_branch := []; commits_by_year := [];
          commits_by_day := []; commits_by_month := [] |}
  /\ fst (get_lines_of_code W username st)
     = Ok {| files_modified := 0; total_loc := 0; lines_added := 0; lines_deleted := 0;
             net_lines := 0; files_by_extension := ∅; largest_files := [] |}.
Proof.
  intros Hfail. split.
  - unfold get_commit_stats, bind, get_self, attempt.
    assert (Hself : self_ st = self_ st) by reflexivity.
    do 8 run_failing Hfail. reflexivity.
  - unfold get_lines_of_code, bind, get_self.
    assert (Hself : self_ st = self_ st) by reflexivity.
    do 2 run_failing Hfail. reflexivity.
Qed.

Lemma collectors_degrade_to_empty_witness :
  fst (get_commit_stats Sample_C3.no_repo "alice" Sample_C3.st0)
  = Ok {| total_commits := 0; unique_commits := 0; recent_commits := 0;
          first_commit := None; last_commit := None;
          commits_by_branch := []; commits_by_year := [];
          commits_by_day := []; commits_by_month := [] |}
  /\ fst (get_lines_of_code Sample_C3.no_repo "alice" Sample_C3.st0)
     = Ok {| files_modified := 0; total_loc := 0; lines_added := 0; lines_deleted := 0;
             net_lines := 0; files_by_extension := ∅; largest_files := [] |}.
Proof.
  apply (collectors_degrade_to_empty Sample_C3.no_repo "alice" Sample_C3.st0).
  intros command. exists 128%Z, "".
  exists "fatal: not a git repository (or any of the parent directories): .git".
  split; [reflexivity | discriminate].
Defined.

(** ** Current line counts and the ranking of files *)

(** The number of lines the loop counts for a path: [None] when the path
    is no regular file for the process or cannot be read. *)
Definition current_lines (W : World) (file_path : string) : option Z :=
  if os_path_isfile W file_path then count_lines W file_path else None.

(** The counted files among [files], in the order of the loop. *)
Definition counted_files (W : World) (files : list string) : list (string * Z) :=
  omap (fun f => option_map (pair f) (current_lines W f)) files.

Lemma counted_files_cons W f files :
  counted_files W (f :: files) =
  match current_lines W f with
  | Some n => (f, n) :: counted_files W files
  | None => counted_files W files
  end.
Proof. unfold counted_files. cbn. destruct (current_lines W f); reflexivity. Qed.

Lemma count_file_current W acc f :
  count_file W acc f =
  match current_lines W f with
  | Some n =>
      {| acc_total := acc_total acc + n;
         acc_sizes := acc_sizes acc ++ [(f, n)];
         acc_exts := <[PyPath.ext f := (default 0 (acc_exts acc !! PyPath.ext f) + n)%Z]>
                       (acc_exts acc) |}
  | None => acc
  end.
Proof.
  unfold count_file, current_lines. destruct (os_path_isfile W f); reflexivity.
Qed.

Lemma fold_count_file_sizes W files acc :
  acc_sizes (fold_left (count_file W) files acc)
  = (acc_sizes acc ++ counted_files W files)%list
  /\ acc_total (fold_left (count_file W) files acc)
     = (acc_total acc + sum_Z (List.map snd (counted_files W files)))%Z.
Proof.
  revert acc. induction files as [|f files IH]; intros acc; cbn [fold_left].
  - unfold sum_Z. cbn. rewrite app_nil_r. split; [reflexivity | lia].
  - destruct (IH (count_file W acc f)) as [IH1 IH2]. rewrite IH1, IH2.
    rewrite counted_files_cons, count_file_current.
    destruct (current_lines W f) as [n|]; [|split; reflexivity].
    cbn [acc_sizes acc_total]. rewrite <- app_assoc. split; [reflexivity|].
    unfold sum_Z. cbn. lia.
Qed.

Lemma counted_files_In W files f n :
  List.In (f, n) (counted_files W files) <-> List.In f files /\ current_lines W f = Some n.
Proof.
  induction files as [|g files IH]; [cbn; tauto|].
  rewrite counted_files_cons. cbn [List.In].
  destruct (current_lines W g) as [m|] eqn:E; cbn [List.In].
  - rewrite IH. split.
    + intros [[= -> ->]|[H1 H2]]; [split; [left; reflexivity | exact E] | tauto].
    + intros [[->|H1] H2]; [left; congruence | right; tauto].
  - rewrite IH. split; [tauto|]. intros [[->|H1] H2]; [congruence | tauto].
Qed.

Lemma counted_files_nonneg W files :
  List.Forall (fun kv => (0 <= snd kv)%Z) (counted_files W files).
Proof.
  apply List.Forall_forall. intros [f n] Hin. apply counted_files_In in Hin.
  destruct Hin as [_ Hn]. unfold current_lines, count_lines in Hn.
  destruct (os_path_isfile W f); [|discriminate].
  destruct (node_at W f) as [[|[lines|]]|]; try discriminate.
  injection Hn as <-. cbn. lia.
Qed.

Lemma counted_files_length W files :
  List.length (counted_files W files) <= List.length files.
Proof.
  induction files as [|f files IH]; [cbn; lia|].
  rewrite counted_files_cons. destruct (current_lines W f); cbn [List.length]; lia.
Qed.

Lemma sum_Z_nonneg (l : list (string * Z)) :
  List.Forall (fun kv => (0 <= snd kv)%Z) l -> (0 <= sum_Z (List.map snd l))%Z.
Proof. unfold sum_Z. induction 1; cbn; lia. Qed.

(** [total_loc] is the sum, over the touched paths, of the lines counted
    for each (nothing for a path that is no regular file or cannot be
    read); it is never negative, and [files_modified] counts every touched
    path, counted or not. *)
Theorem total_loc_sum (W : World) (username : string) (st st' : State) (stats : LocStats) :
  get_lines_of_code W username st = (Ok stats, st') ->
  exists names,
    listing_of W (self_ st) (names_command (self_ st) username) = Some names
    /\ files_modified stats = Z.of_nat (size (touched_files names))
    /\ total_loc stats
       = sum_Z (List.map (fun f => default 0%Z (current_lines W f))
                  (elements (touched_files names)))
    /\ (0 <= total_loc stats)%Z
    /\ (Z.of_nat (List.length (counted_files W (elements (touched_files names))))
        <= files_modified stats)%Z.
Proof.
  rewrite get_lines_of_code_unfold.
  pose proof (run_git_command_listing W (names_command (self_ st) username) st) as H1.
  destruct (listing_of W (self_ st) (names_command (self_ st) username)) as [names|];
    [|destruct H1 as (e & st1 & ->); discriminate].
  destruct H1 as (st1 & -> & _).
  destruct (run_git_command W _ st1) as [[numstat|e] st2]; [|discriminate].
  cbn zeta. intros [= <- <-]. exists names. cbn [files_modified total_loc].
  split; [reflexivity|]. split; [reflexivity|].
  destruct (fold_count_file_sizes W (elements (touched_files names)) loc_acc0) as [_ Ht].
  rewrite Ht. cbn [acc_total loc_acc0].
  pose proof (counted_files_nonneg W (elements (touched_files names))) as Hnn.
  apply sum_Z_nonneg in Hnn.
  pose proof (counted_files_length W (elements (touched_files names))) as Hlen.
  split; [|split; [lia | unfold size, set_size; cbn; lia]].
  rewrite Z.add_0_l. clear.
  induction (elements (touched_files names)) as [|f files IH]; [reflexivity|].
  rewrite counted_files_cons. unfold sum_Z in *. cbn [List.map fold_right].
  destruct (current_lines W f) as [n|]; cbn [List.map fold_right snd default];
    rewrite IH; unfold id; lia.
Qed.

Lemma total_loc_sum_witness :
  exists stats st',
    get_lines_of_code Sample.alice_repo "alice" (Sample.start ".") = (Ok stats, st')
    /\ files_modified stats = 3%Z /\ total_loc stats = 5%Z.
Proof.
  destruct (get_lines_of_code Sample.alice_repo "alice" (Sample.start "."))
    as [[stats|e] st'] eqn:E; [|vm_compute in E; discriminate E].
  exists stats, st'. split; [reflexivity|].
  destruct (total_loc_sum Sample.alice_repo "alice" (Sample.start ".") st' stats E)
    as (names & Hn & Hf & Ht & _).
  vm_compute in Hn. injection Hn as <-.
  rewrite Hf, Ht. split; vm_compute; reflexivity.
Defined.

Section TopOfSorted.
Context {A : Type} (R : A -> A -> Prop).

Lemma In_firstn k (l : list A) x : List.In x (firstn k l) -> List.In x l.
Proof.
  intros H. rewrite <- (List.firstn_skipn k l). apply List.in_or_app. left. exact H.
Qed.

Lemma In_skipn k (l : list A) x : List.In x (skipn k l) -> List.In x l.
Proof.
  intros H. rewrite <- (List.firstn_skipn k l). apply List.in_or_app. right. exact H.
Qed.

Lemma firstn_Sorted k l : Sorted R l -> Sorted R (firstn k l).
Proof.
  revert k. induction l as [|x l IH]; intros [|k] Hs; cbn; try constructor.
  - apply IH. inversion Hs; assumption.
  - inversion Hs as [|? ? _ Hhd]; subst.
    destruct l as [|y l]; destruct k; cbn; constructor.
    inversion Hhd; assumption.
Qed.

Lemma firstn_below_rest k l x y :
  StronglySorted R l -> List.In x (firstn k l) -> List.In y (skipn k l) -> R x y.
Proof.
  revert k. induction l as [|z l IH]; intros [|k] Hs; cbn; try tauto.
  inversion Hs as [|? ? Hl Hall]; subst.
  intros [->|Hx] Hy.
  - apply (proj1 (List.Forall_forall _ _) Hall). eapply In_skipn; eauto.
  - eapply IH; eauto.
Qed.

End TopOfSorted.

(** [largest_files] holds at most ten entries in descending order of line
    count; each is a touched path with the lines counted for it, every
    counted file that is left out has no more lines than any entry, and
    with at most ten counted files all of them are listed. *)
Theorem largest_files_top_ten (W : World) (username : string) (st st' : State)
    (stats : LocStats) :
  get_lines_of_code W username st = (Ok stats, st') ->
  exists names,
    listing_of W (self_ st) (names_command (self_ st) username) = Some names
    /\ List.length (largest_files stats) <= 10
    /\ Sorted (fun a b => (snd b <= snd a)%Z) (largest_files stats)
    /\ (forall f n,
          List.In (f, n) (largest_files stats) ->
          f ∈ touched_files names /\ current_lines W f = Some n)
    /\ (forall f n,
          f ∈ touched_files names -> current_lines W f = Some n ->
          List.In (f, n) (largest_files stats)
          \/ forall g m, List.In (g, m) (largest_files stats) -> (n <= m)%Z)
    /\ (List.length (counted_files W (elements (touched_files names))) <= 10 ->
        Permutation (largest_files stats)
          (counted_files W (elements (touched_files names)))).
Proof.
  rewrite get_lines_of_code_unfold.
  pose proof (run_git_command_listing W (names_command (self_ st) username) st) as H1.
  destruct (listing_of W (self_ st) (names_command (self_ st) username)) as [names|];
    [|destruct H1 as (e & st1 & ->); discriminate].
  destruct H1 as (st1 & -> & _).
  destruct (run_git_command W _ st1) as [[numstat|e] st2]; [|discriminate].
  cbn zeta. intros [= <- <-]. exists names. cbn [largest_files].
  destruct (fold_count_file_sizes W (elements (touched_files names)) loc_acc0) as [Hs _].
  rewrite Hs. cbn [acc_sizes loc_acc0 app].
  set (counted := counted_files W (elements (touched_files names))).
  assert (Hperm : Permutation (sorted_desc snd counted) counted) by apply sorted_desc_perm.
  assert (Hsorted : Sorted (fun a b : string * Z => (snd b <= snd a)%Z) (sorted_desc snd counted))
    by apply sorted_desc_Sorted.
  assert (Hin : forall f n, List.In (f, n) counted
                            <-> f ∈ touched_files names /\ current_lines W f = Some n).
  { intros f n. unfold counted. rewrite counted_files_In, <- list_elem_of_In, elem_of_elements.
    reflexivity. }
  split; [reflexivity|]. split; [apply List.firstn_le_length|].
  split; [apply firstn_Sorted, Hsorted|]. split; [|split].
  - intros f n H. apply Hin. eapply Permutation_in; [exact Hperm|].
    eapply In_firstn. exact H.
  - intros f n Hf Hn.
    assert (H : List.In (f, n) (sorted_desc snd counted)).
    { eapply Permutation_in; [symmetry; exact Hperm|]. apply Hin. tauto. }
    rewrite <- (List.firstn_skipn 10 (sorted_desc snd counted)) in H.
    apply List.in_app_or in H. destruct H as [H|H]; [left; exact H|].
    right. intros g m Hg.
    apply (firstn_below_rest (fun a b : string * Z => (snd b <= snd a)%Z) 10
             (sorted_desc snd counted) (g, m) (f, n)); [|exact Hg|exact H].
    apply Sorted_StronglySorted; [|exact Hsorted].
    intros a b c Hab Hbc. lia.
  - intros Hlen. rewrite List.firstn_all2; [exact Hperm|].
    rewrite (Permutation_length Hperm). exact Hlen.
Qed.

Lemma largest_files_top_ten_witness :
  exists stats st',
    get_lines_of_code Sample.alice_repo "alice" (Sample.start ".") = (Ok stats, st')
    /\ List.length (largest_files stats) <= 10
    /\ Sorted (fun a b => (snd b <= snd a)%Z) (largest_files stats).
Proof.
  destruct (get_lines_of_code Sample.alice_repo "alice" (Sample.start "."))
    as [[stats|e] st'] eqn:E; [|vm_compute in E; discriminate E].
  exists stats, st'. split; [reflexivity|].
  destruct (largest_files_top_ten Sample.alice_repo "alice" (Sample.start ".") st' stats E)
    as (names & _ & Hlen & Hsorted & _).
  split; [exact Hlen | exact Hsorted].
Defined.

(** ** The existence check *)

Definition not_space (c : ascii) : bool := negb (PyStr.is_space c).

Lemma truthy_lstrip_by p s :
  PyStr.truthy (PyStr.lstrip_by p s) = PyStr.existsb (fun c => negb (p c)) s.
Proof.
  induction s as [|c s IH]; [reflexivity|]. simpl.
  destruct (p c); [exact IH | reflexivity].
Qed.

Lemma existsb_rstrip_by p s :
  PyStr.existsb (fun c => negb (p c)) (PyStr.rstrip_by p s)
  = PyStr.existsb (fun c => negb (p c)) s.
Proof.
  induction s as [|c s IH]; [reflexivity|]. simpl.
  destruct (PyStr.rstrip_by p s) as [|d r].
  - rewrite <- IH. destruct (p c) eqn:E; simpl; [reflexivity | rewrite E; reflexivity].
  - simpl in *. rewrite IH. reflexivity.
Qed.

(** A text is kept by [strip] exactly when it holds a character that is
    not white space. *)
Lemma truthy_strip s : PyStr.truthy (PyStr.strip s) = PyStr.existsb not_space s.
Proof.
  unfold PyStr.strip, PyStr.lstrip, PyStr.rstrip.
  rewrite truthy_lstrip_by. apply existsb_rstrip_by.
Qed.

(** [check_user_exists] answers [True] exactly when the existence query
    exits with status zero and prints something other than white space: a
    failed query and an author without commits are told apart by nothing
    but the printed diagnostics. *)
Theorem check_user_exists_iff (W : World) (username : string) (st : State)
    (rc : Z) (out err : string) :
  spawn W (Some (repo_path (self_ st))) ("git" :: user_command (self_ st) username)
  = Completed rc out err ->
  fst (check_user_exists W username st) = Ok ((rc =? 0)%Z && PyStr.existsb not_space out).
Proof.
  intros Hspawn. unfold check_user_exists, bind, get_self.
  fold (user_command (self_ st) username).
  rewrite run_git_command_unfold. cbn zeta. rewrite Hspawn.
  destruct (rc =? 0)%Z; cbn; [rewrite truthy_strip|]; reflexivity.
Qed.

Lemma check_user_exists_iff_witness :
  fst (check_user_exists Sample.alice_repo "alice" (Sample.start ".")) = Ok true
  /\ fst (check_user_exists Sample_C3.no_repo "alice" Sample_C3.st0) = Ok false.
Proof.
  split.
  - exact (check_user_exists_iff Sample.alice_repo "alice" (Sample.start ".") 0%Z
             (Sample.l_oneline Sample.alice_listings) "" eq_refl).
  - exact (check_user_exists_iff Sample_C3.no_repo "alice" Sample_C3.st0 128%Z ""
             "fatal: not a git repository (or any of the parent directories): .git" eq_refl).
Defined.
